(** * jaeger_client.codecs: a shallow embedding and its properties

    The file embeds [jaeger_client/codecs.py]: the four propagation codecs
    (TextCodec, BinaryCodec, ZipkinCodec, B3Codec) and the helpers
    [span_context_to_string], [span_context_from_string] and [header_to_hex].

    Conventions of the embedding:
    - a Python value is a [pyval]; the universe covers [None], [int], [str]
      and [list], the values that headers and id fields take;
    - a Python [str] is a [string]; it stands for the UTF-8 encoding of the
      text, so [str.encode('utf-8')] is the list of its bytes. The [str]
      methods used by the codecs ([lower], [strip], [split], [startswith],
      slicing, [int(_, 16)]) are embedded by their action on ASCII
      characters, the alphabet of header names and hex fields;
    - a [dict] is an association list in insertion order;
    - a raised exception is the [Raise] branch of [result];
    - the class [SpanContext] lives in [span_context.py], outside the
      module: the record of its fields and its constructor are modelled
      from the specification of the data model. *)

From Stdlib Require Import ZArith NArith List String Ascii Bool Lia.
From Stdlib Require Import Strings.Byte.
Import ListNotations.
Open Scope string_scope.
Open Scope Z_scope.

Set Warnings "-register-all".

(** ** Python values, exceptions and results *)

Inductive pyval : Type :=
| PNone
| PInt (z : Z)
| PStr (s : string)
| PList (l : list pyval).

(** The exception classes the module raises or lets escape. The carrier
    exception keeps its message, which names what is wrong. *)
Inductive exn : Type :=
| InvalidCarrierException (msg : string)
| SpanContextCorruptedException
| struct_error
| UnicodeDecodeError
| TypeError
| AttributeError
| ValueError
| NotImplementedError.

Inductive result (A : Type) : Type :=
| Ok (a : A)
| Raise (e : exn).
Arguments Ok {A} a.
Arguments Raise {A} e.

Definition bind {A B : Type} (r : result A) (k : A -> result B) : result B :=
  match r with
  | Ok a => k a
  | Raise e => Raise e
  end.

Notation "x <- e ;; k" := (bind e (fun x => k))
  (at level 61, e at next level, right associativity).
Notation "' p <- e ;; k" := (bind e (fun x => let p := x in k))
  (at level 61, p pattern, e at next level, right associativity).

(** [bool(v)]: the truth value of a Python value. *)
Definition truthy (v : pyval) : bool :=
  match v with
  | PNone => false
  | PInt z => negb (z =? 0)
  | PStr s => negb (String.eqb s "")
  | PList l => match l with [] => false | _ :: _ => true end
  end.

(** [a or b] *)
Definition py_or (a b : pyval) : pyval := if truthy a then a else b.

Definition is_none (v : pyval) : bool :=
  match v with PNone => true | _ => false end.

(** [a == b] for a value against a [str] literal. *)
Definition eq_str (v : pyval) (s : string) : bool :=
  match v with PStr t => String.eqb t s | _ => false end.

(** ** Dictionaries *)

Definition dict (V : Type) : Type := list (string * V).

Fixpoint dict_get {V : Type} (d : dict V) (k : string) : option V :=
  match d with
  | [] => None
  | (k', v) :: r => if String.eqb k' k then Some v else dict_get r k
  end.

(** [d[k] = v]: an existing key keeps its place, a new key goes last. *)
Fixpoint dict_set {V : Type} (d : dict V) (k : string) (v : V) : dict V :=
  match d with
  | [] => [(k, v)]
  | (k', v') :: r =>
      if String.eqb k' k then (k', v) :: r else (k', v') :: dict_set r k v
  end.

(** ** Strings *)

Definition is_upper (c : ascii) : bool :=
  let n := nat_of_ascii c in (Nat.leb 65 n && Nat.leb n 90)%bool.

Definition lower_char (c : ascii) : ascii :=
  if is_upper c then ascii_of_nat (nat_of_ascii c + 32) else c.

(** [s.lower()] *)
Fixpoint lower (s : string) : string :=
  match s with
  | EmptyString => EmptyString
  | String c r => String (lower_char c) (lower r)
  end.

(** [s.replace(a, b)] for one-character [a] and [b]. *)
Fixpoint replace_char (a b : ascii) (s : string) : string :=
  match s with
  | EmptyString => EmptyString
  | String c r => String (if Ascii.eqb c a then b else c) (replace_char a b r)
  end.

(** [s.startswith(p)] *)
Definition startswith (s p : string) : bool := String.prefix p s.

(** [s[n:]] for a non-negative [n]. *)
Fixpoint str_drop (n : nat) (s : string) : string :=
  match n, s with
  | O, _ => s
  | S k, EmptyString => EmptyString
  | S k, String _ r => str_drop k r
  end.

(** [s.split(sep)] for a one-character separator: never an empty list. *)
Fixpoint split (sep : ascii) (s : string) : list string :=
  match s with
  | EmptyString => [EmptyString]
  | String c r =>
      if Ascii.eqb c sep then EmptyString :: split sep r
      else match split sep r with
           | h :: t => String c h :: t
           | [] => [String c EmptyString]
           end
  end.

(** The characters [str.strip()] removes, among ASCII: tab, line feed,
    vertical tab, form feed, carriage return, the four separators
    0x1c..0x1f and the space. *)
Definition is_space (c : ascii) : bool :=
  let n := nat_of_ascii c in
  ((Nat.leb 9 n && Nat.leb n 13) || (Nat.leb 28 n && Nat.leb n 32))%bool.

Fixpoint lstrip (s : string) : string :=
  match s with
  | EmptyString => EmptyString
  | String c r => if is_space c then lstrip r else s
  end.

Fixpoint rstrip (s : string) : string :=
  match s with
  | EmptyString => EmptyString
  | String c r =>
      match rstrip r with
      | EmptyString => if is_space c then EmptyString else String c EmptyString
      | r' => String c r'
      end
  end.

(** [s.strip()] *)
Definition strip (s : string) : string := rstrip (lstrip s).

(** Number of occurrences of a character. *)
Fixpoint count_char (a : ascii) (s : string) : nat :=
  match s with
  | EmptyString => O
  | String c r => ((if Ascii.eqb c a then 1 else 0) + count_char a r)%nat
  end.

(** ** Hexadecimal text *)

Definition hex_digit (n : N) : ascii :=
  if (n <? 10)%N then ascii_of_N (48 + n) else ascii_of_N (87 + n).

Fixpoint hex_digits (fuel : nat) (n : N) (acc : string) : string :=
  match fuel with
  | O => acc
  | S k =>
      let acc' := String (hex_digit (n mod 16)) acc in
      if (n / 16 =? 0)%N then acc' else hex_digits k (n / 16) acc'
  end.

Definition hex_of_N (n : N) : string := hex_digits (S (N.to_nat (N.log2 n))) n "".

(** [format(z, 'x')] on an [int]: lower-case hex, no padding, a minus sign
    for a negative number. *)
Definition hex_of_Z (z : Z) : string :=
  if z <? 0 then String "-" (hex_of_N (Z.to_N (- z))) else hex_of_N (Z.to_N z).

(** [format(v, 'x')] and ['{:x}'.format(v)]: only an [int] has the
    presentation type ['x']. *)
Definition format_x (v : pyval) : result string :=
  match v with
  | PInt z => Ok (hex_of_Z z)
  | PStr _ => Raise ValueError
  | PNone | PList _ => Raise TypeError
  end.

Fixpoint zeros (n : nat) : string :=
  match n with O => EmptyString | S k => String "0" (zeros k) end.

(** [s.zfill(width)]: zeros go after a leading sign. *)
Definition zfill (width : nat) (s : string) : string :=
  let pad := zeros (width - String.length s) in
  match s with
  | String c r =>
      if (Ascii.eqb c "+" || Ascii.eqb c "-")%bool then String c (pad ++ r)
      else pad ++ s
  | EmptyString => pad
  end.

Definition hex_value (c : ascii) : option Z :=
  let n := Z.of_nat (nat_of_ascii c) in
  if (48 <=? n) && (n <=? 57) then Some (n - 48)
  else if (97 <=? n) && (n <=? 102) then Some (n - 87)
  else if (65 <=? n) && (n <=? 70) then Some (n - 55)
  else None.

(** The white space [int()] skips around a literal. *)
Definition is_c_space (c : ascii) : bool :=
  let n := nat_of_ascii c in
  ((Nat.leb 9 n && Nat.leb n 13) || Nat.eqb n 32)%bool.

Fixpoint skip_c_space (s : string) : string :=
  match s with
  | EmptyString => EmptyString
  | String c r => if is_c_space c then skip_c_space r else s
  end.

(** The digit run of a literal: hex digits with single underscores between
    them. [prev] tells whether the previous character was an underscore,
    [seen] whether a character was consumed. The result is the value and
    the rest of the text, or [None] for a doubled or trailing underscore or
    an empty run. *)
Fixpoint scan_digits (s : string) (acc : Z) (prev seen : bool)
  : option (Z * string) :=
  match s with
  | EmptyString => if (prev || negb seen)%bool then None else Some (acc, s)
  | String c r =>
      if Ascii.eqb c "_" then
        if prev then None else scan_digits r acc true true
      else
        match hex_value c with
        | Some d => scan_digits r (16 * acc + d) false true
        | None => if (prev || negb seen)%bool then None else Some (acc, s)
        end
  end.

(** [int(s, 16)]: [None] stands for [ValueError]. Leading and trailing
    white space, one sign, an optional [0x] or [0X] with one underscore
    after it, then the digit run, which may not start with an underscore. *)
Definition int16 (s : string) : option Z :=
  let s1 := skip_c_space s in
  let '(neg, s2) :=
    match s1 with
    | String "+" r => (false, r)
    | String "-" r => (true, r)
    | _ => (false, s1)
    end in
  let s3 :=
    match s2 with
    | String "0" (String x r) =>
        if (Ascii.eqb x "x" || Ascii.eqb x "X")%bool then
          match r with
          | String "_" r' => r'
          | _ => r
          end
        else s2
    | _ => s2
    end in
  match s3 with
  | String "_" _ => None
  | _ =>
      match scan_digits s3 0 false false with
      | Some (v, rest) =>
          match skip_c_space rest with
          | EmptyString => Some (if neg then - v else v)
          | _ => None
          end
      | None => None
      end
  end.

(** [int(s, 16)] as a computation that can raise [ValueError]. *)
Definition py_int16 (s : string) : result Z :=
  match int16 s with
  | Some z => Ok z
  | None => Raise ValueError
  end.

(** [try: body except ValueError: handler] *)
Definition except_ValueError {A : Type} (body handler : result A) : result A :=
  match body with
  | Raise ValueError => handler
  | r => r
  end.

(** ** The context value and the carriers *)

(** Modelled from the spec: the class [SpanContext] of [span_context.py],
    which is not part of the sources at hand. The spec gives its contract:
    construction from [trace_id], [span_id], [parent_id], [flags], [baggage]
    and [debug_id], and read access to each of those fields. The record
    holds the six fields and the projections read them; a field holds a
    Python value, [baggage] is [None] or a [dict]. *)
Record SpanContext : Type := Build_SpanContext {
  trace_id : pyval;
  span_id : pyval;
  parent_id : pyval;
  flags : pyval;
  baggage : option (dict pyval);
  debug_id : pyval
}.

(** Modelled from the spec: the constructor [SpanContext(...)], whose code
    is in [span_context.py] too. The data model has a [parent_id] that is
    an unsigned integer or absent, with 0 the encoding of "absent" in every
    format: a wire value of 0 decodes to absent, never to the integer 0. So
    the context built from a [parent_id] of 0 holds [None]; every other
    argument is stored as it is passed. *)
Definition mkSpanContext (trace_id span_id parent_id flags : pyval)
  (baggage : option (dict pyval)) (debug_id : pyval) : SpanContext :=
  Build_SpanContext trace_id span_id
    (match parent_id with PInt 0 => PNone | _ => parent_id end)
    flags baggage debug_id.

(** What a caller can pass as carrier: a [dict] with its items in
    insertion order, a [bytearray], or some other object, given by its data
    attributes. *)
Inductive carrier : Type :=
| CDict (items : dict pyval)
| CBytearray (data : list byte)
| CObject (attrs : dict pyval).

(** [not baggage] for a baggage that is [None] or a [dict]. *)
Definition baggage_falsy (b : option (dict pyval)) : bool :=
  match b with
  | None | Some [] => true
  | Some (_ :: _) => false
  end.

(** ** The combined trace header *)

(** [span_context_to_string]: [{trace_id:x}:{span_id:x}:{parent_id:x}:{flags:x}];
    a [parent_id] of [None] is written as 0. *)
Definition span_context_to_string (trace_id span_id parent_id flags : pyval)
  : result string :=
  let parent_id := py_or parent_id (PInt 0) in
  t <- format_x trace_id ;;
  s <- format_x span_id ;;
  p <- format_x parent_id ;;
  f <- format_x flags ;;
  Ok (t ++ ":" ++ s ++ ":" ++ p ++ ":" ++ f).

(** [span_context_from_string]: the four fields of a combined header, or
    [SpanContextCorruptedException]. *)
Definition span_context_from_string (value : pyval)
  : result (pyval * pyval * pyval * pyval) :=
  value <- match value with
           | PList (first :: others) =>
               match others with
               | [] => Ok first
               | _ :: _ => Raise SpanContextCorruptedException
               end
           | _ => Ok value
           end ;;
  match value with
  | PStr s =>
      match split ":" s with
      | [p0; p1; p2; p3] =>
          except_ValueError
            (trace_id <- py_int16 p0 ;;
             span_id <- py_int16 p1 ;;
             parent_id <- py_int16 p2 ;;
             flags <- py_int16 p3 ;;
             if (trace_id <? 1) || (span_id <? 1) || (parent_id <? 0)
                || (flags <? 0)
             then Raise SpanContextCorruptedException
             else
               let parent_id := if parent_id =? 0 then PNone else PInt parent_id in
               Ok (PInt trace_id, PInt span_id, parent_id, PInt flags))
            (Raise SpanContextCorruptedException)
      | _ => Raise SpanContextCorruptedException
      end
  | _ => Raise SpanContextCorruptedException
  end.

(** ** The codec contract *)

Module Codec.

Definition inject (span_context : SpanContext) (c : carrier) : result carrier :=
  Raise NotImplementedError.

Definition extract (c : carrier) : result (option SpanContext) :=
  Raise NotImplementedError.

End Codec.

(** ** TextCodec *)

Module TextCodec.

(** The instance attributes set by the constructor. *)
Record t : Type := mk {
  url_encoding : bool;
  trace_id_header : string;
  baggage_prefix : string;
  debug_id_header : string;
  baggage_header : string;
  prefix_length : nat
}.

(** Modelled from the spec: the header names of [constants.py], which is
    not part of the sources at hand; the spec lists the defaults
    [uber-trace-id], [uberctx-], [jaeger-debug-id] and [jaeger-baggage]. *)
Definition TRACE_ID_HEADER : string := "uber-trace-id".
Definition BAGGAGE_HEADER_PREFIX : string := "uberctx-".
Definition DEBUG_ID_HEADER_KEY : string := "jaeger-debug-id".
Definition BAGGAGE_HEADER_KEY : string := "jaeger-baggage".

Definition normalize (name : string) : string :=
  replace_char "_" "-" (lower name).

(** [TextCodec.__init__] *)
Definition __init__ (url_encoding : bool)
  (trace_id_header baggage_header_prefix debug_id_header baggage_header : string)
  : t :=
  {| url_encoding := url_encoding;
     trace_id_header := normalize trace_id_header;
     baggage_prefix := normalize baggage_header_prefix;
     debug_id_header := normalize debug_id_header;
     baggage_header := baggage_header;
     prefix_length := String.length baggage_header_prefix |}.

(** [TextCodec()] with every argument at its default. *)
Definition default : t :=
  __init__ false TRACE_ID_HEADER BAGGAGE_HEADER_PREFIX DEBUG_ID_HEADER_KEY
    BAGGAGE_HEADER_KEY.

(** [TextCodec._parse_baggage_header]; [header.split] needs a [str]. *)
Definition _parse_baggage_header (header : pyval) (baggage : option (dict pyval))
  : result (option (dict pyval)) :=
  match header with
  | PStr header =>
      Ok (fold_left
            (fun baggage part =>
               match split "=" (strip part) with
               | [k; v] =>
                   let baggage :=
                     if baggage_falsy baggage then [] else
                       match baggage with Some d => d | None => [] end in
                   Some (dict_set baggage k (PStr v))
               | _ => baggage
               end)
            (split "," header) baggage)
  | _ => Raise AttributeError
  end.

Section WithUrllib.

(** [urllib.parse.quote] and [urllib.parse.unquote] belong to the Python
    library; the codec is embedded over any pair of them. *)
Variable quote : pyval -> result pyval.
Variable unquote : pyval -> result pyval.

Variable self : t.

(** The local variables of [extract] that the loop assigns. *)
Record locals : Type := mkLocals {
  l_trace_id : pyval;
  l_span_id : pyval;
  l_parent_id : pyval;
  l_flags : pyval;
  l_baggage : option (dict pyval);
  l_debug_id : pyval
}.

Definition initial : locals :=
  mkLocals PNone PNone PNone PNone None PNone.

(** [if self.url_encoding: value = urllib.parse.unquote(value)] *)
Definition decoded (value : pyval) : result pyval :=
  if url_encoding self then unquote value else Ok value.

(** One turn of the loop over [carrier.items()]. *)
Definition extract_step (st : locals) (item : string * pyval) : result locals :=
  let '(key, value) := item in
  let uc_key := lower key in
  if String.eqb uc_key (trace_id_header self) then
    value <- decoded value ;;
    '(t, s, p, f) <- span_context_from_string value ;;
    Ok (mkLocals t s p f (l_baggage st) (l_debug_id st))
  else if startswith uc_key (baggage_prefix self) then
    value <- decoded value ;;
    let attr_key := str_drop (prefix_length self) key in
    let baggage :=
      match l_baggage st with
      | None => [(lower attr_key, value)]
      | Some d => dict_set d (lower attr_key) value
      end in
    Ok (mkLocals (l_trace_id st) (l_span_id st) (l_parent_id st) (l_flags st)
          (Some baggage) (l_debug_id st))
  else if String.eqb uc_key (debug_id_header self) then
    value <- decoded value ;;
    Ok (mkLocals (l_trace_id st) (l_span_id st) (l_parent_id st) (l_flags st)
          (l_baggage st) value)
  else if String.eqb uc_key (baggage_header self) then
    value <- decoded value ;;
    baggage <- _parse_baggage_header value (l_baggage st) ;;
    Ok (mkLocals (l_trace_id st) (l_span_id st) (l_parent_id st) (l_flags st)
          baggage (l_debug_id st))
  else Ok st.

Fixpoint extract_loop (items : dict pyval) (st : locals) : result locals :=
  match items with
  | [] => Ok st
  | item :: rest => st' <- extract_step st item ;; extract_loop rest st'
  end.

(** What follows the loop: the reset of the ids and the result. *)
Definition extract_finish (st : locals) : option SpanContext :=
  let '(t, s, p, f) :=
    if (negb (truthy (l_trace_id st)) || negb (truthy (l_span_id st)))%bool
    then (PNone, PNone, PNone, PNone)
    else (l_trace_id st, l_span_id st, l_parent_id st, l_flags st) in
  if (negb (truthy t) && negb (truthy (l_debug_id st))
      && baggage_falsy (l_baggage st))%bool
  then None
  else Some (mkSpanContext t s p f (l_baggage st) (l_debug_id st)).

(** [TextCodec.extract]. The carrier needs an [items] attribute: a [dict]
    has the method; a [bytearray] has none; on another object an [items]
    data attribute is found by [hasattr] but cannot be called. *)
Definition extract (c : carrier) : result (option SpanContext) :=
  match c with
  | CDict items =>
      st <- extract_loop items initial ;;
      Ok (extract_finish st)
  | CBytearray _ => Raise (InvalidCarrierException "carrier not a collection")
  | CObject attrs =>
      match dict_get attrs "items" with
      | Some _ => Raise TypeError
      | None => Raise (InvalidCarrierException "carrier not a collection")
      end
  end.

(** The loop of [inject] over [baggage.items()]; keys are [str], so the
    value is quoted when [url_encoding] is on and written as it is
    otherwise. *)
Fixpoint inject_baggage (items : dict pyval) (c : dict pyval)
  : result (dict pyval) :=
  match items with
  | [] => Ok c
  | (key, value) :: rest =>
      encoded_value <- (if url_encoding self then quote value else Ok value) ;;
      let header_key := baggage_prefix self ++ key in
      inject_baggage rest (dict_set c header_key encoded_value)
  end.

(** [TextCodec.inject]; the result is the carrier after the call. *)
Definition inject (span_context : SpanContext) (c : carrier) : result carrier :=
  match c with
  | CDict d =>
      header <- span_context_to_string (trace_id span_context)
                  (span_id span_context) (parent_id span_context)
                  (flags span_context) ;;
      let d := dict_set d (trace_id_header self) (PStr header) in
      if baggage_falsy (baggage span_context) then Ok (CDict d)
      else
        d <- inject_baggage
               (match baggage span_context with Some b => b | None => [] end) d ;;
        Ok (CDict d)
  | _ => Raise (InvalidCarrierException "carrier not a collection")
  end.

End WithUrllib.

End TextCodec.

(** ** Bytes, slices and [struct] *)

Definition Z_of_byte (b : byte) : Z := Z.of_N (Byte.to_N b).

Definition byte_of_Z (z : Z) : byte :=
  match Byte.of_N (Z.to_N (z mod 256)) with
  | Some b => b
  | None => x00
  end.

(** Big-endian bytes of the low [8 * n] bits of [z], and the unsigned
    integer a run of big-endian bytes denotes. *)
Fixpoint be_bytes (n : nat) (z : Z) : list byte :=
  match n with
  | O => []
  | S k => byte_of_Z (z / 256 ^ Z.of_nat k) :: be_bytes k z
  end.

Definition be_int (bs : list byte) : Z :=
  fold_left (fun acc b => acc * 256 + Z_of_byte b) bs 0.

(** A slice bound as Python reads it: a negative bound counts from the
    end, and every bound is clamped to the sequence. *)
Definition slice_bound (len i : Z) : Z :=
  if i <? 0 then Z.max 0 (len + i) else Z.min i len.

(** [l[start:stop]] *)
Definition slice {A : Type} (l : list A) (start stop : Z) : list A :=
  let len := Z.of_nat (List.length l) in
  let a := slice_bound len start in
  let b := slice_bound len stop in
  firstn (Z.to_nat (b - a)) (skipn (Z.to_nat a) l).

(** [l[start:]] *)
Definition slice_from {A : Type} (l : list A) (start : Z) : list A :=
  skipn (Z.to_nat (slice_bound (Z.of_nat (List.length l)) start)) l.

(** One unsigned field of [struct.pack] in [n] bytes: the argument has to
    be an [int] in range. *)
Definition pack_unsigned (n : nat) (v : pyval) : result (list byte) :=
  match v with
  | PInt z =>
      if (0 <=? z) && (z <? 256 ^ Z.of_nat n) then Ok (be_bytes n z)
      else Raise struct_error
  | _ => Raise struct_error
  end.

(** [struct.pack('>QQQQBI', a, b, c, d, e, f)] *)
Definition pack_QQQQBI (a b c d e f : pyval) : result (list byte) :=
  a <- pack_unsigned 8 a ;;
  b <- pack_unsigned 8 b ;;
  c <- pack_unsigned 8 c ;;
  d <- pack_unsigned 8 d ;;
  e <- pack_unsigned 1 e ;;
  f <- pack_unsigned 4 f ;;
  Ok (a ++ b ++ c ++ d ++ e ++ f)%list.

(** [struct.unpack('>QQQQBI', buf)]: the buffer has to be 37 bytes long. *)
Definition unpack_QQQQBI (buf : list byte) : result (Z * Z * Z * Z * Z * Z) :=
  if Nat.eqb (List.length buf) 37 then
    Ok (be_int (firstn 8 buf),
        be_int (firstn 8 (skipn 8 buf)),
        be_int (firstn 8 (skipn 16 buf)),
        be_int (firstn 8 (skipn 24 buf)),
        be_int (firstn 1 (skipn 32 buf)),
        be_int (firstn 4 (skipn 33 buf)))
  else Raise struct_error.

(** [struct.unpack('>i', buf)[0]]: four bytes, read as a signed integer. *)
Definition unpack_i (buf : list byte) : result Z :=
  if Nat.eqb (List.length buf) 4 then
    let u := be_int buf in
    Ok (if u <? 2 ^ 31 then u else u - 2 ^ 32)
  else Raise struct_error.

(** [struct.unpack('>' + 'c' * n, buf)]: ['c' * n] is empty for a negative
    [n], and the buffer has to be as long as the format says. *)
Definition unpack_chars (n : Z) (buf : list byte) : result (list byte) :=
  if Z.of_nat (List.length buf) =? Z.max n 0 then Ok buf else Raise struct_error.

Definition in_range (lo hi x : Z) : bool := (lo <=? x) && (x <=? hi).

Definition continuation (b : byte) : bool := in_range 128 191 (Z_of_byte b).

(** Well-formed UTF-8, as the strict decoder accepts it: no overlong form,
    no surrogate, nothing above U+10FFFF. *)
Fixpoint utf8_valid (bs : list byte) : bool :=
  match bs with
  | [] => true
  | b0 :: r0 =>
      let x0 := Z_of_byte b0 in
      if x0 <? 128 then utf8_valid r0
      else
        match r0 with
        | [] => false
        | b1 :: r1 =>
            let x1 := Z_of_byte b1 in
            if in_range 194 223 x0 then continuation b1 && utf8_valid r1
            else
              match r1 with
              | [] => false
              | b2 :: r2 =>
                  if in_range 224 239 x0 then
                    (if x0 =? 224 then in_range 160 191 x1
                     else if x0 =? 237 then in_range 128 159 x1
                     else continuation b1)
                    && continuation b2 && utf8_valid r2
                  else
                    match r2 with
                    | [] => false
                    | b3 :: r3 =>
                        if in_range 240 244 x0 then
                          (if x0 =? 240 then in_range 144 191 x1
                           else if x0 =? 244 then in_range 128 143 x1
                           else continuation b1)
                          && continuation b2 && continuation b3
                          && utf8_valid r3
                        else false
                    end
              end
        end
  end.

(** [bs.decode('utf-8')] *)
Definition decode_utf8 (bs : list byte) : result string :=
  if utf8_valid bs then Ok (string_of_list_byte bs) else Raise UnicodeDecodeError.

(** [s.encode('utf-8')] *)
Definition encode_utf8 (s : string) : list byte := list_byte_of_string s.

(** ** BinaryCodec *)

Module BinaryCodec.

(** [BinaryCodec._pack_baggage_item]; a key is a [str], a value has to
    have [encode]. *)
Definition _pack_baggage_item (key : string) (value : pyval) : result (list byte) :=
  let key := encode_utf8 key in
  klen <- pack_unsigned 4 (PInt (Z.of_nat (List.length key))) ;;
  value <- match value with
           | PStr s => Ok (encode_utf8 s)
           | _ => Raise AttributeError
           end ;;
  vlen <- pack_unsigned 4 (PInt (Z.of_nat (List.length value))) ;;
  Ok (klen ++ key ++ vlen ++ value)%list.

(** The loop of [inject] over [baggage.items()], appending to the carrier. *)
Fixpoint pack_baggage (items : dict pyval) (data : list byte) : result (list byte) :=
  match items with
  | [] => Ok data
  | (k, v) :: rest =>
      item <- _pack_baggage_item k v ;;
      pack_baggage rest (data ++ item)%list
  end.

(** [BinaryCodec.inject]; the result is the carrier after the call. *)
Definition inject (span_context : SpanContext) (c : carrier) : result carrier :=
  match c with
  | CBytearray data =>
      let max_int64 := 18446744073709551615 in
      '(high, low) <-
        match trace_id span_context with
        | PInt t =>
            if t >? max_int64
            then Ok (PInt (Z.land (Z.shiftr t 64) max_int64),
                     PInt (Z.land t max_int64))
            else Ok (PInt 0, PInt t)
        | _ => Raise TypeError
        end ;;
      count <- match baggage span_context with
               | Some b => Ok (PInt (Z.of_nat (List.length b)))
               | None => Raise TypeError
               end ;;
      header <- pack_QQQQBI high low
                  (py_or (span_id span_context) (PInt 0))
                  (py_or (parent_id span_context) (PInt 0))
                  (flags span_context) count ;;
      data <- pack_baggage
                (match baggage span_context with Some b => b | None => [] end)
                (data ++ header)%list ;;
      Ok (CBytearray data)
  | _ => Raise (InvalidCarrierException "carrier not a bytearray")
  end.

(** [BinaryCodec._read_kv]: the text of one length-prefixed field and the
    number of bytes it took. *)
Definition _read_kv (data : list byte) : result (string * Z) :=
  data_len <- unpack_i (slice data 0 4) ;;
  data_value <- unpack_chars data_len (slice data 4 (4 + data_len)) ;;
  let bytes_read := 4 + data_len in
  text <- decode_utf8 data_value ;;
  Ok (text, bytes_read).

(** [BinaryCodec._unpack_baggage_item] *)
Definition _unpack_baggage_item (baggage : list byte) : result (string * string * Z) :=
  let bytes_read := 0 in
  '(key, b_read) <- _read_kv baggage ;;
  let bytes_read := bytes_read + b_read in
  '(value, b_read) <- _read_kv (slice_from baggage bytes_read) ;;
  let bytes_read := bytes_read + b_read in
  Ok (key, value, bytes_read).

(** The loop [for _ in range(baggage_count)]. *)
Fixpoint unpack_baggage (count : nat) (baggage_data : list byte)
  (baggage : dict pyval) : result (dict pyval) :=
  match count with
  | O => Ok baggage
  | S rest =>
      '(key, value, bytes_read) <- _unpack_baggage_item baggage_data ;;
      unpack_baggage rest (slice_from baggage_data bytes_read)
        (dict_set baggage key (PStr value))
  end.

(** [BinaryCodec.extract] *)
Definition extract (c : carrier) : result (option SpanContext) :=
  match c with
  | CBytearray data =>
      '(high_trace_id, low_trace_id, span_id, parent_id, flags, baggage_count) <-
        unpack_QQQQBI (slice data 0 37) ;;
      let trace_id :=
        if negb (high_trace_id =? 0)
        then Z.lor (Z.shiftl high_trace_id 64) low_trace_id
        else low_trace_id in
      baggage <-
        (if negb (baggage_count =? 0)
         then unpack_baggage (Z.to_nat baggage_count) (slice_from data 37) []
         else Ok []) ;;
      Ok (Some (mkSpanContext (PInt trace_id) (PInt span_id) (PInt parent_id)
                  (PInt flags) (Some baggage) PNone))
  | _ => Raise (InvalidCarrierException "carrier not a bytearray")
  end.

End BinaryCodec.

(** ** ZipkinCodec *)

Module ZipkinCodec.

(** [ZipkinCodec.inject] *)
Definition inject (span_context : SpanContext) (c : carrier) : result carrier :=
  match c with
  | CDict d =>
      let d := dict_set d "trace_id" (trace_id span_context) in
      let d := dict_set d "span_id" (span_id span_context) in
      let d := dict_set d "parent_id" (parent_id span_context) in
      let d := dict_set d "traceflags" (flags span_context) in
      Ok (CDict d)
  | _ => Raise (InvalidCarrierException "carrier not a dictionary")
  end.

(** [carrier.get(name)] *)
Definition get (d : dict pyval) (name : string) : pyval :=
  match dict_get d name with
  | Some v => v
  | None => PNone
  end.

(** The attributes of a carrier that is not a [dict]; a [bytearray] has
    none of the four. *)
Definition attributes (c : carrier) : dict pyval :=
  match c with
  | CObject attrs => attrs
  | _ => []
  end.

(** [getattr(carrier, name)] guarded by [hasattr(carrier, name)]. *)
Definition attribute (c : carrier) (name : string) : result pyval :=
  match dict_get (attributes c) name with
  | Some v => Ok v
  | None => Raise (InvalidCarrierException ("carrier has no " ++ name))
  end.

(** [ZipkinCodec.extract] *)
Definition extract (c : carrier) : result (option SpanContext) :=
  '(trace_id, span_id, parent_id, flags) <-
    match c with
    | CDict d =>
        Ok (get d "trace_id", get d "span_id", get d "parent_id",
            get d "traceflags")
    | _ =>
        trace_id <- attribute c "trace_id" ;;
        span_id <- attribute c "span_id" ;;
        parent_id <- attribute c "parent_id" ;;
        flags <- attribute c "traceflags" ;;
        Ok (trace_id, span_id, parent_id, flags)
    end ;;
  if negb (truthy trace_id) then Ok None
  else Ok (Some (mkSpanContext trace_id span_id parent_id flags None PNone)).

End ZipkinCodec.

(** ** B3Codec *)

(** [header_to_hex] *)
Definition header_to_hex (header : pyval) : result pyval :=
  match header with
  | PStr s =>
      except_ValueError
        (z <- py_int16 s ;; Ok (PInt z))
        (Raise SpanContextCorruptedException)
  | _ => Raise SpanContextCorruptedException
  end.

Module B3Codec.

Record t : Type := __init__ { generate_128bit_trace_id : bool }.

Definition trace_header : string := "X-B3-TraceId".
Definition _trace_header_lc : string := lower trace_header.
Definition span_header : string := "X-B3-SpanId".
Definition _span_header_lc : string := lower span_header.
Definition parent_span_header : string := "X-B3-ParentSpanId".
Definition _parent_span_header_lc : string := lower parent_span_header.
Definition sampled_header : string := "X-B3-Sampled".
Definition _sampled_header_lc : string := lower sampled_header.
Definition flags_header : string := "X-B3-Flags".
Definition _flags_header_lc : string := lower flags_header.

Section WithFlags.

(** The two flag masks come from [constants.py], which is not part of the
    sources at hand, and the spec gives them no values: the codec is
    embedded over any pair of masks. *)
Variable SAMPLED_FLAG : Z.
Variable DEBUG_FLAG : Z.

Variable self : t.

(** [flags & mask == mask]; [&] needs an [int]. *)
Definition has_flag (flags : pyval) (mask : Z) : result bool :=
  match flags with
  | PInt f => Ok (Z.land f mask =? mask)
  | _ => Raise TypeError
  end.

(** [B3Codec.inject]; the result is the carrier after the call. *)
Definition inject (span_context : SpanContext) (c : carrier) : result carrier :=
  match c with
  | CDict d =>
      t <- format_x (trace_id span_context) ;;
      let d :=
        if generate_128bit_trace_id self
        then dict_set d trace_header (PStr (zfill 32 t))
        else dict_set d trace_header (PStr (zfill 16 t)) in
      s <- format_x (span_id span_context) ;;
      let d := dict_set d span_header (PStr (zfill 16 s)) in
      d <- (if negb (is_none (parent_id span_context)) then
              p <- format_x (parent_id span_context) ;;
              Ok (dict_set d parent_span_header (PStr (zfill 16 p)))
            else Ok d) ;;
      debug <- has_flag (flags span_context) DEBUG_FLAG ;;
      if debug then Ok (CDict (dict_set d flags_header (PStr "1")))
      else
        sampled <- has_flag (flags span_context) SAMPLED_FLAG ;;
        if sampled then Ok (CDict (dict_set d sampled_header (PStr "1")))
        else Ok (CDict d)
  | _ => Raise (InvalidCarrierException "carrier not a dictionary")
  end.

(** The local variables of [extract] that the loop assigns. *)
Record locals : Type := mkLocals {
  l_trace_id : pyval;
  l_span_id : pyval;
  l_parent_id : pyval;
  l_flags : Z
}.

Definition initial : locals := mkLocals PNone PNone PNone 0.

(** One turn of the loop over [carrier.items()]. *)
Definition extract_step (st : locals) (item : string * pyval) : result locals :=
  let '(header_key, header_value) := item in
  if is_none header_value then Ok st
  else
    let lower_key := lower header_key in
    if String.eqb lower_key _trace_header_lc then
      v <- header_to_hex header_value ;;
      Ok (mkLocals v (l_span_id st) (l_parent_id st) (l_flags st))
    else if String.eqb lower_key _span_header_lc then
      v <- header_to_hex header_value ;;
      Ok (mkLocals (l_trace_id st) v (l_parent_id st) (l_flags st))
    else if String.eqb lower_key _parent_span_header_lc then
      v <- header_to_hex header_value ;;
      Ok (mkLocals (l_trace_id st) (l_span_id st) v (l_flags st))
    else if (String.eqb lower_key _sampled_header_lc && eq_str header_value "1")%bool then
      Ok (mkLocals (l_trace_id st) (l_span_id st) (l_parent_id st)
            (Z.lor (l_flags st) SAMPLED_FLAG))
    else if (String.eqb lower_key _flags_header_lc && eq_str header_value "1")%bool then
      Ok (mkLocals (l_trace_id st) (l_span_id st) (l_parent_id st)
            (Z.lor (l_flags st) DEBUG_FLAG))
    else Ok st.

Fixpoint extract_loop (items : dict pyval) (st : locals) : result locals :=
  match items with
  | [] => Ok st
  | item :: rest => st' <- extract_step st item ;; extract_loop rest st'
  end.

(** [B3Codec.extract] *)
Definition extract (c : carrier) : result (option SpanContext) :=
  match c with
  | CDict items =>
      st <- extract_loop items initial ;;
      if (negb (truthy (l_trace_id st)) || negb (truthy (l_span_id st)))%bool
      then Ok None
      else Ok (Some (mkSpanContext (l_trace_id st) (l_span_id st)
                       (l_parent_id st) (PInt (l_flags st)) None PNone))
  | _ => Raise (InvalidCarrierException "carrier not a dictionary")
  end.

End WithFlags.

End B3Codec.

(** ** Notions the properties are stated with *)

(** The text a combined header value carries: the value itself when it is
    a string, its only element when it is a one-element list holding a
    string. *)
Definition header_text (value : pyval) : option string :=
  match value with
  | PStr s => Some s
  | PList [PStr s] => Some s
  | _ => None
  end.

(** What [int(_, 16)] takes for a number, said without its scanner. The
    hex digits with their values; the white space allowed around a
    literal (tab, line feed, vertical tab, form feed, carriage return and
    space); and what may follow the first digit of a literal: more digits,
    each after at most one underscore. *)
Definition hex_table : list (ascii * Z) :=
  combine (list_ascii_of_string "0123456789abcdefABCDEF")
    [0; 1; 2; 3; 4; 5; 6; 7; 8; 9; 10; 11; 12; 13; 14; 15;
     10; 11; 12; 13; 14; 15].

Definition blank_chars : list ascii :=
  ["009"; "010"; "011"; "012"; "013"; " "]%char.

Fixpoint blank (s : string) : bool :=
  match s with
  | EmptyString => true
  | String c r => existsb (Ascii.eqb c) blank_chars && blank r
  end.

Inductive run_tail : string -> list Z -> Prop :=
| run_end : run_tail EmptyString []
| run_digit (c : ascii) (d : Z) (s : string) (ds : list Z) :
    In (c, d) hex_table -> run_tail s ds -> run_tail (String c s) (d :: ds)
| run_underscore (c : ascii) (d : Z) (s : string) (ds : list Z) :
    In (c, d) hex_table -> run_tail s ds ->
    run_tail (String "_" (String c s)) (d :: ds).

(** The number that a first digit [d] and the digits [ds] after it spell
    in base 16. *)
Definition spelled (d : Z) (ds : list Z) : Z :=
  fold_left (fun a x => 16 * a + x) ds d.

(** A literal of [int(_, 16)] and its value: white space, an optional
    sign, an optional [0x] or [0X] that one underscore may follow, a hex
    digit, more digits each after at most one underscore, white space. *)
Inductive literal16 : string -> Z -> Prop :=
| literal16_intro (ws1 sign pre tail ws2 : string) (sgn : Z) (c : ascii)
    (d : Z) (ds : list Z) :
    blank ws1 = true -> blank ws2 = true ->
    In (sign, sgn) [("", 1); ("+", 1); ("-", -1)] ->
    In pre [""; "0x"; "0X"; "0x_"; "0X_"] ->
    In (c, d) hex_table -> run_tail tail ds ->
    literal16 (ws1 ++ sign ++ pre ++ String c tail ++ ws2) (sgn * spelled d ds).

(** A text of hex digits only. *)
Fixpoint hex_only (s : string) : bool :=
  match s with
  | EmptyString => true
  | String c r =>
      existsb (fun entry => Ascii.eqb c (fst entry)) hex_table && hex_only r
  end.

(** A header value whose text, when it has one, is made of ASCII
    characters: the texts on which the embedding of the [str] methods is
    exact. *)
Definition ascii_text (s : string) : bool :=
  forallb (fun c => Nat.ltb (nat_of_ascii c) 128) (list_ascii_of_string s).

Definition ascii_header (value : pyval) : bool :=
  match header_text value with
  | Some s => ascii_text s
  | None => true
  end.

(** The four fields of a header text: the texts between its colons. *)
Definition four_fields (s p0 p1 p2 p3 : string) : Prop :=
  s = p0 ++ ":" ++ p1 ++ ":" ++ p2 ++ ":" ++ p3
  /\ count_char ":" p0 = O /\ count_char ":" p1 = O
  /\ count_char ":" p2 = O /\ count_char ":" p3 = O.

(** The ways a combined header value can be malformed, one constructor for
    each: more than one element, not a string, a number of colons other
    than 3, a field that is not a literal of [int(_, 16)], a value below
    its minimum. *)
Inductive corrupted : pyval -> Prop :=
| corrupted_many (l : list pyval) :
    (1 < List.length l)%nat -> corrupted (PList l)
| corrupted_type (value : pyval) :
    header_text value = None -> corrupted value
| corrupted_count (value : pyval) (s : string) :
    header_text value = Some s ->
    count_char ":" s <> 3%nat -> corrupted value
| corrupted_hex (value : pyval) (s p0 p1 p2 p3 part : string) :
    header_text value = Some s ->
    four_fields s p0 p1 p2 p3 ->
    In part [p0; p1; p2; p3] ->
    (forall z, ~ literal16 part z) -> corrupted value
| corrupted_range (value : pyval) (s p0 p1 p2 p3 : string) (t sp pa f : Z) :
    header_text value = Some s ->
    four_fields s p0 p1 p2 p3 ->
    literal16 p0 t -> literal16 p1 sp ->
    literal16 p2 pa -> literal16 p3 f ->
    t < 1 \/ sp < 1 \/ pa < 0 \/ f < 0 -> corrupted value.

(** The steps of [int16] after the leading white space, named for the
    proofs: the sign, the prefix, and the digit run with what follows. *)
Definition int16_sign (s1 : string) : bool * string :=
  match s1 with
  | String "+" r => (false, r)
  | String "-" r => (true, r)
  | _ => (false, s1)
  end.

Definition int16_prefix (s2 : string) : string :=
  match s2 with
  | String "0" (String x r) =>
      if (Ascii.eqb x "x" || Ascii.eqb x "X")%bool then
        match r with
        | String "_" r' => r'
        | _ => r
        end
      else s2
  | _ => s2
  end.

Definition int16_run (neg : bool) (s3 : string) : option Z :=
  match s3 with
  | String "_" _ => None
  | _ =>
      match scan_digits s3 0 false false with
      | Some (v, rest) =>
          match skip_c_space rest with
          | EmptyString => Some (if neg then - v else v)
          | _ => None
          end
      | None => None
      end
  end.

(** The text before and after the first occurrence of a character. *)
Fixpoint before (sep : ascii) (s : string) : string :=
  match s with
  | EmptyString => EmptyString
  | String c r => if Ascii.eqb c sep then EmptyString else String c (before sep r)
  end.

Fixpoint after (sep : ascii) (s : string) : string :=
  match s with
  | EmptyString => EmptyString
  | String c r => if Ascii.eqb c sep then r else after sep r
  end.

(** What one comma-separated part of the aggregated baggage header does to
    the baggage read so far: a part with exactly one [=], white space
    around the part removed, sets the text before the [=] to the text after
    it; any other part is skipped. *)
Definition keep_pair (baggage : option (dict pyval)) (part : string)
  : option (dict pyval) :=
  let p := strip part in
  if Nat.eqb (count_char "=" p) 1 then
    let d := match baggage with Some (x :: r) => x :: r | _ => [] end in
    Some (dict_set d (before "=" p) (PStr (after "=" p)))
  else baggage.

(** The four fields of the Zipkin format, in the order [extract] asks for
    them, and the first of them a set of attributes lacks. *)
Definition zipkin_fields : list string :=
  ["trace_id"; "span_id"; "parent_id"; "traceflags"].

Definition first_missing (attrs : dict pyval) : option string :=
  find (fun name => match dict_get attrs name with None => true | Some _ => false end)
    zipkin_fields.

(** A key of the baggage that the scan of [TextCodec.extract] has read so
    far. *)
Definition has_key (st : TextCodec.locals) (k : string) : Prop :=
  exists d v, TextCodec.l_baggage st = Some d /\ dict_get d k = Some v.

(** A text that the binary format carries and reads back: well-formed
    UTF-8 whose length fits the signed 32-bit length that [_read_kv] reads. *)
Definition valid_text (s : string) : bool :=
  utf8_valid (encode_utf8 s)
  && (Z.of_nat (List.length (encode_utf8 s)) <? 2 ^ 31).

(** A context as the data model has it: a [trace_id] of 64 or 128 bits and
    a 64-bit [span_id], both at least 1, a 64-bit [parent_id] or [None],
    8-bit [flags], and a baggage from strings to strings with fewer than
    [2^32] entries. *)
Definition valid_context (c : SpanContext) : bool :=
  match trace_id c, span_id c, flags c, baggage c with
  | PInt t, PInt s, PInt f, Some b =>
      (1 <=? t) && (t <? 2 ^ 128) && (1 <=? s) && (s <? 2 ^ 64)
      && (0 <=? f) && (f <? 256)
      && match parent_id c with
         | PNone => true
         | PInt p => (0 <=? p) && (p <? 2 ^ 64)
         | _ => false
         end
      && (Z.of_nat (List.length b) <? 2 ^ 32)
      && forallb (fun item =>
                    valid_text (fst item)
                    && match snd item with
                       | PStr v => valid_text v
                       | _ => false
                       end) b
  | _, _, _, _ => false
  end.

(** The two 64-bit words of a [trace_id] on the wire. *)
Definition trace_id_high (t : Z) : Z :=
  if t >? 2 ^ 64 - 1 then Z.shiftr t 64 else 0.

Definition trace_id_low (t : Z) : Z :=
  if t >? 2 ^ 64 - 1 then Z.land t (2 ^ 64 - 1) else t.

(** The 64-bit word that stands for a [parent_id] on the wire. *)
Definition parent_word (v : pyval) : Z :=
  match v with
  | PInt p => p
  | _ => 0
  end.

(** The baggage [BinaryCodec.extract] builds from the items it reads. *)
Definition read_back (b : dict pyval) : dict pyval :=
  fold_left (fun d item => dict_set d (fst item) (snd item)) b [].

(** A text made of hex digits only, and the number its digits spell when
    read after the digits that gave [acc]. *)
Fixpoint all_hex (s : string) : bool :=
  match s with
  | EmptyString => true
  | String c r =>
      match hex_value c with
      | Some _ => all_hex r
      | None => false
      end
  end.

Fixpoint hex_fold (s : string) (acc : Z) : Z :=
  match s with
  | EmptyString => acc
  | String c r =>
      match hex_value c with
      | Some d => hex_fold r (16 * acc + d)
      | None => acc
      end
  end.

(** A [dict] holds a key once. *)
Fixpoint unique_keys {V : Type} (d : dict V) : bool :=
  match d with
  | [] => true
  | (k, _) :: r =>
      match dict_get r k with
      | None => unique_keys r
      | Some _ => false
      end
  end.

(** A context that [BinaryCodec.inject] can write: valid but for the width
    of its trace id, which only has to be an integer that is not
    negative. *)
Definition encodable_context (c : SpanContext) : bool :=
  match trace_id c with
  | PInt t =>
      (0 <=? t)
      && valid_context (Build_SpanContext (PInt 1) (span_id c) (parent_id c)
                          (flags c) (baggage c) (debug_id c))
  | _ => false
  end.

(** Whether [TextCodec.extract] takes an entry of that name for one of its
    four headers. *)
Definition recognised (self : TextCodec.t) (key : string) : bool :=
  let uc_key := lower key in
  String.eqb uc_key (TextCodec.trace_id_header self)
  || startswith uc_key (TextCodec.baggage_prefix self)
  || String.eqb uc_key (TextCodec.debug_id_header self)
  || String.eqb uc_key (TextCodec.baggage_header self).

(** The items of a carrier with every header name in lower case, and the
    [dict] that [{k.lower(): v for k, v in carrier.items()}] makes of them:
    of two names that differ only in case it keeps one entry, with the
    later value. *)
Definition lowered_items (items : dict pyval) : dict pyval :=
  map (fun item => (lower (fst item), snd item)) items.

Definition lower_keys (items : dict pyval) : dict pyval :=
  fold_left (fun d item => dict_set d (fst item) (snd item))
    (lowered_items items) [].

(** Trace fields as the combined header yields them: all absent, or a
    trace id and a span id of at least 1, flags that are not negative and
    a parent that is absent or at least 1. *)
Definition ids_absent_or_valid (t s p f : pyval) : Prop :=
  (t = PNone /\ s = PNone /\ p = PNone /\ f = PNone)
  \/ (exists zt zs zf,
         t = PInt zt /\ 1 <= zt /\ s = PInt zs /\ 1 <= zs /\
         f = PInt zf /\ 0 <= zf /\
         (p = PNone \/ exists zp, p = PInt zp /\ 1 <= zp)).

(** A value that is [None] or an integer. *)
Definition none_or_int (v : pyval) : Prop :=
  v = PNone \/ exists z, v = PInt z.

(** The flags [B3Codec.extract] can build from the two masks. *)
Definition b3_flags (S D x : Z) : Prop :=
  x = 0 \/ x = S \/ x = D \/ x = Z.lor S D.

(** The header [TextCodec.inject] writes for one baggage item. *)
Definition baggage_header_item (self : TextCodec.t) (item : string * pyval)
  : string * pyval :=
  (TextCodec.baggage_prefix self ++ fst item, snd item).

(** The baggage of the locals of [TextCodec.extract] after one more entry
    with the baggage prefix. *)
Definition add_baggage (bg : option (dict pyval)) (item : string * pyval)
  : option (dict pyval) :=
  Some match bg with
       | None => [(fst item, snd item)]
       | Some d => dict_set d (fst item) (snd item)
       end.

(** The keys of a baggage that goes through the headers of [TextCodec]
    unchanged: in lower case, and not making the name of the trace header
    when the prefix is put in front. *)
Definition plain_key (self : TextCodec.t) (item : string * pyval) : Prop :=
  lower (fst item) = fst item
  /\ TextCodec.baggage_prefix self ++ fst item <> TextCodec.trace_id_header self.

(** The baggage records of the binary format as they stand on the wire: a
    field is four bytes of big-endian length followed by that many bytes
    of UTF-8 text, a record is the field of the key followed by the field
    of the value, and the records follow one another. A whole record is
    one whose two texts the format carries and reads back. *)
Definition wire_field (s : string) : list byte :=
  (be_bytes 4 (Z.of_nat (List.length (encode_utf8 s))) ++ encode_utf8 s)%list.

Definition wire_record (r : string * string) : list byte :=
  (wire_field (fst r) ++ wire_field (snd r))%list.

Definition wire_records (rs : list (string * string)) : list byte :=
  List.concat (map wire_record rs).

Definition whole_record (r : string * string) : bool :=
  valid_text (fst r) && valid_text (snd r).

(** A field that ends in a short read: fewer than four bytes are left for
    the length, or the length, not negative as a signed number, announces
    more bytes than follow. A record ends in a short read when its key
    does, or when its key is whole and its value does. *)
Definition short_field (data : list byte) : Prop :=
  (List.length data < 4)%nat
  \/ ((4 <= List.length data)%nat
      /\ be_int (firstn 4 data) < 2 ^ 31
      /\ Z.of_nat (List.length data) < 4 + be_int (firstn 4 data)).

Definition short_record (data : list byte) : Prop :=
  short_field data
  \/ exists key rest,
       valid_text key = true
       /\ data = (wire_field key ++ rest)%list
       /\ short_field rest.

(** * Properties *)

(** ** The combined trace header *)

Lemma from_string_text (value : pyval) (s : string) :
  header_text value = Some s ->
  span_context_from_string value = span_context_from_string (PStr s).
Proof.
  destruct value as [| z | s' | [| [| z | s' | l'] [| y r]]]; simpl; try discriminate;
    intros H; inversion H; reflexivity.
Qed.

Lemma from_string_no_text (value : pyval) :
  header_text value = None ->
  span_context_from_string value = Raise SpanContextCorruptedException.
Proof.
  destruct value as [| z | s' | [| [| z | s' | l'] [| y r]]]; simpl; try discriminate;
    reflexivity.
Qed.

(** The decoder on a string, one case for each way through it. *)
Lemma from_string_PStr (s : string) :
  span_context_from_string (PStr s) =
  match split ":" s with
  | [p0; p1; p2; p3] =>
      match int16 p0, int16 p1, int16 p2, int16 p3 with
      | Some t, Some sp, Some pa, Some f =>
          if (t <? 1) || (sp <? 1) || (pa <? 0) || (f <? 0)
          then Raise SpanContextCorruptedException
          else Ok (PInt t, PInt sp, (if pa =? 0 then PNone else PInt pa), PInt f)
      | _, _, _, _ => Raise SpanContextCorruptedException
      end
  | _ => Raise SpanContextCorruptedException
  end.
Proof.
  unfold span_context_from_string; simpl.
  destruct (split ":" s) as [| p0 [| p1 [| p2 [| p3 [| p4 r]]]]]; try reflexivity.
  unfold py_int16.
  destruct (int16 p0) as [t |]; simpl; [| reflexivity].
  destruct (int16 p1) as [sp |]; simpl; [| reflexivity].
  destruct (int16 p2) as [pa |]; simpl; [| reflexivity].
  destruct (int16 p3) as [f |]; simpl; [| reflexivity].
  destruct ((t <? 1) || (sp <? 1) || (pa <? 0) || (f <? 0)); reflexivity.
Qed.

Lemma range_check_true (t sp pa f : Z) :
  (t <? 1) || (sp <? 1) || (pa <? 0) || (f <? 0) = true <->
  t < 1 \/ sp < 1 \/ pa < 0 \/ f < 0.
Proof.
  rewrite !orb_true_iff, !Z.ltb_lt. tauto.
Qed.

(** The decoder raises no exception but [SpanContextCorruptedException]. *)
Lemma from_string_raises_only (value : pyval) (e : exn) :
  span_context_from_string value = Raise e -> e = SpanContextCorruptedException.
Proof.
  destruct (header_text value) as [s |] eqn:Ht.
  - rewrite (from_string_text _ _ Ht), from_string_PStr.
    destruct (split ":" s) as [| p0 [| p1 [| p2 [| p3 [| p4 r]]]]];
      try (intros H; inversion H; reflexivity).
    destruct (int16 p0), (int16 p1), (int16 p2), (int16 p3);
      try (intros H; inversion H; reflexivity).
    destruct ((z <? 1) || (z0 <? 1) || (z1 <? 0) || (z2 <? 0));
      intros H; inversion H; reflexivity.
  - rewrite (from_string_no_text _ Ht). intros H; inversion H; reflexivity.
Qed.

(** ** Splitting *)

Lemma split_length (sep : ascii) (s : string) :
  List.length (split sep s) = S (count_char sep s).
Proof.
  induction s as [| c r IH]; simpl; [reflexivity |].
  destruct (Ascii.eqb c sep); simpl; [rewrite IH; reflexivity |].
  destruct (split sep r) as [| h t]; simpl in *; [discriminate | assumption].
Qed.

Lemma split_no_sep (sep : ascii) (s : string) :
  count_char sep s = O -> split sep s = [s].
Proof.
  induction s as [| c r IH]; simpl; [reflexivity |].
  destruct (Ascii.eqb c sep); simpl; [discriminate |].
  intros H; rewrite (IH H); reflexivity.
Qed.

Lemma split_one_sep (sep : ascii) (s : string) :
  count_char sep s = 1%nat -> split sep s = [before sep s; after sep s].
Proof.
  induction s as [| c r IH]; simpl; [discriminate |].
  destruct (Ascii.eqb c sep); simpl.
  - intros H; injection H as H. rewrite (split_no_sep _ _ H); reflexivity.
  - intros H; rewrite (IH H); reflexivity.
Qed.

Lemma before_sep_after (sep : ascii) (s : string) :
  (1 <= count_char sep s)%nat -> s = before sep s ++ String sep (after sep s).
Proof.
  induction s as [| c r IH]; simpl; [lia |].
  destruct (Ascii.eqb c sep) eqn:E; simpl.
  - apply Ascii.eqb_eq in E; subst c; reflexivity.
  - intros H; rewrite <- (IH H); reflexivity.
Qed.

Lemma fold_left_pointwise {A B : Type} (f g : A -> B -> A) (l : list B) (a : A) :
  (forall x y, f x y = g x y) -> fold_left f l a = fold_left g l a.
Proof.
  intros E; revert a; induction l as [| y l IH]; intros a; simpl;
    [reflexivity | rewrite E; apply IH].
Qed.

Lemma fold_left_fixed {A B : Type} (f : A -> B -> A) (l : list B) (a : A) :
  (forall y, In y l -> forall x, f x y = x) -> fold_left f l a = a.
Proof.
  revert a; induction l as [| y l IH]; intros a H; simpl; [reflexivity |].
  rewrite (H y (or_introl eq_refl)). apply IH.
  intros z Hz; apply H; right; assumption.
Qed.

(** The body of the loop of [_parse_baggage_header] is [keep_pair]. *)
Lemma parse_step_keep_pair (baggage : option (dict pyval)) (part : string) :
  match split "=" (strip part) with
  | [k; v] =>
      let baggage :=
        if baggage_falsy baggage then [] else
          match baggage with Some d => d | None => [] end in
      Some (dict_set baggage k (PStr v))
  | _ => baggage
  end = keep_pair baggage part.
Proof.
  unfold keep_pair.
  destruct (Nat.eqb (count_char "=" (strip part)) 1) eqn:E.
  - apply Nat.eqb_eq in E. rewrite (split_one_sep _ _ E).
    destruct baggage as [[| x r] |]; reflexivity.
  - apply Nat.eqb_neq in E.
    pose proof (split_length "=" (strip part)) as L.
    destruct (split "=" (strip part)) as [| k [| v [| w r]]]; try reflexivity.
    simpl in L. exfalso; apply E; lia.
Qed.

(** ** What [int(_, 16)] reads *)

Lemma append_nil_r (s : string) : s ++ EmptyString = s.
Proof.
  induction s as [| c s IH]; [reflexivity |]. cbn [append]. rewrite IH. reflexivity.
Qed.

Lemma append_assoc (a b c : string) : (a ++ b) ++ c = a ++ (b ++ c).
Proof.
  induction a as [| x a IH]; [reflexivity |]. cbn [append]. rewrite IH. reflexivity.
Qed.

Lemma length_append (a b : string) :
  String.length (a ++ b) = (String.length a + String.length b)%nat.
Proof.
  induction a as [| x a IH]; [reflexivity |]. cbn [append String.length].
  rewrite IH. reflexivity.
Qed.

Lemma hex_value_char (c : ascii) (d : Z) :
  hex_value c = Some d ->
  0 <= d < 16 /\ is_c_space c = false /\ Ascii.eqb c "_" = false
  /\ Ascii.eqb c ":" = false /\ Ascii.eqb c "+" = false
  /\ Ascii.eqb c "-" = false /\ Ascii.eqb c "x" = false
  /\ Ascii.eqb c "X" = false.
Proof.
  destruct c as [[] [] [] [] [] [] [] []]; vm_compute; intros H;
    try discriminate H; inversion H; subst d; repeat split; discriminate.
Qed.

(** The table of the hex digits is the table of the scanner. *)
Lemma hex_table_value (c : ascii) (d : Z) :
  In (c, d) hex_table <-> hex_value c = Some d.
Proof.
  split.
  - intros H. cbv [hex_table combine list_ascii_of_string] in H.
    cbn [In] in H.
    repeat (destruct H as [H | H]; [inversion H; reflexivity |]).
    destruct H.
  - destruct c as [[] [] [] [] [] [] [] []]; intros H; vm_compute in H;
      try discriminate H; inversion H; subst d;
      cbv [hex_table combine list_ascii_of_string]; cbn [In];
      repeat (first [left; reflexivity | right]).
Qed.

Lemma is_c_space_blank (c : ascii) :
  is_c_space c = existsb (Ascii.eqb c) blank_chars.
Proof.
  destruct c as [[] [] [] [] [] [] [] []]; reflexivity.
Qed.

(** A white-space character is no digit, no underscore and no [x]. *)
Lemma blank_char (c : ascii) :
  is_c_space c = true ->
  hex_value c = None /\ Ascii.eqb c "_" = false
  /\ Ascii.eqb c "x" = false /\ Ascii.eqb c "X" = false.
Proof.
  destruct c as [[] [] [] [] [] [] [] []]; vm_compute; intros H;
    try discriminate H; repeat split.
Qed.

Lemma skip_blank_app (ws r : string) :
  blank ws = true -> skip_c_space (ws ++ r) = skip_c_space r.
Proof.
  induction ws as [| c ws IH]; [reflexivity |].
  cbn [blank append skip_c_space]. rewrite <- is_c_space_blank.
  intros H. apply andb_true_iff in H as [H1 H2]. rewrite H1. apply IH, H2.
Qed.

Lemma skip_blank (ws : string) : blank ws = true -> skip_c_space ws = EmptyString.
Proof.
  intros H. rewrite <- (append_nil_r ws), (skip_blank_app ws _ H). reflexivity.
Qed.

Lemma skip_first (c : ascii) (r : string) :
  is_c_space c = false -> skip_c_space (String c r) = String c r.
Proof.
  intros H. cbn [skip_c_space]. rewrite H. reflexivity.
Qed.

Lemma skip_decompose (s : string) :
  exists ws, blank ws = true /\ s = ws ++ skip_c_space s.
Proof.
  induction s as [| c r (ws & Hws & Hr)]; [exists EmptyString; split; reflexivity |].
  cbn [skip_c_space]. destruct (is_c_space c) eqn:E.
  - exists (String c ws). cbn [blank append]. rewrite <- is_c_space_blank, E, Hws.
    split; [reflexivity | rewrite <- Hr; reflexivity].
  - exists EmptyString. split; reflexivity.
Qed.

Lemma skip_empty_blank (s : string) :
  skip_c_space s = EmptyString -> blank s = true.
Proof.
  intros H. destruct (skip_decompose s) as (ws & Hws & Hs).
  rewrite H, append_nil_r in Hs. rewrite Hs. exact Hws.
Qed.

(** [int16] is its three steps after the leading white space. *)
Lemma int16_steps (s : string) :
  int16 s
  = int16_run (fst (int16_sign (skip_c_space s)))
      (int16_prefix (snd (int16_sign (skip_c_space s)))).
Proof.
  unfold int16, int16_run, int16_prefix, int16_sign.
  destruct (skip_c_space s) as [| [[] [] [] [] [] [] [] []] r]; reflexivity.
Qed.

(** The sign. *)
Lemma int16_sign_other (c : ascii) (r : string) :
  Ascii.eqb c "+" = false -> Ascii.eqb c "-" = false ->
  int16_sign (String c r) = (false, String c r).
Proof.
  destruct c as [[] [] [] [] [] [] [] []]; intros H1 H2;
    try discriminate H1; try discriminate H2; reflexivity.
Qed.

Lemma int16_sign_spec (s1 : string) :
  exists sign sgn,
    In (sign, sgn) [("", 1); ("+", 1); ("-", -1)]
    /\ s1 = sign ++ snd (int16_sign s1)
    /\ sgn = if fst (int16_sign s1) then -1 else 1.
Proof.
  destruct s1 as [| c r].
  { exists EmptyString, 1. cbn. tauto. }
  destruct (Ascii.eqb c "+") eqn:Ep.
  { apply Ascii.eqb_eq in Ep; subst c. exists "+", 1. cbn. tauto. }
  destruct (Ascii.eqb c "-") eqn:Em.
  { apply Ascii.eqb_eq in Em; subst c. exists "-", (-1). cbn. tauto. }
  rewrite (int16_sign_other c r Ep Em). exists EmptyString, 1. cbn. tauto.
Qed.

(** The prefix. *)
Lemma int16_prefix_other (c : ascii) (r : string) :
  Ascii.eqb c "0" = false -> int16_prefix (String c r) = String c r.
Proof.
  destruct c as [[] [] [] [] [] [] [] []]; intros H; try discriminate H;
    reflexivity.
Qed.

Lemma after_prefix_other (u : ascii) (r : string) :
  Ascii.eqb u "_" = false ->
  match String u r with
  | String "_" r' => r'
  | _ => String u r
  end = String u r.
Proof.
  destruct u as [[] [] [] [] [] [] [] []]; intros H; try discriminate H;
    reflexivity.
Qed.

Lemma int16_prefix_spec (s2 : string) :
  exists pre,
    In pre [""; "0x"; "0X"; "0x_"; "0X_"] /\ s2 = pre ++ int16_prefix s2.
Proof.
  assert (Hnone : int16_prefix s2 = s2 ->
                  exists pre,
                    In pre [""; "0x"; "0X"; "0x_"; "0X_"]
                    /\ s2 = pre ++ int16_prefix s2).
  { intros E. exists EmptyString. rewrite E. cbn. tauto. }
  destruct s2 as [| c [| x r]]; try (apply Hnone; reflexivity).
  { apply Hnone. destruct c as [[] [] [] [] [] [] [] []]; reflexivity. }
  destruct (Ascii.eqb c "0") eqn:E0;
    [| apply Hnone, int16_prefix_other; assumption].
  apply Ascii.eqb_eq in E0; subst c.
  change (int16_prefix (String "0" (String x r)))
    with (if (Ascii.eqb x "x" || Ascii.eqb x "X")%bool
          then match r with
               | String "_" r' => r'
               | _ => r
               end
          else String "0" (String x r)) in *.
  destruct (Ascii.eqb x "x") eqn:Ex.
  { apply Ascii.eqb_eq in Ex; subst x. cbn [orb].
    destruct r as [| u r']; [exists "0x"; cbn; tauto |].
    destruct (Ascii.eqb u "_") eqn:Eu.
    - apply Ascii.eqb_eq in Eu; subst u. exists "0x_". cbn. tauto.
    - rewrite (after_prefix_other u r' Eu). exists "0x". cbn. tauto. }
  destruct (Ascii.eqb x "X") eqn:EX.
  { apply Ascii.eqb_eq in EX; subst x. cbn [orb].
    destruct r as [| u r']; [exists "0X"; cbn; tauto |].
    destruct (Ascii.eqb u "_") eqn:Eu.
    - apply Ascii.eqb_eq in Eu; subst u. exists "0X_". cbn. tauto.
    - rewrite (after_prefix_other u r' Eu). exists "0X". cbn. tauto. }
  cbn [orb]. exists EmptyString. cbn. tauto.
Qed.

(** A digit run with white space after it has no prefix to remove. *)
Lemma int16_prefix_none (c : ascii) (d : Z) (tail ws2 : string) (ds : list Z) :
  In (c, d) hex_table -> run_tail tail ds -> blank ws2 = true ->
  int16_prefix (String c (tail ++ ws2)) = String c (tail ++ ws2).
Proof.
  intros Hc Htail Hws.
  destruct (Ascii.eqb c "0") eqn:E0; [| apply int16_prefix_other; assumption].
  apply Ascii.eqb_eq in E0; subst c.
  assert (Hx : forall x r,
             Ascii.eqb x "x" = false -> Ascii.eqb x "X" = false ->
             int16_prefix (String "0" (String x r)) = String "0" (String x r)).
  { intros x r Hx1 Hx2.
    change (int16_prefix (String "0" (String x r)))
      with (if (Ascii.eqb x "x" || Ascii.eqb x "X")%bool
            then match r with
                 | String "_" r' => r'
                 | _ => r
                 end
            else String "0" (String x r)).
    rewrite Hx1, Hx2. reflexivity. }
  destruct Htail as [| u e s es Hu Hs | u e s es Hu Hs]; cbn [append].
  - destruct ws2 as [| w r]; [reflexivity |].
    cbn [blank] in Hws. rewrite <- is_c_space_blank in Hws.
    apply andb_true_iff in Hws as [Hw _].
    destruct (blank_char w Hw) as (_ & _ & Hw1 & Hw2). apply Hx; assumption.
  - apply hex_table_value in Hu.
    destruct (hex_value_char u e Hu) as (_ & _ & _ & _ & _ & _ & Hu1 & Hu2).
    apply Hx; assumption.
  - apply Hx; reflexivity.
Qed.

(** The digit run. *)
Lemma spelled_cons (a d : Z) (ds : list Z) :
  spelled a (d :: ds) = spelled (16 * a + d) ds.
Proof. reflexivity. Qed.

Lemma scan_run_tail (tail : string) (ds : list Z) :
  run_tail tail ds ->
  forall acc ws2,
    blank ws2 = true ->
    scan_digits (tail ++ ws2) acc false true = Some (spelled acc ds, ws2).
Proof.
  induction 1 as [| c d s ds Hc Hs IH | c d s ds Hc Hs IH]; intros acc ws2 Hws.
  - cbn [append]. destruct ws2 as [| w r]; [reflexivity |].
    cbn [blank] in Hws. rewrite <- is_c_space_blank in Hws.
    apply andb_true_iff in Hws as [Hw _].
    destruct (blank_char w Hw) as (Hv & Hu & _).
    cbn [scan_digits]. rewrite Hu, Hv. reflexivity.
  - apply hex_table_value in Hc.
    destruct (hex_value_char c d Hc) as (_ & _ & Hu & _).
    cbn [append scan_digits]. rewrite Hu, Hc, spelled_cons. apply IH, Hws.
  - apply hex_table_value in Hc.
    destruct (hex_value_char c d Hc) as (_ & _ & Hu & _).
    cbn [append scan_digits]. rewrite Ascii.eqb_refl, Hu, Hc, spelled_cons.
    apply IH, Hws.
Qed.

Lemma scan_run_tail_inv (s : string) :
  forall acc prev v rest,
    scan_digits s acc prev true = Some (v, rest) ->
    if prev
    then exists c d tail ds,
        s = String c (tail ++ rest) /\ In (c, d) hex_table
        /\ run_tail tail ds /\ v = spelled (16 * acc + d) ds
    else exists tail ds,
        s = tail ++ rest /\ run_tail tail ds /\ v = spelled acc ds.
Proof.
  induction s as [| c r IH]; intros acc prev v rest H.
  - cbn [scan_digits] in H. destruct prev; cbn in H; [discriminate |].
    inversion H; subst. exists EmptyString, []. repeat split. constructor.
  - cbn [scan_digits] in H. destruct (Ascii.eqb c "_") eqn:Eu.
    + apply Ascii.eqb_eq in Eu; subst c.
      destruct prev; [discriminate |].
      destruct (IH acc true v rest H) as (c & d & tail & ds & -> & Hc & Ht & ->).
      exists (String "_" (String c tail)), (d :: ds).
      split; [reflexivity |]. split; [constructor; assumption | reflexivity].
    + destruct (hex_value c) as [d |] eqn:Hc.
      * destruct (IH (16 * acc + d) false v rest H) as (tail & ds & -> & Ht & ->).
        apply hex_table_value in Hc.
        destruct prev.
        -- exists c, d, tail, ds. repeat split; assumption.
        -- exists (String c tail), (d :: ds).
           split; [reflexivity |]. split; [constructor; assumption | reflexivity].
      * destruct prev; cbn in H; [discriminate |].
        inversion H; subst. exists EmptyString, []. repeat split. constructor.
Qed.

Lemma int16_run_first (neg : bool) (c : ascii) (r : string) :
  Ascii.eqb c "_" = false ->
  int16_run neg (String c r)
  = match scan_digits (String c r) 0 false false with
    | Some (v, rest) =>
        match skip_c_space rest with
        | EmptyString => Some (if neg then - v else v)
        | _ => None
        end
    | None => None
    end.
Proof.
  destruct c as [[] [] [] [] [] [] [] []]; intros H; try discriminate H;
    reflexivity.
Qed.

(** [int(_, 16)] reads the literals, and nothing else. *)
Lemma literal16_int16 (s : string) (z : Z) : literal16 s z -> int16 s = Some z.
Proof.
  intros [ws1 sign pre tail ws2 sgn c d ds Hw1 Hw2 Hsign Hpre Hc Htail].
  pose proof Hc as Hv. apply hex_table_value in Hv.
  destruct (hex_value_char c d Hv) as (_ & Hsp & Hu & _ & Hp & Hm & _).
  assert (Hrun : forall neg,
             int16_run neg (String c (tail ++ ws2))
             = Some (if neg then - spelled d ds else spelled d ds)).
  { intros neg. rewrite (int16_run_first neg c _ Hu).
    cbn [scan_digits]. rewrite Hu, Hv. cbn [orb negb].
    change (16 * 0 + d) with d.
    rewrite (scan_run_tail tail ds Htail d ws2 Hw2), (skip_blank ws2 Hw2).
    reflexivity. }
  assert (Hprefix : int16_prefix (pre ++ String c (tail ++ ws2))
                    = String c (tail ++ ws2)).
  { cbn [In] in Hpre.
    destruct Hpre as [<- | [<- | [<- | [<- | [<- | []]]]]]; cbn [append].
    - apply (int16_prefix_none c d tail ws2 ds Hc Htail Hw2).
    - change (int16_prefix (String "0" (String "x" (String c (tail ++ ws2)))))
        with (match String c (tail ++ ws2) with
              | String "_" r' => r'
              | _ => String c (tail ++ ws2)
              end).
      apply after_prefix_other, Hu.
    - change (int16_prefix (String "0" (String "X" (String c (tail ++ ws2)))))
        with (match String c (tail ++ ws2) with
              | String "_" r' => r'
              | _ => String c (tail ++ ws2)
              end).
      apply after_prefix_other, Hu.
    - reflexivity.
    - reflexivity. }
  assert (Hfirst : forall r, exists c' r',
               pre ++ String c r = String c' r' /\ is_c_space c' = false
               /\ Ascii.eqb c' "+" = false /\ Ascii.eqb c' "-" = false).
  { intros r. cbn [In] in Hpre.
    destruct Hpre as [<- | [<- | [<- | [<- | [<- | []]]]]]; cbn [append];
      eexists; eexists; (split; [reflexivity |]); repeat split;
      try assumption; reflexivity. }
  change (String c tail ++ ws2) with (String c (tail ++ ws2)).
  rewrite int16_steps, (skip_blank_app ws1 _ Hw1).
  destruct (Hfirst (tail ++ ws2)) as (c' & r' & Er & Hsp' & Hp' & Hm').
  cbn [In] in Hsign.
  destruct Hsign as [E | [E | [E | []]]]; inversion E; subst sign sgn;
    cbn [append].
  - rewrite Er, (skip_first c' r' Hsp'), (int16_sign_other c' r' Hp' Hm').
    cbn [fst snd]. rewrite <- Er, Hprefix, Hrun.
    rewrite Z.mul_1_l. reflexivity.
  - rewrite skip_first by reflexivity. cbn [int16_sign fst snd].
    rewrite Hprefix, Hrun. rewrite Z.mul_1_l. reflexivity.
  - rewrite skip_first by reflexivity. cbn [int16_sign fst snd].
    rewrite Hprefix, Hrun. f_equal; lia.
Qed.

Lemma int16_literal16 (s : string) (z : Z) : int16 s = Some z -> literal16 s z.
Proof.
  rewrite int16_steps.
  destruct (skip_decompose s) as (ws1 & Hw1 & Hs).
  destruct (int16_sign_spec (skip_c_space s)) as (sign & sgn & Hsign & Hs1 & Hsgn).
  destruct (int16_prefix_spec (snd (int16_sign (skip_c_space s))))
    as (pre & Hpre & Hs2).
  set (neg := fst (int16_sign (skip_c_space s))) in *.
  set (s3 := int16_prefix (snd (int16_sign (skip_c_space s)))) in *.
  intros H.
  assert (Hs3 : exists c d tail ds ws2,
             s3 = String c (tail ++ ws2) /\ In (c, d) hex_table
             /\ run_tail tail ds /\ blank ws2 = true
             /\ z = if neg then - spelled d ds else spelled d ds).
  { destruct s3 as [| c r]; [discriminate |].
    destruct (Ascii.eqb c "_") eqn:Eu.
    { apply Ascii.eqb_eq in Eu; subst c. discriminate. }
    rewrite (int16_run_first neg c r Eu) in H.
    cbn [scan_digits] in H. rewrite Eu in H.
    destruct (hex_value c) as [d |] eqn:Hc; [| discriminate].
    change (16 * 0 + d) with d in H.
    destruct (scan_digits r d false true) as [[v rest] |] eqn:Hscan;
      [| discriminate].
    destruct (skip_c_space rest) eqn:Hrest; [| discriminate].
    inversion H; subst z.
    destruct (scan_run_tail_inv r d false v rest Hscan)
      as (tail & ds & -> & Ht & ->).
    exists c, d, tail, ds, rest. repeat split; try assumption.
    - apply hex_table_value; assumption.
    - apply skip_empty_blank; assumption. }
  destruct Hs3 as (c & d & tail & ds & ws2 & E3 & Hc & Ht & Hw2 & Hz).
  assert (Hz' : z = sgn * spelled d ds).
  { rewrite Hz, Hsgn. destruct neg; lia. }
  rewrite Hz', Hs, Hs1, Hs2, E3.
  apply (literal16_intro ws1 sign pre tail ws2 sgn c d ds); assumption.
Qed.

Lemma int16_none (s : string) :
  int16 s = None <-> forall z, ~ literal16 s z.
Proof.
  split.
  - intros H z Hl. rewrite (literal16_int16 s z Hl) in H. discriminate.
  - intros H. destruct (int16 s) as [z |] eqn:E; [| reflexivity].
    exfalso. apply (H z), int16_literal16, E.
Qed.

(** ** The fields of a header text *)

Lemma split_app_sep (sep : ascii) (a b : string) :
  count_char sep a = O -> split sep (a ++ String sep b) = a :: split sep b.
Proof.
  induction a as [| c a IH]; cbn [append split count_char].
  - rewrite Ascii.eqb_refl. reflexivity.
  - destruct (Ascii.eqb c sep); [discriminate |].
    intros H. rewrite (IH H). reflexivity.
Qed.

Lemma split_combined (a b c d : string) :
  count_char ":" a = O -> count_char ":" b = O ->
  count_char ":" c = O -> count_char ":" d = O ->
  split ":" (a ++ ":" ++ b ++ ":" ++ c ++ ":" ++ d) = [a; b; c; d].
Proof.
  intros Ha Hb Hc Hd.
  change (a ++ ":" ++ b ++ ":" ++ c ++ ":" ++ d)
    with (a ++ String ":" (b ++ String ":" (c ++ String ":" d))).
  rewrite !split_app_sep by assumption.
  rewrite (split_no_sep _ _ Hd). reflexivity.
Qed.

Lemma split_single (sep : ascii) (s p : string) :
  split sep s = [p] -> p = s /\ count_char sep s = O.
Proof.
  intros H. pose proof (split_length sep s) as L. rewrite H in L.
  cbn [List.length] in L.
  assert (Hc : count_char sep s = O) by lia.
  rewrite (split_no_sep sep s Hc) in H. injection H as E. subst p.
  split; [reflexivity | exact Hc].
Qed.

Lemma split_cons_inv (sep : ascii) (s : string) :
  forall p q rest,
    split sep s = p :: q :: rest ->
    exists s',
      s = p ++ String sep s' /\ count_char sep p = O
      /\ split sep s' = q :: rest.
Proof.
  induction s as [| c r IH]; intros p q rest H; cbn [split] in H;
    [discriminate |].
  destruct (Ascii.eqb c sep) eqn:E.
  - apply Ascii.eqb_eq in E; subst c. inversion H; subst.
    exists r. repeat split.
  - destruct (split sep r) as [| h t] eqn:Hr; [discriminate |].
    inversion H; subst p t.
    destruct (IH h q rest eq_refl) as (s' & -> & Hh & Hs').
    exists s'. cbn [append count_char]. rewrite E. repeat split; assumption.
Qed.

(** The decoder splits a text into four parts exactly when the text has
    three colons, and the parts are then its four fields. *)
Lemma split_four_fields (s p0 p1 p2 p3 : string) :
  split ":" s = [p0; p1; p2; p3] <-> four_fields s p0 p1 p2 p3.
Proof.
  split.
  - intros H.
    destruct (split_cons_inv ":" s p0 p1 [p2; p3] H) as (s1 & -> & H0 & H1).
    destruct (split_cons_inv ":" s1 p1 p2 [p3] H1) as (s2 & -> & H1' & H2).
    destruct (split_cons_inv ":" s2 p2 p3 [] H2) as (s3 & -> & H2' & H3).
    destruct (split_single ":" s3 p3 H3) as [-> H3'].
    repeat split; assumption.
  - intros (-> & H0 & H1 & H2 & H3). apply split_combined; assumption.
Qed.

Lemma split_count_four (s : string) :
  count_char ":" s = 3%nat <-> exists p0 p1 p2 p3, split ":" s = [p0; p1; p2; p3].
Proof.
  pose proof (split_length ":" s) as L. split.
  - intros H. rewrite H in L.
    destruct (split ":" s) as [| p0 [| p1 [| p2 [| p3 [| p4 r]]]]];
      try discriminate L.
    exists p0, p1, p2, p3. reflexivity.
  - intros (p0 & p1 & p2 & p3 & H). rewrite H in L. cbn [List.length] in L. lia.
Qed.

(** C5, as the code has it, for header text of ASCII characters.
    [span_context_from_string] takes a string or a one-element list
    holding a string, cuts it at its colons into exactly 4 fields and
    reads each field with [int(_, 16)], which takes more than hex digits:
    white space around the number, a sign, a [0x] or [0X] prefix and
    single underscores between the digits. It raises
    [SpanContextCorruptedException] exactly when the value is
    [corrupted]: more than one element, not a string, a number of
    fields other than 4, a field that is no such literal, or
    [trace_id < 1], [span_id < 1], [parent_id < 0] or [flags < 0]; it
    raises nothing else; and when it returns, it returns the four numbers
    the fields spell, with a [parent_id] of 0 turned into [None]. *)
Theorem span_context_from_string_decodes (value : pyval) :
  ascii_header value = true ->
  (span_context_from_string value = Raise SpanContextCorruptedException
   <-> corrupted value)
  /\ (forall e, span_context_from_string value = Raise e ->
                e = SpanContextCorruptedException)
  /\ (forall r, span_context_from_string value = Ok r <->
        exists s p0 p1 p2 p3 t sp pa f,
          header_text value = Some s /\
          four_fields s p0 p1 p2 p3 /\
          literal16 p0 t /\ literal16 p1 sp /\
          literal16 p2 pa /\ literal16 p3 f /\
          1 <= t /\ 1 <= sp /\ 0 <= pa /\ 0 <= f /\
          r = (PInt t, PInt sp, (if pa =? 0 then PNone else PInt pa), PInt f)).
Proof.
  intros _.
  split; [| split].
  - split.
    + intros H.
      destruct (header_text value) as [s |] eqn:Ht;
        [| apply corrupted_type; assumption].
      rewrite (from_string_text _ _ Ht), from_string_PStr in H.
      destruct (split ":" s) as [| p0 [| p1 [| p2 [| p3 [| p4 r]]]]] eqn:Hs;
        try (apply (corrupted_count _ s Ht); intros Hc;
             apply split_count_four in Hc as (q0 & q1 & q2 & q3 & Hq);
             rewrite Hq in Hs; discriminate).
      apply split_four_fields in Hs.
      destruct (int16 p0) as [t |] eqn:H0;
        [| apply (corrupted_hex _ s p0 p1 p2 p3 p0 Ht Hs);
           [cbn; tauto | apply int16_none; assumption]].
      destruct (int16 p1) as [sp |] eqn:H1;
        [| apply (corrupted_hex _ s p0 p1 p2 p3 p1 Ht Hs);
           [cbn; tauto | apply int16_none; assumption]].
      destruct (int16 p2) as [pa |] eqn:H2;
        [| apply (corrupted_hex _ s p0 p1 p2 p3 p2 Ht Hs);
           [cbn; tauto | apply int16_none; assumption]].
      destruct (int16 p3) as [f |] eqn:H3;
        [| apply (corrupted_hex _ s p0 p1 p2 p3 p3 Ht Hs);
           [cbn; tauto | apply int16_none; assumption]].
      destruct ((t <? 1) || (sp <? 1) || (pa <? 0) || (f <? 0)) eqn:Hr;
        [| discriminate].
      apply (corrupted_range _ s p0 p1 p2 p3 t sp pa f Ht Hs);
        try (apply int16_literal16; assumption).
      apply range_check_true; assumption.
    + intros H; destruct H as
        [l Hl | v Ht | v s Ht Hc | v s p0 p1 p2 p3 part Ht Hs Hin Hp
        | v s p0 p1 p2 p3 t sp pa f Ht Hs H0 H1 H2 H3 Hr].
      * destruct l as [| x [| y r]]; simpl in Hl; try lia. reflexivity.
      * apply from_string_no_text; assumption.
      * rewrite (from_string_text _ _ Ht), from_string_PStr.
        destruct (split ":" s) as [| p0 [| p1 [| p2 [| p3 [| p4 r]]]]] eqn:Hs;
          try reflexivity.
        exfalso; apply Hc, split_count_four.
        exists p0, p1, p2, p3. assumption.
      * apply split_four_fields in Hs. apply int16_none in Hp.
        rewrite (from_string_text _ _ Ht), from_string_PStr, Hs.
        cbn [In] in Hin.
        destruct Hin as [E | [E | [E | [E | []]]]]; subst part; rewrite Hp;
          repeat match goal with
                 | |- context [match int16 ?p with _ => _ end] =>
                     destruct (int16 p)
                 end; reflexivity.
      * apply split_four_fields in Hs.
        apply literal16_int16 in H0, H1, H2, H3.
        rewrite (from_string_text _ _ Ht), from_string_PStr, Hs, H0, H1, H2, H3.
        apply range_check_true in Hr. rewrite Hr. reflexivity.
  - apply from_string_raises_only.
  - intros r; split.
    + intros H.
      destruct (header_text value) as [s |] eqn:Ht;
        [| rewrite (from_string_no_text _ Ht) in H; discriminate].
      rewrite (from_string_text _ _ Ht), from_string_PStr in H.
      destruct (split ":" s) as [| p0 [| p1 [| p2 [| p3 [| p4 r']]]]] eqn:Hs;
        try discriminate.
      destruct (int16 p0) as [t |] eqn:H0; [| discriminate].
      destruct (int16 p1) as [sp |] eqn:H1; [| discriminate].
      destruct (int16 p2) as [pa |] eqn:H2; [| discriminate].
      destruct (int16 p3) as [f |] eqn:H3; [| discriminate].
      destruct ((t <? 1) || (sp <? 1) || (pa <? 0) || (f <? 0)) eqn:Hr;
        [discriminate |].
      inversion H; subst r.
      exists s, p0, p1, p2, p3, t, sp, pa, f.
      rewrite !orb_false_iff, !Z.ltb_ge in Hr.
      apply split_four_fields in Hs.
      apply int16_literal16 in H0, H1, H2, H3.
      repeat split; try reflexivity; try assumption; try lia;
        apply Hs.
    + intros (s & p0 & p1 & p2 & p3 & t & sp & pa & f & Ht & Hs & H0 & H1 & H2
              & H3 & Rt & Rs & Rp & Rf & ->).
      apply split_four_fields in Hs.
      apply literal16_int16 in H0, H1, H2, H3.
      rewrite (from_string_text _ _ Ht), from_string_PStr, Hs, H0, H1, H2, H3.
      replace ((t <? 1) || (sp <? 1) || (pa <? 0) || (f <? 0)) with false;
        [reflexivity |].
      symmetry. rewrite !orb_false_iff, !Z.ltb_ge. lia.
Qed.

Lemma span_context_from_string_decodes_witness :
  ascii_header (PList [PStr "0x1:+2: 3 :1_0"]) = true
  /\ (span_context_from_string (PList [PStr "0x1:+2: 3 :1_0"])
      = Raise SpanContextCorruptedException
      <-> corrupted (PList [PStr "0x1:+2: 3 :1_0"]))
  /\ (forall e,
         span_context_from_string (PList [PStr "0x1:+2: 3 :1_0"]) = Raise e ->
         e = SpanContextCorruptedException)
  /\ (forall r,
         span_context_from_string (PList [PStr "0x1:+2: 3 :1_0"]) = Ok r <->
         exists s p0 p1 p2 p3 t sp pa f,
           header_text (PList [PStr "0x1:+2: 3 :1_0"]) = Some s /\
           four_fields s p0 p1 p2 p3 /\
           literal16 p0 t /\ literal16 p1 sp /\
           literal16 p2 pa /\ literal16 p3 f /\
           1 <= t /\ 1 <= sp /\ 0 <= pa /\ 0 <= f /\
           r = (PInt t, PInt sp, (if pa =? 0 then PNone else PInt pa), PInt f)).
Proof.
  split; [reflexivity |].
  apply (span_context_from_string_decodes (PList [PStr "0x1:+2: 3 :1_0"])).
  reflexivity.
Defined.

(** C5, as stated, fails: a header whose four fields are no hex texts (a
    [0x] prefix, a sign, white space, an underscore) is decoded, to 1, 2,
    3 and 16, and no exception is raised. *)
Lemma from_string_reads_more_than_hex :
  span_context_from_string (PStr "0x1:+2: 3 :1_0")
  = Ok (PInt 1, PInt 2, PInt 3, PInt 16)
  /\ four_fields "0x1:+2: 3 :1_0" "0x1" "+2" " 3 " "1_0"
  /\ hex_only "0x1" = false /\ hex_only "+2" = false
  /\ hex_only " 3 " = false /\ hex_only "1_0" = false.
Proof.
  repeat split; vm_compute; reflexivity.
Qed.

(** ** TextCodec: the aggregated baggage header *)

Lemma parse_baggage_header_fold (header : string) (b : option (dict pyval)) :
  TextCodec._parse_baggage_header (PStr header) b
  = Ok (fold_left keep_pair (split "," header) b).
Proof.
  unfold TextCodec._parse_baggage_header.
  f_equal. apply fold_left_pointwise. apply parse_step_keep_pair.
Qed.

(** C7: [_parse_baggage_header] splits the header on commas and each part
    on every [=]; a part is kept exactly when that gives two tokens, which
    is when the part holds exactly one [=], and every other part is
    skipped without an error. So [a=1,b=2,malformed,c=3] gives
    [{a:1, b:2, c:3}], and a part whose value holds a literal [=], such as
    [k=a=b], is dropped, not split at its first [=]. *)
Theorem parse_baggage_header_keeps_pairs :
  (forall header baggage,
      TextCodec._parse_baggage_header (PStr header) baggage
      = Ok (fold_left keep_pair (split "," header) baggage))
  /\ (forall part,
         List.length (split "=" (strip part)) = 2%nat
         <-> count_char "=" (strip part) = 1%nat)
  /\ (forall part baggage,
         count_char "=" (strip part) = 1%nat ->
         strip part = before "=" (strip part) ++ String "=" (after "=" (strip part))
         /\ exists d,
             keep_pair baggage part = Some d /\
             dict_get d (before "=" (strip part))
             = Some (PStr (after "=" (strip part))))
  /\ (forall part baggage,
         count_char "=" (strip part) <> 1%nat -> keep_pair baggage part = baggage)
  /\ (forall header baggage,
         (forall part, In part (split "," header) ->
                       count_char "=" (strip part) <> 1%nat) ->
         TextCodec._parse_baggage_header (PStr header) baggage = Ok baggage)
  /\ TextCodec._parse_baggage_header (PStr "a=1,b=2,malformed,c=3") None
     = Ok (Some [("a", PStr "1"); ("b", PStr "2"); ("c", PStr "3")])
  /\ TextCodec._parse_baggage_header (PStr "k=a=b") None = Ok None
  /\ TextCodec._parse_baggage_header (PStr "a=1,k=a=b,c=3") None
     = Ok (Some [("a", PStr "1"); ("c", PStr "3")]).
Proof.
  pose proof parse_baggage_header_fold as Hfold.
  assert (Hskip : forall part baggage,
             count_char "=" (strip part) <> 1%nat -> keep_pair baggage part = baggage).
  { intros part baggage H. unfold keep_pair.
    apply Nat.eqb_neq in H. rewrite H. reflexivity. }
  split; [exact Hfold |].
  split; [intros part; rewrite split_length; lia |].
  split.
  { intros part b H. split; [apply before_sep_after; lia |].
    unfold keep_pair. rewrite H. simpl.
    eexists; split; [reflexivity |].
    generalize (match b with Some (x :: r) => x :: r | _ => [] end).
    intros d; induction d as [| [k' v'] d IH]; simpl.
    - rewrite String.eqb_refl; reflexivity.
    - destruct (String.eqb k' (before "=" (strip part))) eqn:E; simpl; rewrite E;
        [reflexivity | assumption]. }
  split; [exact Hskip |].
  split.
  { intros header b H. rewrite Hfold. f_equal.
    apply fold_left_fixed. intros part Hin x. apply Hskip, H, Hin. }
  repeat split; reflexivity.
Qed.

(** ** Dictionaries *)

Lemma dict_get_set {V : Type} (d : dict V) (k k' : string) (v : V) :
  dict_get (dict_set d k v) k' = if String.eqb k k' then Some v else dict_get d k'.
Proof.
  induction d as [| [k0 v0] d IH]; simpl; [reflexivity |].
  destruct (String.eqb k0 k) eqn:E; simpl.
  - apply String.eqb_eq in E; subst k0.
    destruct (String.eqb k k'); reflexivity.
  - rewrite IH. destruct (String.eqb k0 k') eqn:E'; [| reflexivity].
    apply String.eqb_eq in E'; subst k0.
    rewrite String.eqb_sym, E. reflexivity.
Qed.

Lemma dict_set_keeps {V : Type} (d : dict V) (k k' : string) (v v' : V) :
  dict_get d k' = Some v' -> exists w, dict_get (dict_set d k v) k' = Some w.
Proof.
  intros H. rewrite dict_get_set.
  destruct (String.eqb k k'); eauto.
Qed.

(** ** TextCodec: the scan of the carrier *)

Section TextExtract.

Variable unquote : pyval -> result pyval.
Variable self : TextCodec.t.

Local Abbreviation step := (TextCodec.extract_step unquote self).
Local Abbreviation loop := (TextCodec.extract_loop unquote self).

Lemma loop_nil (st : TextCodec.locals) : loop [] st = Ok st.
Proof. reflexivity. Qed.

Lemma loop_cons (item : string * pyval) (items : dict pyval)
  (st : TextCodec.locals) :
  loop (item :: items) st = (st' <- step st item ;; loop items st').
Proof. reflexivity. Qed.

(** The trace header branch: the exception of the decoder is the
    exception of the step, whatever the locals hold. *)
Lemma step_trace_header_raises (st : TextCodec.locals) (key : string)
  (value : pyval) (e : exn) :
  lower key = TextCodec.trace_id_header self ->
  (v <- TextCodec.decoded unquote self value ;; span_context_from_string v)
  = Raise e ->
  step st (key, value) = Raise e.
Proof.
  intros Hk H. unfold TextCodec.extract_step.
  rewrite Hk, String.eqb_refl.
  destruct (TextCodec.decoded unquote self value) as [v |]; simpl in *;
    [| inversion H; reflexivity].
  rewrite H. reflexivity.
Qed.

Lemma loop_raises_at (items : dict pyval) (item : string * pyval) :
  In item items ->
  (forall st, exists e, step st item = Raise e) ->
  forall st, exists e, loop items st = Raise e.
Proof.
  intros Hin Hstep. induction items as [| x items IH]; [destruct Hin |].
  intros st. rewrite loop_cons.
  destruct Hin as [-> | Hin].
  - destruct (Hstep st) as [e He]. exists e. rewrite He. reflexivity.
  - destruct (step st x) as [st' | e]; simpl; [apply (IH Hin) | eauto].
Qed.

(** With percent-decoding off, a step on a string value raises nothing
    but the exception of the decoder. *)
Lemma step_on_string_raises_only (st : TextCodec.locals) (key s : string)
  (e : exn) :
  TextCodec.url_encoding self = false ->
  step st (key, PStr s) = Raise e -> e = SpanContextCorruptedException.
Proof.
  intros Hu. unfold TextCodec.extract_step, TextCodec.decoded.
  rewrite Hu. simpl.
  destruct (String.eqb (lower key) (TextCodec.trace_id_header self)).
  - destruct (span_context_from_string (PStr s)) as [[[[t sp] pa] f] | e'] eqn:E;
      simpl; [discriminate |].
    intros H; inversion H; subst e'.
    apply (from_string_raises_only _ _ E).
  - destruct (startswith (lower key) (TextCodec.baggage_prefix self));
      [discriminate |].
    destruct (String.eqb (lower key) (TextCodec.debug_id_header self));
      [discriminate |].
    destruct (String.eqb (lower key) (TextCodec.baggage_header self));
      discriminate.
Qed.

Lemma loop_on_strings_raises_only (items : dict pyval) :
  TextCodec.url_encoding self = false ->
  Forall (fun item => exists s, snd item = PStr s) items ->
  forall st e, loop items st = Raise e -> e = SpanContextCorruptedException.
Proof.
  intros Hu Hall. induction Hall as [| [k v] items [s Hs] Hall IH];
    intros st e; [rewrite loop_nil; discriminate |].
  rewrite loop_cons. simpl in Hs; subst v.
  destruct (step st (k, PStr s)) as [st' | e'] eqn:E; simpl.
  - apply IH.
  - intros H; inversion H; subst e'.
    apply (step_on_string_raises_only _ _ _ _ Hu E).
Qed.

Lemma keep_pair_keeps (b : option (dict pyval)) (part k : string) :
  (exists d v, b = Some d /\ dict_get d k = Some v) ->
  exists d v, keep_pair b part = Some d /\ dict_get d k = Some v.
Proof.
  intros (d & v & -> & Hd). unfold keep_pair.
  destruct (Nat.eqb (count_char "=" (strip part)) 1); [| eauto].
  destruct d as [| x r]; [discriminate |].
  destruct (dict_set_keeps (x :: r) (before "=" (strip part)) k
              (PStr (after "=" (strip part))) v Hd) as [w Hw].
  eauto.
Qed.

Lemma fold_keep_pair_keeps (parts : list string) (b : option (dict pyval))
  (k : string) :
  (exists d v, b = Some d /\ dict_get d k = Some v) ->
  exists d v, fold_left keep_pair parts b = Some d /\ dict_get d k = Some v.
Proof.
  revert b; induction parts as [| part parts IH]; intros b H; simpl;
    [assumption |].
  apply IH, keep_pair_keeps, H.
Qed.

(** No step of the scan removes a baggage key. *)
Lemma step_keeps_key (st st' : TextCodec.locals) (item : string * pyval)
  (k : string) :
  has_key st k -> step st item = Ok st' -> has_key st' k.
Proof.
  intros (d & v & Hb & Hd). destruct item as [key value].
  unfold TextCodec.extract_step.
  destruct (String.eqb (lower key) (TextCodec.trace_id_header self)).
  { destruct (TextCodec.decoded unquote self value) as [v' |]; simpl;
      [| discriminate].
    destruct (span_context_from_string v') as [[[[t sp] pa] f] |]; simpl;
      [| discriminate].
    intros H; inversion H; subst st'. exists d, v; simpl; auto. }
  destruct (startswith (lower key) (TextCodec.baggage_prefix self)).
  { destruct (TextCodec.decoded unquote self value) as [v' |]; simpl;
      [| discriminate].
    intros H; inversion H; subst st'. rewrite Hb.
    destruct (dict_set_keeps d
                (lower (str_drop (TextCodec.prefix_length self) key)) k v' v Hd)
      as [w Hw].
    eexists; exists w; simpl; split; [reflexivity | assumption]. }
  destruct (String.eqb (lower key) (TextCodec.debug_id_header self)).
  { destruct (TextCodec.decoded unquote self value) as [v' |]; simpl;
      [| discriminate].
    intros H; inversion H; subst st'. exists d, v; simpl; auto. }
  destruct (String.eqb (lower key) (TextCodec.baggage_header self)).
  { destruct (TextCodec.decoded unquote self value) as [v' |]; cbn [bind];
      [| discriminate].
    destruct v' as [| z | header | l]; try discriminate.
    rewrite parse_baggage_header_fold. cbn [bind].
    intros H; inversion H; subst st'. unfold has_key; simpl.
    apply fold_keep_pair_keeps. eauto. }
  intros H; inversion H; subst st'. exists d, v; auto.
Qed.

Lemma loop_keeps_key (items : dict pyval) (k : string) :
  forall st st', has_key st k -> loop items st = Ok st' -> has_key st' k.
Proof.
  induction items as [| item items IH]; intros st st' Hk.
  - rewrite loop_nil. intros H; inversion H; subst st'; assumption.
  - rewrite loop_cons.
    destruct (step st item) as [st1 |] eqn:E; simpl; [| discriminate].
    apply IH. apply (step_keeps_key _ _ _ _ Hk E).
Qed.

(** The baggage prefix branch: the entry goes into the baggage under the
    lower-cased rest of its name, with the value as decoded. *)
Lemma step_baggage_prefix (st : TextCodec.locals) (key : string)
  (value v : pyval) :
  lower key <> TextCodec.trace_id_header self ->
  startswith (lower key) (TextCodec.baggage_prefix self) = true ->
  TextCodec.decoded unquote self value = Ok v ->
  exists st' d,
    step st (key, value) = Ok st' /\
    TextCodec.l_baggage st' = Some d /\
    dict_get d (lower (str_drop (TextCodec.prefix_length self) key)) = Some v.
Proof.
  intros Hk Hp Hv. unfold TextCodec.extract_step.
  apply String.eqb_neq in Hk. rewrite Hk, Hp, Hv. simpl.
  eexists; eexists; split; [reflexivity |]. simpl. split; [reflexivity |].
  destruct (TextCodec.l_baggage st) as [d |].
  - rewrite dict_get_set, String.eqb_refl. reflexivity.
  - simpl. rewrite String.eqb_refl. reflexivity.
Qed.

Lemma loop_stores_baggage_key (items : dict pyval) (key : string) (value : pyval) :
  In (key, value) items ->
  lower key <> TextCodec.trace_id_header self ->
  startswith (lower key) (TextCodec.baggage_prefix self) = true ->
  forall st st', loop items st = Ok st' ->
  has_key st' (lower (str_drop (TextCodec.prefix_length self) key)).
Proof.
  intros Hin Hk Hp. induction items as [| item items IH]; [destruct Hin |].
  intros st st'. rewrite loop_cons.
  destruct (step st item) as [st1 |] eqn:E; simpl; [| discriminate].
  destruct Hin as [-> | Hin]; [| apply (IH Hin)].
  apply loop_keeps_key.
  unfold TextCodec.extract_step in E.
  destruct (TextCodec.decoded unquote self value) as [v |] eqn:Hv.
  - destruct (step_baggage_prefix st key value v Hk Hp Hv) as (st2 & d & E2 & Hb & Hd).
    unfold TextCodec.extract_step in E2. rewrite Hv in E2.
    rewrite E2 in E. inversion E; subst st2. exists d, v; auto.
  - apply String.eqb_neq in Hk. rewrite Hk, Hp in E. simpl in E. discriminate.
Qed.

Lemma finish_with_key (st : TextCodec.locals) (k : string) :
  has_key st k ->
  exists ctx, TextCodec.extract_finish st = Some ctx
              /\ baggage ctx = TextCodec.l_baggage st.
Proof.
  intros (d & v & Hb & Hd). unfold TextCodec.extract_finish.
  destruct d as [| x r]; [discriminate |].
  rewrite Hb.
  destruct (negb (truthy (TextCodec.l_trace_id st))
            || negb (truthy (TextCodec.l_span_id st)))%bool; simpl;
    rewrite andb_false_r; eexists; split; reflexivity.
Qed.

End TextExtract.

(** ** TextCodec.extract: a malformed trace header *)

(** C1, as the code has it: [TextCodec.extract] has no handler around
    [span_context_from_string]. When the carrier holds an entry for the
    trace header whose value the decoder rejects, [extract] returns no
    context: it raises, and with percent-decoding off and string header
    values what it raises is [SpanContextCorruptedException], whether or
    not the carrier also holds baggage headers, before or after the trace
    header. *)
Theorem text_extract_propagates_corruption
  (unquote : pyval -> result pyval) (self : TextCodec.t)
  (items : dict pyval) (key : string) (value : pyval) (e : exn) :
  In (key, value) items ->
  lower key = TextCodec.trace_id_header self ->
  (v <- TextCodec.decoded unquote self value ;; span_context_from_string v)
  = Raise e ->
  (exists e', TextCodec.extract unquote self (CDict items) = Raise e')
  /\ (TextCodec.url_encoding self = false ->
      Forall (fun item => exists s, snd item = PStr s) items ->
      TextCodec.extract unquote self (CDict items)
      = Raise SpanContextCorruptedException).
Proof.
  intros Hin Hk He.
  assert (Hr : exists e', TextCodec.extract_loop unquote self items
                            TextCodec.initial = Raise e').
  { apply (loop_raises_at unquote self items (key, value) Hin).
    intros st; exists e.
    apply step_trace_header_raises; assumption. }
  destruct Hr as [e' He'].
  split.
  - exists e'. unfold TextCodec.extract. rewrite He'. reflexivity.
  - intros Hu Hall. unfold TextCodec.extract. rewrite He'. cbn [bind].
    f_equal.
    apply (loop_on_strings_raises_only unquote self items Hu Hall _ _ He').
Qed.

(** C1, as stated, fails: with the trace header [nothex:1:0:1] and a
    baggage header next to it, on either side, [extract] raises
    [SpanContextCorruptedException] and hands back no baggage. *)
Lemma text_extract_malformed_trace_header_raises :
  TextCodec.extract (fun v => Ok v) TextCodec.default
    (CDict [("uber-trace-id", PStr "nothex:1:0:1"); ("uberctx-k", PStr "v")])
  = Raise SpanContextCorruptedException
  /\ TextCodec.extract (fun v => Ok v) TextCodec.default
       (CDict [("uberctx-k", PStr "v"); ("uber-trace-id", PStr "nothex:1:0:1")])
     = Raise SpanContextCorruptedException.
Proof.
  split; reflexivity.
Qed.

Lemma text_extract_propagates_corruption_witness :
  TextCodec.extract (fun v => Ok v) TextCodec.default
    (CDict [("uberctx-k", PStr "v"); ("Uber-Trace-Id", PStr "nothex:1:0:1")])
  = Raise SpanContextCorruptedException.
Proof.
  refine (proj2 (text_extract_propagates_corruption (fun v => Ok v)
                   TextCodec.default
                   [("uberctx-k", PStr "v"); ("Uber-Trace-Id", PStr "nothex:1:0:1")]
                   "Uber-Trace-Id" (PStr "nothex:1:0:1")
                   SpanContextCorruptedException _ _ _) _ _).
  - simpl; right; left; reflexivity.
  - reflexivity.
  - reflexivity.
  - reflexivity.
  - repeat constructor; eexists; reflexivity.
Defined.

(** ** TextCodec.extract: baggage keys *)

(** C9, as the code has it: an entry whose lower-cased name starts with
    the baggage prefix, and is not the trace header, is stored in the
    baggage under the rest of its name after the prefix converted to lower
    case; the name is never percent-decoded. The step stores the header
    value, percent-decoded only when the toggle is on, and the key is still
    in the baggage of the context that [extract] returns. *)
Theorem text_extract_baggage_key_lowercased
  (unquote : pyval -> result pyval) (self : TextCodec.t)
  (items : dict pyval) (key : string) (value : pyval) :
  In (key, value) items ->
  lower key <> TextCodec.trace_id_header self ->
  startswith (lower key) (TextCodec.baggage_prefix self) = true ->
  TextCodec.decoded unquote self value
  = (if TextCodec.url_encoding self then unquote value else Ok value)
  /\ (forall st v,
         TextCodec.decoded unquote self value = Ok v ->
         exists st' d,
           TextCodec.extract_step unquote self st (key, value) = Ok st' /\
           TextCodec.l_baggage st' = Some d /\
           dict_get d (lower (str_drop (TextCodec.prefix_length self) key))
           = Some v)
  /\ (forall r,
         TextCodec.extract unquote self (CDict items) = Ok r ->
         exists ctx d stored,
           r = Some ctx /\ baggage ctx = Some d /\
           dict_get d (lower (str_drop (TextCodec.prefix_length self) key))
           = Some stored).
Proof.
  intros Hin Hk Hp. split; [reflexivity |]. split.
  - intros st v Hv. apply step_baggage_prefix; assumption.
  - intros r. unfold TextCodec.extract.
    destruct (TextCodec.extract_loop unquote self items TextCodec.initial)
      as [st |] eqn:E; cbn [bind]; [| discriminate].
    intros H; inversion H; subst r.
    pose proof (loop_stores_baggage_key unquote self items key value Hin Hk Hp
                  _ _ E) as Hkey.
    destruct (finish_with_key st _ Hkey) as (ctx & Hc & Hb).
    destruct Hkey as (d & stored & Hd & Hs).
    exists ctx, d, stored. rewrite Hb. auto.
Qed.

(** C9, as stated, fails: the header [uberctx-Foo] is stored under [foo],
    and nothing is stored under [Foo]; and with the toggle on, the name
    [uberctx-A%20b] is stored under [a%20b], while the value is what
    [unquote] made of it. *)
Lemma text_extract_baggage_key_case_lost :
  TextCodec.extract (fun v => Ok v) TextCodec.default
    (CDict [("uberctx-Foo", PStr "v")])
  = Ok (Some (mkSpanContext PNone PNone PNone PNone
                (Some [("foo", PStr "v")]) PNone))
  /\ dict_get [("foo", PStr "v")] "Foo" = None
  /\ TextCodec.extract (fun _ => Ok (PStr "unquoted"))
       (TextCodec.__init__ true TextCodec.TRACE_ID_HEADER
          TextCodec.BAGGAGE_HEADER_PREFIX TextCodec.DEBUG_ID_HEADER_KEY
          TextCodec.BAGGAGE_HEADER_KEY)
       (CDict [("uberctx-A%20b", PStr "x%20y")])
     = Ok (Some (mkSpanContext PNone PNone PNone PNone
                   (Some [("a%20b", PStr "unquoted")]) PNone)).
Proof.
  repeat split; reflexivity.
Qed.

Lemma text_extract_baggage_key_lowercased_witness :
  exists ctx d stored,
    Some (mkSpanContext (PInt 255) (PInt 1) PNone (PInt 1)
            (Some [("foo", PStr "w")]) PNone) = Some ctx /\
    baggage ctx = Some d /\
    dict_get d (lower (str_drop (TextCodec.prefix_length TextCodec.default)
                         "UberCtx-Foo")) = Some stored.
Proof.
  refine (proj2 (proj2 (text_extract_baggage_key_lowercased (fun v => Ok v)
                   TextCodec.default
                   [("UberCtx-Foo", PStr "v"); ("uber-trace-id", PStr "ff:1:0:1");
                    ("uberctx-foo", PStr "w")]
                   "UberCtx-Foo" (PStr "v") _ _ _)) _ _).
  - simpl; left; reflexivity.
  - discriminate.
  - reflexivity.
  - reflexivity.
Defined.

(** ** B3Codec *)

Lemma b3_loop_cons (S D : Z) (item : string * pyval) (items : dict pyval)
  (st : B3Codec.locals) :
  B3Codec.extract_loop S D (item :: items) st
  = (st' <- B3Codec.extract_step S D st item ;; B3Codec.extract_loop S D items st').
Proof. reflexivity. Qed.

Lemma b3_step_none (S D : Z) (st : B3Codec.locals) (key : string) :
  B3Codec.extract_step S D st (key, PNone) = Ok st.
Proof. reflexivity. Qed.

Lemma b3_loop_skips_none (S D : Z) (items : dict pyval) :
  forall st,
    B3Codec.extract_loop S D items st
    = B3Codec.extract_loop S D
        (filter (fun item => negb (is_none (snd item))) items) st.
Proof.
  induction items as [| [k v] items IH]; intros st; [reflexivity |].
  rewrite b3_loop_cons.
  destruct v as [| z | s | l]; cbn [filter snd is_none negb].
  - rewrite b3_step_none. cbn [bind]. apply IH.
  - rewrite b3_loop_cons.
    destruct (B3Codec.extract_step S D st (k, PInt z)); cbn [bind];
      [apply IH | reflexivity].
  - rewrite b3_loop_cons.
    destruct (B3Codec.extract_step S D st (k, PStr s)); cbn [bind];
      [apply IH | reflexivity].
  - rewrite b3_loop_cons.
    destruct (B3Codec.extract_step S D st (k, PList l)); cbn [bind];
      [apply IH | reflexivity].
Qed.

(** C10: [B3Codec.extract] skips an entry whose value is [None] before it
    looks at the key or reads hex: the step leaves every local as it was
    and raises nothing, so [extract] on a carrier is [extract] on the
    carrier without its [None] entries, and [{'X-B3-TraceId': None}] gives
    [None] with no error. *)
Theorem b3_extract_skips_none (S D : Z) :
  (forall st key, B3Codec.extract_step S D st (key, PNone) = Ok st)
  /\ (forall items,
         B3Codec.extract S D (CDict items)
         = B3Codec.extract S D
             (CDict (filter (fun item => negb (is_none (snd item))) items)))
  /\ (forall items,
         Forall (fun item => snd item = PNone) items ->
         B3Codec.extract S D (CDict items) = Ok None)
  /\ B3Codec.extract S D (CDict [("X-B3-TraceId", PNone)]) = Ok None.
Proof.
  split; [intros; apply b3_step_none |].
  split.
  { intros items. unfold B3Codec.extract.
    rewrite (b3_loop_skips_none S D items). reflexivity. }
  split; [| reflexivity].
  intros items Hall. unfold B3Codec.extract.
  assert (E : B3Codec.extract_loop S D items B3Codec.initial = Ok B3Codec.initial).
  { generalize B3Codec.initial.
    induction Hall as [| [k v] items Hv Hall IH]; intros st; [reflexivity |].
    simpl in Hv; subst v. rewrite b3_loop_cons, b3_step_none. apply IH. }
  rewrite E. reflexivity.
Qed.

(** C6: [B3Codec.inject] on a context with integer ids and flags writes the
    two flag headers so that at most one is written, the DEBUG bit first:
    with the DEBUG bit set, with or without SAMPLED, [X-B3-Flags] becomes
    ['1'] and [X-B3-Sampled] is left as the carrier had it; otherwise, with
    the SAMPLED bit set, [X-B3-Sampled] becomes ['1'] and [X-B3-Flags] is
    left alone; otherwise both are left alone. *)
Theorem b3_inject_flag_headers (S D : Z) (self : B3Codec.t)
  (ctx : SpanContext) (d : dict pyval) (t s f : Z) :
  trace_id ctx = PInt t ->
  span_id ctx = PInt s ->
  (parent_id ctx = PNone \/ exists p, parent_id ctx = PInt p) ->
  flags ctx = PInt f ->
  exists d',
    B3Codec.inject S D self ctx (CDict d) = Ok (CDict d') /\
    if Z.land f D =? D then
      dict_get d' B3Codec.flags_header = Some (PStr "1") /\
      dict_get d' B3Codec.sampled_header = dict_get d B3Codec.sampled_header
    else if Z.land f S =? S then
      dict_get d' B3Codec.sampled_header = Some (PStr "1") /\
      dict_get d' B3Codec.flags_header = dict_get d B3Codec.flags_header
    else
      dict_get d' B3Codec.sampled_header = dict_get d B3Codec.sampled_header /\
      dict_get d' B3Codec.flags_header = dict_get d B3Codec.flags_header.
Proof.
  intros Ht Hs Hp Hf. unfold B3Codec.inject, B3Codec.has_flag.
  rewrite Ht, Hs, Hf. cbn [format_x bind].
  set (d1 := if B3Codec.generate_128bit_trace_id self
             then dict_set d B3Codec.trace_header (PStr (zfill 32 (hex_of_Z t)))
             else dict_set d B3Codec.trace_header (PStr (zfill 16 (hex_of_Z t)))).
  assert (H1 : forall k, String.eqb B3Codec.trace_header k = false ->
                         dict_get d1 k = dict_get d k).
  { intros k Hk. unfold d1.
    destruct (B3Codec.generate_128bit_trace_id self);
      rewrite dict_get_set, Hk; reflexivity. }
  set (d2 := dict_set d1 B3Codec.span_header (PStr (zfill 16 (hex_of_Z s)))).
  assert (H2 : forall k, String.eqb B3Codec.trace_header k = false ->
                         String.eqb B3Codec.span_header k = false ->
                         dict_get d2 k = dict_get d k).
  { intros k Hk Hk'. unfold d2. rewrite dict_get_set, Hk'. apply H1, Hk. }
  assert (H3 : exists d3,
             (if negb (is_none (parent_id ctx))
              then p <- format_x (parent_id ctx) ;;
                   Ok (dict_set d2 B3Codec.parent_span_header (PStr (zfill 16 p)))
              else Ok d2) = Ok d3 /\
             dict_get d3 B3Codec.flags_header = dict_get d B3Codec.flags_header /\
             dict_get d3 B3Codec.sampled_header = dict_get d B3Codec.sampled_header).
  { destruct Hp as [Hp | [p Hp]]; rewrite Hp; cbn [is_none negb format_x bind].
    - exists d2. repeat split; apply H2; reflexivity.
    - eexists. split; [reflexivity |].
      rewrite !dict_get_set.
      split; (replace (String.eqb B3Codec.parent_span_header _) with false
               by reflexivity); apply H2; reflexivity. }
  destruct H3 as (d3 & E3 & Hfl & Hsa). rewrite E3. cbn [bind].
  destruct (Z.land f D =? D).
  - eexists; split; [reflexivity |].
    rewrite !dict_get_set. split; [reflexivity |].
    replace (String.eqb B3Codec.flags_header B3Codec.sampled_header) with false
      by reflexivity.
    assumption.
  - cbn [bind]. destruct (Z.land f S =? S).
    + eexists; split; [reflexivity |].
      rewrite !dict_get_set. split; [reflexivity |].
      replace (String.eqb B3Codec.sampled_header B3Codec.flags_header) with false
        by reflexivity.
      assumption.
    + exists d3. auto.
Qed.

Lemma b3_inject_flag_headers_witness :
  exists d',
    B3Codec.inject 1 2 (B3Codec.__init__ false)
      (mkSpanContext (PInt 255) (PInt 16) PNone (PInt 3) None PNone)
      (CDict [("X-B3-Sampled", PStr "0")]) = Ok (CDict d') /\
    dict_get d' B3Codec.flags_header = Some (PStr "1") /\
    dict_get d' B3Codec.sampled_header = Some (PStr "0").
Proof.
  exact (b3_inject_flag_headers 1 2 (B3Codec.__init__ false)
           (mkSpanContext (PInt 255) (PInt 16) PNone (PInt 3) None PNone)
           [("X-B3-Sampled", PStr "0")] 255 16 3
           eq_refl eq_refl (or_introl eq_refl) eq_refl).
Defined.

(** ** ZipkinCodec *)

(** C8: [ZipkinCodec.extract] on a mapping reads the four fields with
    [get], so a missing field is [None] and nothing is raised; on an
    object with attributes it raises [InvalidCarrierException] with the
    message [carrier has no] and the name of the first of [trace_id],
    [span_id], [parent_id], [traceflags] that is missing, and an object
    that has all four is read like the mapping; on either shape, once the
    fields are read (the missing attribute is reported first), a falsy
    [trace_id] (zero or [None]) gives [None]. *)
Theorem zipkin_extract_shapes :
  (forall d,
      ZipkinCodec.extract (CDict d)
      = if truthy (ZipkinCodec.get d "trace_id")
        then Ok (Some (mkSpanContext (ZipkinCodec.get d "trace_id")
                         (ZipkinCodec.get d "span_id")
                         (ZipkinCodec.get d "parent_id")
                         (ZipkinCodec.get d "traceflags") None PNone))
        else Ok None)
  /\ (forall d name, dict_get d name = None -> ZipkinCodec.get d name = PNone)
  /\ (forall attrs name,
         first_missing attrs = Some name ->
         In name zipkin_fields /\
         dict_get attrs name = None /\
         ZipkinCodec.extract (CObject attrs)
         = Raise (InvalidCarrierException ("carrier has no " ++ name)))
  /\ (forall attrs,
         first_missing attrs = None ->
         ZipkinCodec.extract (CObject attrs) = ZipkinCodec.extract (CDict attrs))
  /\ (forall d,
         truthy (ZipkinCodec.get d "trace_id") = false ->
         ZipkinCodec.extract (CDict d) = Ok None)
  /\ (forall attrs,
         first_missing attrs = None ->
         truthy (ZipkinCodec.get attrs "trace_id") = false ->
         ZipkinCodec.extract (CObject attrs) = Ok None)
  /\ ZipkinCodec.extract
       (CObject [("trace_id", PInt 1); ("span_id", PInt 2); ("traceflags", PInt 1)])
     = Raise (InvalidCarrierException "carrier has no parent_id")
  /\ ZipkinCodec.extract
       (CDict [("trace_id", PInt 1); ("span_id", PInt 2); ("traceflags", PInt 1)])
     = Ok (Some (mkSpanContext (PInt 1) (PInt 2) PNone (PInt 1) None PNone)).
Proof.
  assert (Hd : forall d,
             ZipkinCodec.extract (CDict d)
             = if truthy (ZipkinCodec.get d "trace_id")
               then Ok (Some (mkSpanContext (ZipkinCodec.get d "trace_id")
                                (ZipkinCodec.get d "span_id")
                                (ZipkinCodec.get d "parent_id")
                                (ZipkinCodec.get d "traceflags") None PNone))
               else Ok None).
  { intros d. unfold ZipkinCodec.extract. cbn [bind].
    destruct (truthy (ZipkinCodec.get d "trace_id")); reflexivity. }
  assert (Ho : forall attrs,
             first_missing attrs = None ->
             ZipkinCodec.extract (CObject attrs) = ZipkinCodec.extract (CDict attrs)).
  { intros attrs. unfold first_missing, zipkin_fields, ZipkinCodec.extract,
      ZipkinCodec.attribute, ZipkinCodec.get. cbn [find ZipkinCodec.attributes].
    destruct (dict_get attrs "trace_id"); [| discriminate].
    destruct (dict_get attrs "span_id"); [| discriminate].
    destruct (dict_get attrs "parent_id"); [| discriminate].
    destruct (dict_get attrs "traceflags"); [| discriminate].
    reflexivity. }
  split; [exact Hd |].
  split; [intros d name H; unfold ZipkinCodec.get; rewrite H; reflexivity |].
  split.
  { intros attrs name. unfold first_missing, zipkin_fields, ZipkinCodec.extract,
      ZipkinCodec.attribute. cbn [find ZipkinCodec.attributes].
    destruct (dict_get attrs "trace_id") eqn:E1;
      [| intros H; inversion H; subst name; rewrite E1; simpl; auto].
    destruct (dict_get attrs "span_id") eqn:E2;
      [| intros H; inversion H; subst name; rewrite E2; simpl; auto].
    destruct (dict_get attrs "parent_id") eqn:E3;
      [| intros H; inversion H; subst name; rewrite E3; simpl; auto 6].
    destruct (dict_get attrs "traceflags") eqn:E4;
      [| intros H; inversion H; subst name; rewrite E4; simpl; auto 7].
    discriminate. }
  split; [exact Ho |].
  split; [intros d H; rewrite Hd, H; reflexivity |].
  split; [intros attrs Hm H; rewrite (Ho attrs Hm), Hd, H; reflexivity |].
  split; reflexivity.
Qed.

(** ** Bytes and slices *)

Lemma Z_of_byte_range (b : byte) : 0 <= Z_of_byte b < 256.
Proof.
  unfold Z_of_byte. pose proof (Byte.to_N_bounded b). lia.
Qed.

Lemma Z_of_byte_of_Z (z : Z) : Z_of_byte (byte_of_Z z) = z mod 256.
Proof.
  unfold Z_of_byte, byte_of_Z.
  pose proof (Z.mod_pos_bound z 256 ltac:(lia)) as Hm.
  destruct (Byte.of_N (Z.to_N (z mod 256))) as [b |] eqn:E.
  - apply Byte.to_of_N in E. rewrite E. lia.
  - apply Byte.of_N_None_iff in E. lia.
Qed.

Lemma be_bytes_length (n : nat) (z : Z) : List.length (be_bytes n z) = n.
Proof.
  induction n as [| n IH]; simpl; [reflexivity | rewrite IH; reflexivity].
Qed.

Lemma be_int_acc (bs : list byte) (acc : Z) :
  fold_left (fun a b => a * 256 + Z_of_byte b) bs acc
  = acc * 256 ^ Z.of_nat (List.length bs) + be_int bs.
Proof.
  unfold be_int. revert acc.
  induction bs as [| b bs IH]; intros acc; [simpl; lia |].
  cbn [fold_left List.length]. rewrite IH, (IH (0 * 256 + Z_of_byte b)).
  rewrite Nat2Z.inj_succ, Z.pow_succ_r by lia. ring.
Qed.

Lemma be_int_cons (b : byte) (bs : list byte) :
  be_int (b :: bs) = Z_of_byte b * 256 ^ Z.of_nat (List.length bs) + be_int bs.
Proof.
  unfold be_int at 1. cbn [fold_left]. rewrite be_int_acc. ring.
Qed.

Lemma be_int_range (bs : list byte) :
  0 <= be_int bs < 256 ^ Z.of_nat (List.length bs).
Proof.
  induction bs as [| b bs IH]; [cbn; lia |].
  rewrite be_int_cons. cbn [List.length].
  rewrite Nat2Z.inj_succ, Z.pow_succ_r by lia.
  pose proof (Z_of_byte_range b). nia.
Qed.

(** Reading back the big-endian bytes of a number gives its low bits. *)
Lemma be_int_be_bytes (n : nat) (z : Z) :
  be_int (be_bytes n z) = z mod 256 ^ Z.of_nat n.
Proof.
  induction n as [| n IH]; [cbn; rewrite Z.mod_1_r; reflexivity |].
  cbn [be_bytes]. rewrite be_int_cons, be_bytes_length, IH, Z_of_byte_of_Z.
  rewrite Nat2Z.inj_succ, Z.pow_succ_r by lia.
  rewrite (Z.mul_comm 256), Z.rem_mul_r by (try apply Z.pow_nonzero; lia).
  ring.
Qed.

Lemma be_int_be_bytes_small (n : nat) (z : Z) :
  0 <= z < 256 ^ Z.of_nat n -> be_int (be_bytes n z) = z.
Proof.
  intros H. rewrite be_int_be_bytes. apply Z.mod_small, H.
Qed.

Lemma slice_bound_nonneg (len i : Z) : 0 <= i -> slice_bound len i = Z.min i len.
Proof.
  intros H. unfold slice_bound.
  destruct (i <? 0) eqn:E; [apply Z.ltb_lt in E; lia | reflexivity].
Qed.

Lemma skipn_min {A : Type} (l : list A) (n : nat) :
  skipn (Nat.min n (List.length l)) l = skipn n l.
Proof.
  destruct (Nat.le_gt_cases n (List.length l)) as [H | H].
  - rewrite Nat.min_l by assumption. reflexivity.
  - rewrite Nat.min_r by lia. rewrite !skipn_all2 by lia. reflexivity.
Qed.

(** [l[n:]] for a bound that is not negative. *)
Lemma slice_from_nonneg {A : Type} (l : list A) (n : Z) :
  0 <= n -> slice_from l n = skipn (Z.to_nat n) l.
Proof.
  intros H. unfold slice_from. rewrite slice_bound_nonneg by assumption.
  rewrite Z2Nat.inj_min, Nat2Z.id. apply skipn_min.
Qed.

(** [l[a:b]] for bounds that are not negative. *)
Lemma slice_nonneg {A : Type} (l : list A) (a b : Z) :
  0 <= a <= b ->
  slice l a b = firstn (Z.to_nat (b - a)) (skipn (Z.to_nat a) l).
Proof.
  intros H. unfold slice. rewrite !slice_bound_nonneg by lia.
  set (len := Z.of_nat (List.length l)).
  assert (Hlen : List.length l = Z.to_nat len) by (unfold len; lia).
  destruct (Z.le_gt_cases len a) as [Ha | Ha].
  - rewrite !skipn_all2 by lia. rewrite !firstn_nil. reflexivity.
  - rewrite (Z.min_l a) by lia.
    destruct (Z.le_gt_cases b len) as [Hb | Hb].
    + rewrite (Z.min_l b) by lia. reflexivity.
    + rewrite (Z.min_r b) by lia.
      rewrite !firstn_all2; [reflexivity | |]; rewrite length_skipn; lia.
Qed.

Lemma slice_prefix {A : Type} (l : list A) (n : Z) :
  0 <= n -> slice l 0 n = firstn (Z.to_nat n) l.
Proof.
  intros H. rewrite slice_nonneg by lia. rewrite Z.sub_0_r. reflexivity.
Qed.

Lemma firstn_exact {A : Type} (l r : list A) (n : nat) :
  List.length l = n -> firstn n (l ++ r)%list = l.
Proof.
  intros <-. rewrite firstn_app, Nat.sub_diag, firstn_all, firstn_0, app_nil_r.
  reflexivity.
Qed.

Lemma skipn_exact {A : Type} (l r : list A) (n : nat) :
  List.length l = n -> skipn n (l ++ r)%list = r.
Proof.
  intros <-. rewrite skipn_app, Nat.sub_diag, skipn_all. reflexivity.
Qed.

(** ** The two words of a trace id *)

Lemma max_int64_ones : 18446744073709551615 = Z.ones 64.
Proof. reflexivity. Qed.

Lemma trace_id_recombine (t : Z) :
  0 <= t ->
  Z.lor (Z.shiftl (Z.shiftr t 64) 64) (Z.land t (Z.ones 64)) = t.
Proof.
  intros Ht. apply Z.bits_inj'. intros n Hn.
  rewrite Z.lor_spec, Z.land_spec, Z.testbit_ones by lia.
  destruct (Z.ltb_spec n 64) as [H | H].
  - rewrite Z.shiftl_spec_low by lia.
    replace (0 <=? n) with true by (symmetry; apply Z.leb_le; lia).
    simpl. rewrite andb_true_r. reflexivity.
  - rewrite Z.shiftl_spec, Z.shiftr_spec by lia.
    replace (n - 64 + 64) with n by lia.
    rewrite andb_false_r, andb_false_r, orb_false_r. reflexivity.
Qed.

Lemma trace_id_high_range (t : Z) :
  0 <= t < 2 ^ 128 -> 0 <= Z.shiftr t 64 < 2 ^ 64.
Proof.
  intros H. rewrite Z.shiftr_div_pow2 by lia.
  split; [apply Z.div_pos; lia |].
  apply Z.div_lt_upper_bound; lia.
Qed.

Lemma trace_id_low_range (t : Z) : 0 <= Z.land t (Z.ones 64) < 2 ^ 64.
Proof.
  rewrite Z.land_ones by lia. apply Z.mod_pos_bound. lia.
Qed.

Lemma trace_id_high_nonzero (t : Z) :
  2 ^ 64 <= t -> Z.shiftr t 64 <> 0.
Proof.
  intros H. rewrite Z.shiftr_div_pow2 by lia.
  assert (1 <= t / 2 ^ 64); [| lia].
  apply Z.div_le_lower_bound; lia.
Qed.

(** ** BinaryCodec: packing and reading back *)

Lemma pack_unsigned_ok (n : nat) (z : Z) :
  0 <= z < 256 ^ Z.of_nat n -> pack_unsigned n (PInt z) = Ok (be_bytes n z).
Proof.
  intros [H0 H1]. unfold pack_unsigned.
  apply Z.leb_le in H0. apply Z.ltb_lt in H1. rewrite H0, H1. reflexivity.
Qed.

Lemma skipn_from {A : Type} (l r : list A) (n k : nat) :
  List.length l = k -> (k <= n)%nat -> skipn n (l ++ r)%list = skipn (n - k) r.
Proof.
  intros <- H. rewrite skipn_app, skipn_all2 by lia. reflexivity.
Qed.

Lemma skipn_past {A : Type} (l r : list A) (n m : nat) :
  List.length l = n -> skipn (n + m) (l ++ r)%list = skipn m r.
Proof.
  intros <-. rewrite skipn_app, skipn_all2 by lia.
  replace (List.length l + m - List.length l)%nat with m by lia. reflexivity.
Qed.

(** The six fields of a well-formed header come back as they are. *)
Lemma unpack_QQQQBI_fields (a b c d e f : list byte) :
  List.length a = 8%nat -> List.length b = 8%nat -> List.length c = 8%nat ->
  List.length d = 8%nat -> List.length e = 1%nat -> List.length f = 4%nat ->
  unpack_QQQQBI (a ++ b ++ c ++ d ++ e ++ f)%list
  = Ok (be_int a, be_int b, be_int c, be_int d, be_int e, be_int f).
Proof.
  intros Ha Hb Hc Hd He Hf. unfold unpack_QQQQBI.
  rewrite !length_app, Ha, Hb, Hc, Hd, He, Hf. cbn [Nat.add Nat.eqb].
  rewrite !(skipn_from a _ _ 8 Ha) by lia. cbn [Nat.sub]. rewrite ?skipn_O.
  rewrite !(skipn_from b _ _ 8 Hb) by lia. cbn [Nat.sub]. rewrite ?skipn_O.
  rewrite !(skipn_from c _ _ 8 Hc) by lia. cbn [Nat.sub]. rewrite ?skipn_O.
  rewrite !(skipn_from d _ _ 8 Hd) by lia. cbn [Nat.sub]. rewrite ?skipn_O.
  rewrite !(skipn_from e _ _ 1 He) by lia. cbn [Nat.sub]. rewrite ?skipn_O.
  rewrite (firstn_exact a _ 8 Ha), (firstn_exact b _ 8 Hb),
    (firstn_exact c _ 8 Hc), (firstn_exact d _ 8 Hd), (firstn_exact e _ 1 He).
  rewrite firstn_all2 by lia.
  reflexivity.
Qed.

Lemma pow256_1 : 256 ^ Z.of_nat 1 = 256.
Proof. reflexivity. Qed.

Lemma pow256_4 : 256 ^ Z.of_nat 4 = 4294967296.
Proof. reflexivity. Qed.

Lemma pow256_8 : 256 ^ Z.of_nat 8 = 18446744073709551616.
Proof. reflexivity. Qed.

(** [_read_kv] on a field as [_pack_baggage_item] writes it. *)
Lemma read_kv_packed (bytes rest : list byte) :
  utf8_valid bytes = true ->
  Z.of_nat (List.length bytes) < 2 ^ 31 ->
  BinaryCodec._read_kv
    (be_bytes 4 (Z.of_nat (List.length bytes)) ++ bytes ++ rest)%list
  = Ok (string_of_list_byte bytes, 4 + Z.of_nat (List.length bytes)).
Proof.
  intros Hu Hl. unfold BinaryCodec._read_kv.
  set (n := Z.of_nat (List.length bytes)) in *.
  rewrite slice_prefix by lia.
  change (Z.to_nat 4) with 4%nat.
  rewrite (firstn_exact _ _ 4 (be_bytes_length 4 n)).
  unfold unpack_i. rewrite be_bytes_length. cbn [Nat.eqb].
  rewrite be_int_be_bytes_small by (rewrite pow256_4; lia).
  replace (n <? 2 ^ 31) with true by (symmetry; apply Z.ltb_lt; lia).
  cbn [bind].
  rewrite slice_nonneg by lia.
  replace (4 + n - 4) with n by lia.
  change (Z.to_nat 4) with 4%nat.
  rewrite (skipn_exact _ _ 4 (be_bytes_length 4 n)).
  rewrite (firstn_exact bytes rest (Z.to_nat n)) by (unfold n; lia).
  unfold unpack_chars.
  replace (Z.of_nat (List.length bytes) =? Z.max n 0) with true
    by (symmetry; apply Z.eqb_eq; unfold n; lia).
  cbn [bind]. unfold decode_utf8. rewrite Hu. reflexivity.
Qed.

Lemma valid_text_spec (s : string) :
  valid_text s = true ->
  utf8_valid (encode_utf8 s) = true
  /\ Z.of_nat (List.length (encode_utf8 s)) < 2 ^ 31.
Proof.
  unfold valid_text. rewrite andb_true_iff, Z.ltb_lt. tauto.
Qed.

(** One baggage item, packed and read back. *)
Lemma unpack_item_packed (k v : string) (rest : list byte) :
  valid_text k = true -> valid_text v = true ->
  exists item,
    BinaryCodec._pack_baggage_item k (PStr v) = Ok item /\
    BinaryCodec._unpack_baggage_item (item ++ rest)%list
    = Ok (k, v, Z.of_nat (List.length item)) /\
    slice_from (item ++ rest)%list (Z.of_nat (List.length item)) = rest.
Proof.
  intros Hk Hv.
  destruct (valid_text_spec k Hk) as [Hku Hkl].
  destruct (valid_text_spec v Hv) as [Hvu Hvl].
  set (kb := encode_utf8 k) in *. set (vb := encode_utf8 v) in *.
  set (kn := Z.of_nat (List.length kb)) in *.
  set (vn := Z.of_nat (List.length vb)) in *.
  exists (be_bytes 4 kn ++ kb ++ be_bytes 4 vn ++ vb)%list.
  assert (Hlen : Z.of_nat (List.length (be_bytes 4 kn ++ kb ++ be_bytes 4 vn ++ vb)%list)
                 = 4 + kn + (4 + vn)).
  { rewrite !length_app, !be_bytes_length. unfold kn, vn. lia. }
  split; [| split].
  - unfold BinaryCodec._pack_baggage_item. fold kb. fold kn.
    rewrite pack_unsigned_ok by (rewrite pow256_4; unfold kn; lia).
    cbn [bind]. fold vb. fold vn.
    rewrite pack_unsigned_ok by (rewrite pow256_4; unfold vn; lia).
    reflexivity.
  - unfold BinaryCodec._unpack_baggage_item.
    rewrite <- !app_assoc.
    unfold kn at 1. rewrite (read_kv_packed kb _ Hku Hkl). cbn [bind].
    fold kn. rewrite slice_from_nonneg by (unfold kn; lia).
    replace (Z.to_nat (0 + (4 + kn))) with (4 + List.length kb)%nat
      by (unfold kn; lia).
    rewrite (skipn_past _ _ 4 _ (be_bytes_length 4 kn)).
    rewrite (skipn_exact kb _ _ eq_refl).
    unfold vn at 1. rewrite (read_kv_packed vb _ Hvu Hvl). cbn [bind].
    fold vn. unfold kb, vb, encode_utf8.
    rewrite !string_of_list_byte_of_string.
    fold (encode_utf8 k). fold (encode_utf8 v). fold kb. fold vb. fold kn.
    rewrite Hlen. reflexivity.
  - rewrite slice_from_nonneg by lia. rewrite Nat2Z.id.
    apply skipn_exact. reflexivity.
Qed.

Lemma pack_baggage_cons (k : string) (v : pyval) (items : dict pyval)
  (data : list byte) :
  BinaryCodec.pack_baggage ((k, v) :: items) data
  = (item <- BinaryCodec._pack_baggage_item k v ;;
     BinaryCodec.pack_baggage items (data ++ item)%list).
Proof. reflexivity. Qed.

Lemma unpack_baggage_succ (n : nat) (data : list byte) (acc : dict pyval) :
  BinaryCodec.unpack_baggage (S n) data acc
  = (x <- BinaryCodec._unpack_baggage_item data ;;
     let '(key, value, bytes_read) := x in
     BinaryCodec.unpack_baggage n (slice_from data bytes_read)
       (dict_set acc key (PStr value))).
Proof. reflexivity. Qed.

(** A valid baggage is packed without an error, and the loop of [extract]
    reads every item back, in order. *)
Lemma pack_unpack_baggage (b : dict pyval) :
  forallb (fun item =>
             valid_text (fst item)
             && match snd item with PStr v => valid_text v | _ => false end) b
  = true ->
  forall data, exists bytes,
    BinaryCodec.pack_baggage b data = Ok (data ++ bytes)%list /\
    forall acc,
      BinaryCodec.unpack_baggage (List.length b) bytes acc
      = Ok (fold_left (fun d item => dict_set d (fst item) (snd item)) b acc).
Proof.
  induction b as [| [k v] b IH]; intros Hb data.
  - exists []. rewrite app_nil_r. split; reflexivity.
  - cbn [forallb fst snd] in Hb. apply andb_true_iff in Hb as [Hkv Hb].
    apply andb_true_iff in Hkv as [Hk Hv].
    destruct v as [| z | v | l]; try discriminate.
    destruct (unpack_item_packed k v [] Hk Hv) as (item & Hp & _ & _).
    destruct (IH Hb (data ++ item)%list) as (bytes & Hpack & Hun).
    exists (item ++ bytes)%list. split.
    + rewrite pack_baggage_cons, Hp. cbn [bind]. rewrite Hpack, app_assoc.
      reflexivity.
    + intros acc. cbn [List.length]. rewrite unpack_baggage_succ.
      destruct (unpack_item_packed k v bytes Hk Hv) as (item' & Hp' & Hu' & Hs').
      rewrite Hp in Hp'. inversion Hp'; subst item'.
      rewrite Hu'. cbn [bind]. rewrite Hs'. rewrite Hun. reflexivity.
Qed.

Lemma trace_id_words (t : Z) :
  1 <= t < 2 ^ 128 ->
  (if t >? 18446744073709551615
   then Ok (PInt (Z.land (Z.shiftr t 64) 18446744073709551615),
            PInt (Z.land t 18446744073709551615))
   else Ok (PInt 0, PInt t))
  = Ok (PInt (trace_id_high t), PInt (trace_id_low t))
  /\ 0 <= trace_id_high t < 2 ^ 64
  /\ 0 <= trace_id_low t < 2 ^ 64
  /\ (if negb (trace_id_high t =? 0)
      then Z.lor (Z.shiftl (trace_id_high t) 64) (trace_id_low t)
      else trace_id_low t) = t.
Proof.
  intros Ht. unfold trace_id_high, trace_id_low.
  change (2 ^ 64 - 1) with 18446744073709551615.
  destruct (t >? 18446744073709551615) eqn:E.
  - apply Z.gtb_lt in E.
    pose proof (trace_id_high_range t ltac:(lia)) as Hh.
    pose proof (trace_id_low_range t) as Hl.
    rewrite max_int64_ones.
    rewrite (Z.land_ones (Z.shiftr t 64)), Z.mod_small by lia.
    repeat split; try lia.
    replace (Z.shiftr t 64 =? 0) with false
      by (symmetry; apply Z.eqb_neq, trace_id_high_nonzero; lia).
    cbn [negb]. apply trace_id_recombine. lia.
  - assert (t <= 18446744073709551615)
      by (destruct (Z.gtb_spec t 18446744073709551615); [discriminate | lia]).
    repeat split; try lia.
Qed.

(** [BinaryCodec.inject] into an empty bytearray and [BinaryCodec.extract]
    of the result, for a valid context: the header holds the two words of
    the trace id, the span id, the parent word and the flags, and every
    field is read back. *)
Lemma binary_round_trip (ctx : SpanContext) (t s f : Z) (b : dict pyval) :
  valid_context ctx = true ->
  trace_id ctx = PInt t -> span_id ctx = PInt s -> flags ctx = PInt f ->
  baggage ctx = Some b ->
  exists rest,
    BinaryCodec.inject ctx (CBytearray [])
    = Ok (CBytearray
            (be_bytes 8 (trace_id_high t) ++ be_bytes 8 (trace_id_low t)
             ++ be_bytes 8 s ++ be_bytes 8 (parent_word (parent_id ctx))
             ++ rest)%list)
    /\ BinaryCodec.extract
         (CBytearray
            (be_bytes 8 (trace_id_high t) ++ be_bytes 8 (trace_id_low t)
             ++ be_bytes 8 s ++ be_bytes 8 (parent_word (parent_id ctx))
             ++ rest)%list)
       = Ok (Some (mkSpanContext (PInt t) (PInt s)
                     (PInt (parent_word (parent_id ctx))) (PInt f)
                     (Some (read_back b)) PNone)).
Proof.
  intros Hv Ht Hs Hf Hb. unfold valid_context in Hv.
  rewrite Ht, Hs, Hf, Hb in Hv.
  repeat (apply andb_true_iff in Hv as [Hv ?]).
  repeat match goal with
         | H : (_ <=? _) = true |- _ => apply Z.leb_le in H
         | H : (_ <? _) = true |- _ => apply Z.ltb_lt in H
         end.
  destruct (trace_id_words t ltac:(lia)) as (Hw & Hh & Hl & Hr).
  assert (Hp : py_or (parent_id ctx) (PInt 0) = PInt (parent_word (parent_id ctx))
               /\ 0 <= parent_word (parent_id ctx) < 2 ^ 64).
  { match goal with
    | H : match parent_id ctx with _ => _ end = true |- _ => revert H
    end.
    destruct (parent_id ctx) as [| p | |]; try discriminate; intros Hpar.
    - split; [reflexivity | cbn; lia].
    - apply andb_true_iff in Hpar as [Hp0 Hp1].
      apply Z.leb_le in Hp0. apply Z.ltb_lt in Hp1.
      split; [| cbn; lia].
      unfold py_or; cbn. destruct (p =? 0) eqn:E; cbn; [| reflexivity].
      apply Z.eqb_eq in E; subst p; reflexivity. }
  destruct Hp as [Hp Hpr].
  assert (Hsp : py_or (PInt s) (PInt 0) = PInt s).
  { unfold py_or; cbn. destruct (s =? 0) eqn:E; [| reflexivity].
    apply Z.eqb_eq in E; lia. }
  set (n := Z.of_nat (List.length b)) in *.
  set (header := (be_bytes 8 (trace_id_high t) ++ be_bytes 8 (trace_id_low t)
                  ++ be_bytes 8 s ++ be_bytes 8 (parent_word (parent_id ctx))
                  ++ be_bytes 1 f ++ be_bytes 4 n)%list).
  assert (Hpack : pack_QQQQBI (PInt (trace_id_high t)) (PInt (trace_id_low t))
                    (PInt s) (PInt (parent_word (parent_id ctx))) (PInt f) (PInt n)
                  = Ok header).
  { unfold pack_QQQQBI.
    rewrite !pack_unsigned_ok
      by (rewrite ?pow256_8, ?pow256_4, ?pow256_1; unfold n; lia).
    reflexivity. }
  match goal with H : forallb _ b = true |- _ =>
    destruct (pack_unpack_baggage b H header) as (bytes & Hpb & Hun) end.
  exists (be_bytes 1 f ++ be_bytes 4 n ++ bytes)%list.
  assert (Hdata : (be_bytes 8 (trace_id_high t) ++ be_bytes 8 (trace_id_low t)
                   ++ be_bytes 8 s ++ be_bytes 8 (parent_word (parent_id ctx))
                   ++ be_bytes 1 f ++ be_bytes 4 n ++ bytes)%list
                  = (header ++ bytes)%list).
  { unfold header. rewrite <- !app_assoc. reflexivity. }
  rewrite Hdata.
  assert (Hlen : List.length header = 37%nat).
  { unfold header. rewrite !length_app, !be_bytes_length. reflexivity. }
  split.
  - unfold BinaryCodec.inject. rewrite Ht, Hs, Hf, Hb, Hw. cbn [bind].
    fold n. rewrite Hsp, Hp, Hpack. cbn [bind app].
    rewrite Hpb. reflexivity.
  - unfold BinaryCodec.extract.
    rewrite slice_prefix by lia. change (Z.to_nat 37) with 37%nat.
    rewrite (firstn_exact header bytes 37 Hlen).
    unfold header at 1.
    rewrite unpack_QQQQBI_fields by apply be_bytes_length.
    rewrite !be_int_be_bytes_small
      by (rewrite ?pow256_8, ?pow256_4, ?pow256_1; unfold n; lia).
    cbn [bind]. rewrite Hr.
    rewrite slice_from_nonneg by lia. change (Z.to_nat 37) with 37%nat.
    rewrite (skipn_exact header bytes 37 Hlen).
    unfold n at 2. rewrite Nat2Z.id, Hun. fold (read_back b).
    destruct (negb (n =? 0)) eqn:E; cbn [bind]; [reflexivity |].
    apply negb_false_iff, Z.eqb_eq in E.
    destruct b as [| x b]; [reflexivity | unfold n in E; cbn in E; lia].
Qed.

(** C2: for every valid context, [BinaryCodec.inject] into an empty
    bytearray followed by [BinaryCodec.extract] gives back the [trace_id].
    The buffer starts with the two words of the trace id: above [2^64 - 1]
    they are [trace_id >> 64] and [trace_id & (2^64 - 1)], and
    [(high << 64) | low] is the trace id again; up to [2^64 - 1] the high
    word is 0 and the low word is the trace id. *)
Theorem binary_trace_id_round_trip (ctx : SpanContext) (t : Z) :
  valid_context ctx = true ->
  trace_id ctx = PInt t ->
  exists rest ctx',
    BinaryCodec.inject ctx (CBytearray [])
    = Ok (CBytearray (be_bytes 8 (trace_id_high t)
                      ++ be_bytes 8 (trace_id_low t) ++ rest)%list)
    /\ BinaryCodec.extract
         (CBytearray (be_bytes 8 (trace_id_high t)
                      ++ be_bytes 8 (trace_id_low t) ++ rest)%list)
       = Ok (Some ctx')
    /\ trace_id ctx' = PInt t
    /\ (t > 2 ^ 64 - 1 ->
        trace_id_high t = Z.shiftr t 64 /\
        trace_id_low t = Z.land t (2 ^ 64 - 1) /\
        Z.lor (Z.shiftl (trace_id_high t) 64) (trace_id_low t) = t)
    /\ (t <= 2 ^ 64 - 1 -> trace_id_high t = 0 /\ trace_id_low t = t).
Proof.
  intros Hv Ht.
  assert (Hf : exists s f b, span_id ctx = PInt s /\ flags ctx = PInt f
                             /\ baggage ctx = Some b /\ 1 <= t).
  { unfold valid_context in Hv. rewrite Ht in Hv.
    destruct (span_id ctx) as [| s | |]; try discriminate.
    destruct (flags ctx) as [| f | |]; try discriminate.
    destruct (baggage ctx) as [b |]; try discriminate.
    exists s, f, b. repeat split.
    repeat (apply andb_true_iff in Hv as [Hv _]). apply Z.leb_le in Hv. lia. }
  destruct Hf as (s & f & b & Hs & Hf & Hb & Ht1).
  destruct (binary_round_trip ctx t s f b Hv Ht Hs Hf Hb) as (rest & Hin & Hex).
  eexists. eexists. split; [exact Hin |]. split; [exact Hex |].
  split; [reflexivity |].
  unfold trace_id_high, trace_id_low. split.
  - intros H. apply Z.gtb_gt in H. rewrite H.
    repeat split. change (2 ^ 64 - 1) with (Z.ones 64).
    apply trace_id_recombine. lia.
  - intros H.
    destruct (t >? 2 ^ 64 - 1) eqn:E; [apply Z.gtb_gt in E; lia |].
    split; reflexivity.
Qed.

Lemma binary_trace_id_round_trip_witness :
  exists rest ctx',
    BinaryCodec.inject
      (mkSpanContext (PInt 1339673755198158349044581307228491536) (PInt 5)
         PNone (PInt 1) (Some [("k", PStr "v")]) PNone)
      (CBytearray [])
    = Ok (CBytearray
            (be_bytes 8 (trace_id_high 1339673755198158349044581307228491536)
             ++ be_bytes 8 (trace_id_low 1339673755198158349044581307228491536)
             ++ rest)%list)
    /\ BinaryCodec.extract
         (CBytearray
            (be_bytes 8 (trace_id_high 1339673755198158349044581307228491536)
             ++ be_bytes 8 (trace_id_low 1339673755198158349044581307228491536)
             ++ rest)%list)
       = Ok (Some ctx')
    /\ trace_id ctx' = PInt 1339673755198158349044581307228491536
    /\ (1339673755198158349044581307228491536 > 2 ^ 64 - 1 ->
        trace_id_high 1339673755198158349044581307228491536
        = Z.shiftr 1339673755198158349044581307228491536 64 /\
        trace_id_low 1339673755198158349044581307228491536
        = Z.land 1339673755198158349044581307228491536 (2 ^ 64 - 1) /\
        Z.lor (Z.shiftl (trace_id_high 1339673755198158349044581307228491536) 64)
          (trace_id_low 1339673755198158349044581307228491536)
        = 1339673755198158349044581307228491536)
    /\ (1339673755198158349044581307228491536 <= 2 ^ 64 - 1 ->
        trace_id_high 1339673755198158349044581307228491536 = 0 /\
        trace_id_low 1339673755198158349044581307228491536
        = 1339673755198158349044581307228491536).
Proof.
  exact (binary_trace_id_round_trip
           (mkSpanContext (PInt 1339673755198158349044581307228491536) (PInt 5)
              PNone (PInt 1) (Some [("k", PStr "v")]) PNone)
           1339673755198158349044581307228491536 eq_refl eq_refl).
Defined.

(** The trace id [0x0102030405060708090A0B0C0D0E0F10], run through the
    code: the sixteen bytes of the two words, and the same integer back. *)
Example binary_trace_id_128_bit_example :
  BinaryCodec.inject
    (mkSpanContext (PInt 1339673755198158349044581307228491536) (PInt 5)
       PNone (PInt 1) (Some []) PNone)
    (CBytearray [])
  = Ok (CBytearray
          [x01; x02; x03; x04; x05; x06; x07; x08;
           x09; x0a; x0b; x0c; x0d; x0e; x0f; x10;
           x00; x00; x00; x00; x00; x00; x00; x05;
           x00; x00; x00; x00; x00; x00; x00; x00;
           x01; x00; x00; x00; x00])
  /\ BinaryCodec.extract
       (CBytearray
          [x01; x02; x03; x04; x05; x06; x07; x08;
           x09; x0a; x0b; x0c; x0d; x0e; x0f; x10;
           x00; x00; x00; x00; x00; x00; x00; x05;
           x00; x00; x00; x00; x00; x00; x00; x00;
           x01; x00; x00; x00; x00])
     = Ok (Some (mkSpanContext (PInt 1339673755198158349044581307228491536)
                   (PInt 5) (PInt 0) (PInt 1) (Some []) PNone))
  /\ 1339673755198158349044581307228491536 = 0x0102030405060708090A0B0C0D0E0F10.
Proof.
  repeat split; vm_compute; reflexivity.
Qed.

(** ** BinaryCodec.extract on malformed buffers *)

Lemma read_kv_raises (data : list byte) (e : exn) :
  BinaryCodec._read_kv data = Raise e ->
  e = struct_error \/ e = UnicodeDecodeError.
Proof.
  unfold BinaryCodec._read_kv, unpack_i, unpack_chars, decode_utf8.
  destruct (Nat.eqb (List.length (slice data 0 4)) 4); cbn [bind];
    [| intros H; inversion H; auto].
  match goal with
  | |- context [if ?c then Ok ?x else Raise struct_error] => destruct c
  end; cbn [bind]; [| intros H; inversion H; auto].
  destruct (utf8_valid _); cbn [bind]; intros H; inversion H; auto.
Qed.

Lemma unpack_item_raises (data : list byte) (e : exn) :
  BinaryCodec._unpack_baggage_item data = Raise e ->
  e = struct_error \/ e = UnicodeDecodeError.
Proof.
  unfold BinaryCodec._unpack_baggage_item.
  destruct (BinaryCodec._read_kv data) as [[key n] | e1] eqn:E1; cbn [bind].
  - destruct (BinaryCodec._read_kv (slice_from data (0 + n)))
      as [[value m] | e2] eqn:E2; cbn [bind]; [discriminate |].
    intros H; inversion H; subst e2. apply (read_kv_raises _ _ E2).
  - intros H; inversion H; subst e1. apply (read_kv_raises _ _ E1).
Qed.

Lemma unpack_baggage_raises (count : nat) :
  forall data acc e,
    BinaryCodec.unpack_baggage count data acc = Raise e ->
    e = struct_error \/ e = UnicodeDecodeError.
Proof.
  induction count as [| count IH]; intros data acc e; [discriminate |].
  rewrite unpack_baggage_succ.
  destruct (BinaryCodec._unpack_baggage_item data) as [[[key value] n] | e1] eqn:E;
    cbn [bind].
  - apply IH.
  - intros H; inversion H; subst e1. apply (unpack_item_raises _ _ E).
Qed.

(** A field that ends in a short read makes [_read_kv] fail. *)
Lemma read_kv_short (data : list byte) :
  short_field data -> BinaryCodec._read_kv data = Raise struct_error.
Proof.
  intros [H | (H4 & Hn & Hshort)]; unfold BinaryCodec._read_kv, unpack_i.
  - rewrite slice_prefix by lia. change (Z.to_nat 4) with 4%nat.
    rewrite firstn_all2 by lia.
    replace (Nat.eqb (List.length data) 4) with false
      by (symmetry; apply Nat.eqb_neq; lia).
    reflexivity.
  - rewrite slice_prefix by lia. change (Z.to_nat 4) with 4%nat.
    rewrite length_firstn, Nat.min_l by lia. cbn [Nat.eqb].
    apply Z.ltb_lt in Hn. rewrite Hn. cbn [bind].
    apply Z.ltb_lt in Hn.
    pose proof (be_int_range (firstn 4 data)) as [Hr _].
    set (n := be_int (firstn 4 data)) in *.
    rewrite slice_nonneg by lia.
    rewrite firstn_all2 by (rewrite length_skipn; lia).
    unfold unpack_chars. rewrite length_skipn.
    replace (Z.of_nat (List.length data - Z.to_nat 4) =? Z.max n 0) with false
      by (symmetry; apply Z.eqb_neq; lia).
    reflexivity.
Qed.

(** A whole field is read as its text, and the bytes after it are left. *)
Lemma read_kv_wire (s : string) (rest : list byte) :
  valid_text s = true ->
  BinaryCodec._read_kv (wire_field s ++ rest)%list
  = Ok (s, 4 + Z.of_nat (List.length (encode_utf8 s)))
  /\ slice_from (wire_field s ++ rest)%list
       (0 + (4 + Z.of_nat (List.length (encode_utf8 s)))) = rest.
Proof.
  intros Hs. destruct (valid_text_spec s Hs) as [Hu Hl].
  unfold wire_field. split.
  - rewrite <- app_assoc, (read_kv_packed _ rest Hu Hl).
    unfold encode_utf8. rewrite string_of_list_byte_of_string. reflexivity.
  - rewrite slice_from_nonneg by lia.
    apply skipn_exact. rewrite length_app, be_bytes_length. lia.
Qed.

(** What [_pack_baggage_item] writes is the record as it stands on the
    wire, and [_unpack_baggage_item] reads a whole record back and leaves
    the bytes after it. *)
Lemma pack_item_wire (r : string * string) :
  whole_record r = true ->
  BinaryCodec._pack_baggage_item (fst r) (PStr (snd r)) = Ok (wire_record r).
Proof.
  unfold whole_record. rewrite andb_true_iff. intros [Hk Hv].
  destruct (valid_text_spec _ Hk) as [_ Hkl].
  destruct (valid_text_spec _ Hv) as [_ Hvl].
  unfold BinaryCodec._pack_baggage_item, wire_record, wire_field.
  rewrite pack_unsigned_ok by (rewrite pow256_4; lia). cbn [bind].
  rewrite pack_unsigned_ok by (rewrite pow256_4; lia). cbn [bind].
  rewrite <- !app_assoc. reflexivity.
Qed.

Lemma unpack_item_wire (r : string * string) (rest : list byte) :
  whole_record r = true ->
  exists n,
    BinaryCodec._unpack_baggage_item (wire_record r ++ rest)%list
    = Ok (fst r, snd r, n)
    /\ slice_from (wire_record r ++ rest)%list n = rest.
Proof.
  intros Hr. pose proof (pack_item_wire r Hr) as Hpack.
  unfold whole_record in Hr. apply andb_true_iff in Hr as [Hk Hv].
  destruct (unpack_item_packed (fst r) (snd r) rest Hk Hv)
    as (item & Hp & Hu & Hs).
  rewrite Hpack in Hp. inversion Hp; subst item.
  eexists. split; [exact Hu | exact Hs].
Qed.

(** A record that ends in a short read makes [_unpack_baggage_item]
    fail, in its key or in its value. *)
Lemma unpack_item_short (data : list byte) :
  short_record data ->
  BinaryCodec._unpack_baggage_item data = Raise struct_error.
Proof.
  intros [H | (key & rest & Hk & -> & H)]; unfold BinaryCodec._unpack_baggage_item.
  - rewrite (read_kv_short _ H). reflexivity.
  - destruct (read_kv_wire key rest Hk) as [Hread Hrest].
    rewrite Hread. cbn [bind]. rewrite Hrest, (read_kv_short _ H). reflexivity.
Qed.

(** The loop reads the whole records one after the other; the error of
    the record after them, when the count asks for it, is the error of
    the loop. *)
Lemma unpack_baggage_propagates (rs : list (string * string)) :
  forallb whole_record rs = true ->
  forall n tail acc e,
    BinaryCodec._unpack_baggage_item tail = Raise e ->
    BinaryCodec.unpack_baggage (List.length rs + S n)
      (wire_records rs ++ tail)%list acc
    = Raise e.
Proof.
  induction rs as [| r rs IH]; intros Hall n tail acc e He.
  - cbn [List.length Nat.add]. unfold wire_records. cbn [map List.concat app].
    rewrite unpack_baggage_succ, He. reflexivity.
  - cbn [forallb] in Hall. apply andb_true_iff in Hall as [Hr Hall].
    cbn [List.length Nat.add]. rewrite unpack_baggage_succ.
    unfold wire_records. cbn [map List.concat]. fold (wire_records rs).
    rewrite <- app_assoc.
    destruct (unpack_item_wire r (wire_records rs ++ tail)%list Hr)
      as (m & Hu & Hs).
    rewrite Hu. cbn [bind]. rewrite Hs. apply (IH Hall n tail _ e He).
Qed.

(** [extract] on a whole header followed by the baggage bytes: the count
    of the header decides how many records the loop reads. *)
Lemma binary_extract_loop_raises (hdr body : list byte) (e : exn) :
  List.length hdr = 37%nat ->
  be_int (skipn 33 hdr) <> 0 ->
  BinaryCodec.unpack_baggage (Z.to_nat (be_int (skipn 33 hdr))) body []
  = Raise e ->
  BinaryCodec.extract (CBytearray (hdr ++ body)%list) = Raise e.
Proof.
  intros Hlen Hc Hloop. unfold BinaryCodec.extract, unpack_QQQQBI.
  rewrite slice_prefix by lia. change (Z.to_nat 37) with 37%nat.
  rewrite (firstn_exact hdr body 37 Hlen), Hlen. cbn [Nat.eqb bind].
  assert (E : firstn 4 (skipn 33 hdr) = skipn 33 hdr).
  { apply firstn_all2. rewrite length_skipn. lia. }
  rewrite E.
  apply Z.eqb_neq in Hc. rewrite Hc. cbn [negb].
  rewrite slice_from_nonneg by lia. change (Z.to_nat 37) with 37%nat.
  rewrite (skipn_exact hdr body 37 Hlen), Hloop. reflexivity.
Qed.

(** C4, as the code has it: [BinaryCodec] validates nothing itself, the
    errors are those of [struct] and of the UTF-8 decoder. A buffer
    shorter than the 37-byte header makes [extract] fail with
    [struct.error]. [_read_kv] fails with [struct.error] on a field that
    ends in a short read: fewer than 4 bytes are left for a length, or
    fewer bytes follow than a length that is not negative announces. The
    error of a field is the error of its record, and [extract] lets the
    error of a record escape wherever the record stands: after a whole
    header and any number of whole records, when the count of the header
    asks for one record more, the error of reading that record is the
    error of [extract]; so a record that ends in a short read, in its key
    or in its value, makes [extract] fail with [struct.error]. On a
    bytearray [extract] fails with [struct.error] or [UnicodeDecodeError]
    only, never with [SpanContextCorruptedException]. *)
Theorem binary_extract_malformed_raises_struct_error :
  (forall data,
      (List.length data < 37)%nat ->
      BinaryCodec.extract (CBytearray data) = Raise struct_error)
  /\ (forall data,
         (List.length data < 4)%nat ->
         BinaryCodec._read_kv data = Raise struct_error)
  /\ (forall data,
         (4 <= List.length data)%nat ->
         be_int (firstn 4 data) < 2 ^ 31 ->
         Z.of_nat (List.length data) < 4 + be_int (firstn 4 data) ->
         BinaryCodec._read_kv data = Raise struct_error)
  /\ (forall data e,
         BinaryCodec._read_kv data = Raise e ->
         BinaryCodec._unpack_baggage_item data = Raise e)
  /\ (forall data key n e,
         BinaryCodec._read_kv data = Ok (key, n) ->
         BinaryCodec._read_kv (slice_from data (0 + n)) = Raise e ->
         BinaryCodec._unpack_baggage_item data = Raise e)
  /\ (forall hdr rs tail e,
         List.length hdr = 37%nat ->
         forallb whole_record rs = true ->
         Z.of_nat (List.length rs) < be_int (skipn 33 hdr) ->
         BinaryCodec._unpack_baggage_item tail = Raise e ->
         BinaryCodec.extract (CBytearray (hdr ++ wire_records rs ++ tail)%list)
         = Raise e)
  /\ (forall hdr rs tail,
         List.length hdr = 37%nat ->
         forallb whole_record rs = true ->
         Z.of_nat (List.length rs) < be_int (skipn 33 hdr) ->
         short_record tail ->
         BinaryCodec.extract (CBytearray (hdr ++ wire_records rs ++ tail)%list)
         = Raise struct_error)
  /\ (forall data e,
         BinaryCodec.extract (CBytearray data) = Raise e ->
         e = struct_error \/ e = UnicodeDecodeError).
Proof.
  assert (Hany : forall hdr rs tail e,
             List.length hdr = 37%nat ->
             forallb whole_record rs = true ->
             Z.of_nat (List.length rs) < be_int (skipn 33 hdr) ->
             BinaryCodec._unpack_baggage_item tail = Raise e ->
             BinaryCodec.extract
               (CBytearray (hdr ++ wire_records rs ++ tail)%list)
             = Raise e).
  { intros hdr rs tail e Hlen Hall Hcount He.
    apply (binary_extract_loop_raises hdr _ e Hlen); [lia |].
    replace (Z.to_nat (be_int (skipn 33 hdr)))
      with (List.length rs
            + S (Z.to_nat (be_int (skipn 33 hdr)) - S (List.length rs)))%nat
      by lia.
    apply (unpack_baggage_propagates rs Hall _ tail [] e He). }
  split.
  { intros data H. unfold BinaryCodec.extract, unpack_QQQQBI.
    rewrite slice_prefix by lia. change (Z.to_nat 37) with 37%nat.
    rewrite firstn_all2 by lia.
    replace (Nat.eqb (List.length data) 37) with false
      by (symmetry; apply Nat.eqb_neq; lia).
    reflexivity. }
  split.
  { intros data H. apply read_kv_short. left; assumption. }
  split.
  { intros data H4 Hn Hshort. apply read_kv_short. right; auto. }
  split.
  { intros data e H. unfold BinaryCodec._unpack_baggage_item.
    rewrite H. reflexivity. }
  split.
  { intros data key n e H1 H2. unfold BinaryCodec._unpack_baggage_item.
    rewrite H1. cbn [bind]. rewrite H2. reflexivity. }
  split; [exact Hany |].
  split.
  { intros hdr rs tail Hlen Hall Hcount Hshort.
    apply (Hany hdr rs tail struct_error Hlen Hall Hcount).
    apply unpack_item_short; assumption. }
  intros data e. unfold BinaryCodec.extract, unpack_QQQQBI.
  destruct (Nat.eqb (List.length (slice data 0 37)) 37); cbn [bind];
    [| intros H; inversion H; auto].
  match goal with
  | |- context [if ?c then BinaryCodec.unpack_baggage ?n ?d ?a else Ok []] =>
      destruct c; [destruct (BinaryCodec.unpack_baggage n d a) eqn:E |]
  end; cbn [bind]; try discriminate.
  intros H; inversion H; subst e0.
  apply (unpack_baggage_raises _ _ _ _ E).
Qed.

(** C4, as stated, fails: an empty bytearray, a header that announces
    one baggage item followed by nothing or by a field cut short, and a
    header that announces two items followed by one whole item and two
    stray bytes, all make [extract] fail with [struct.error], which is
    not [SpanContextCorruptedException]. *)
Lemma binary_extract_short_buffer_struct_error :
  BinaryCodec.extract (CBytearray []) = Raise struct_error
  /\ BinaryCodec.extract
       (CBytearray
          [x00; x00; x00; x00; x00; x00; x00; x00;
           x00; x00; x00; x00; x00; x00; x00; x01;
           x00; x00; x00; x00; x00; x00; x00; x01;
           x00; x00; x00; x00; x00; x00; x00; x00;
           x01; x00; x00; x00; x01])
     = Raise struct_error
  /\ BinaryCodec.extract
       (CBytearray
          [x00; x00; x00; x00; x00; x00; x00; x00;
           x00; x00; x00; x00; x00; x00; x00; x01;
           x00; x00; x00; x00; x00; x00; x00; x01;
           x00; x00; x00; x00; x00; x00; x00; x00;
           x01; x00; x00; x00; x01;
           x00; x00; x00; x05; x61])
     = Raise struct_error
  /\ BinaryCodec.extract
       (CBytearray
          [x00; x00; x00; x00; x00; x00; x00; x00;
           x00; x00; x00; x00; x00; x00; x00; x01;
           x00; x00; x00; x00; x00; x00; x00; x01;
           x00; x00; x00; x00; x00; x00; x00; x00;
           x01; x00; x00; x00; x02;
           x00; x00; x00; x01; x6b; x00; x00; x00; x01; x76;
           x00; x00])
     = Raise struct_error.
Proof.
  repeat split; vm_compute; reflexivity.
Qed.

(** ** The parent id on the wire *)

(** A context never holds a [parent_id] of 0 after its construction. *)
Lemma constructed_parent_id (t s p f : pyval) (b : option (dict pyval))
  (d : pyval) :
  parent_id (mkSpanContext t s p f b d)
  = match p with PInt 0 => PNone | _ => p end.
Proof. reflexivity. Qed.

Lemma constructed_parent_not_zero (t s p f : pyval) (b : option (dict pyval))
  (d : pyval) :
  parent_id (mkSpanContext t s p f b d) <> PInt 0.
Proof.
  rewrite constructed_parent_id.
  destruct p as [| [| q | q] | |]; discriminate.
Qed.

(** What [BinaryCodec.extract] hands to the constructor when it returns:
    the words of the fixed header, the parent word among them. *)
Lemma binary_extract_constructs (data : list byte) (ctx' : SpanContext) :
  BinaryCodec.extract (CBytearray data) = Ok (Some ctx') ->
  exists t s f b,
    ctx' = mkSpanContext t s (PInt (be_int (firstn 8 (skipn 24 data)))) f b PNone.
Proof.
  unfold BinaryCodec.extract, unpack_QQQQBI.
  destruct (Nat.eqb (List.length (slice data 0 37)) 37); cbn [bind];
    [| discriminate].
  match goal with
  | |- context [if ?c then BinaryCodec.unpack_baggage ?n ?d ?a else Ok []] =>
      destruct (if c then BinaryCodec.unpack_baggage n d a else Ok [])
        as [bg |]
  end; cbn [bind]; [| discriminate].
  rewrite slice_prefix by lia. change (Z.to_nat 37) with 37%nat.
  assert (E : firstn 8 (skipn 24 (firstn 37 data)) = firstn 8 (skipn 24 data)).
  { rewrite skipn_firstn_comm, firstn_firstn. reflexivity. }
  rewrite E.
  intros H. inversion H as [H']. do 4 eexists. reflexivity.
Qed.

(** C3, as the code has it. The combined header and the binary header
    write a [parent_id] of [None] as 0; [ZipkinCodec.inject] does not: it
    writes the [parent_id] of the context as it is, so [None] stays [None].
    In the three formats a wire value of 0 decodes to an absent
    [parent_id], never to the integer 0: the decoder of the combined header
    turns a parent field of 0 into [None] itself, and [BinaryCodec.extract]
    and [ZipkinCodec.extract] hand the value they read to the constructor
    of the context, which holds [None] for 0. *)
Theorem parent_id_on_the_wire :
  (forall t s f,
      span_context_to_string (PInt t) (PInt s) PNone (PInt f)
      = Ok (hex_of_Z t ++ ":" ++ hex_of_Z s ++ ":" ++ "0" ++ ":" ++ hex_of_Z f))
  /\ (forall t s f,
         span_context_to_string t s PNone f
         = span_context_to_string t s (PInt 0) f)
  /\ (forall value t s p f,
         span_context_from_string value = Ok (t, s, p, f) -> p <> PInt 0)
  /\ (forall s p0 p1 p2 p3 t sp p f,
         four_fields s p0 p1 p2 p3 ->
         literal16 p2 0 ->
         span_context_from_string (PStr s) = Ok (t, sp, p, f) -> p = PNone)
  /\ (forall ctx,
         valid_context ctx = true ->
         parent_id ctx = PNone ->
         exists pre rest,
           List.length pre = 24%nat /\
           BinaryCodec.inject ctx (CBytearray [])
           = Ok (CBytearray
                   (pre ++ [x00; x00; x00; x00; x00; x00; x00; x00] ++ rest)%list))
  /\ (forall data ctx',
         BinaryCodec.extract (CBytearray data) = Ok (Some ctx') ->
         (exists t s f b,
             ctx' = mkSpanContext t s
                      (PInt (be_int (firstn 8 (skipn 24 data)))) f b PNone)
         /\ (be_int (firstn 8 (skipn 24 data)) = 0 -> parent_id ctx' = PNone)
         /\ parent_id ctx' <> PInt 0)
  /\ (forall ctx d,
         exists d',
           ZipkinCodec.inject ctx (CDict d) = Ok (CDict d') /\
           dict_get d' "parent_id" = Some (parent_id ctx))
  /\ (forall d ctx',
         ZipkinCodec.extract (CDict d) = Ok (Some ctx') ->
         ctx' = mkSpanContext (ZipkinCodec.get d "trace_id")
                  (ZipkinCodec.get d "span_id") (ZipkinCodec.get d "parent_id")
                  (ZipkinCodec.get d "traceflags") None PNone
         /\ (ZipkinCodec.get d "parent_id" = PInt 0 -> parent_id ctx' = PNone))
  /\ (forall c ctx',
         ZipkinCodec.extract c = Ok (Some ctx') -> parent_id ctx' <> PInt 0).
Proof.
  split; [reflexivity |].
  split; [reflexivity |].
  split.
  { intros value t s p f H.
    destruct (header_text value) as [text |] eqn:Ht;
      [| rewrite (from_string_no_text _ Ht) in H; discriminate].
    rewrite (from_string_text _ _ Ht), from_string_PStr in H.
    destruct (split ":" text) as [| p0 [| p1 [| p2 [| p3 [| p4 r]]]]];
      try discriminate.
    destruct (int16 p0), (int16 p1), (int16 p2) as [pa |], (int16 p3);
      try discriminate.
    destruct (_ || _); [discriminate |].
    inversion H; subst.
    destruct (pa =? 0) eqn:E; [discriminate |].
    apply Z.eqb_neq in E. intros Hp; inversion Hp; contradiction. }
  split.
  { intros s p0 p1 p2 p3 t sp p f Hs H2.
    apply split_four_fields in Hs. apply literal16_int16 in H2.
    rewrite from_string_PStr, Hs, H2.
    destruct (int16 p0), (int16 p1), (int16 p3); try discriminate.
    destruct (_ || _); [discriminate |].
    intros H; inversion H; reflexivity. }
  split.
  { intros ctx Hv Hp.
    assert (Hf : exists t s f b, trace_id ctx = PInt t /\ span_id ctx = PInt s
                                 /\ flags ctx = PInt f /\ baggage ctx = Some b).
    { unfold valid_context in Hv.
      destruct (trace_id ctx) as [| t | |]; try discriminate.
      destruct (span_id ctx) as [| s | |]; try discriminate.
      destruct (flags ctx) as [| f | |]; try discriminate.
      destruct (baggage ctx) as [b |]; try discriminate.
      exists t, s, f, b. repeat split. }
    destruct Hf as (t & s & f & b & Ht & Hs & Hf & Hb).
    destruct (binary_round_trip ctx t s f b Hv Ht Hs Hf Hb) as (rest & Hin & _).
    rewrite Hp in Hin. cbn [parent_word] in Hin.
    exists (be_bytes 8 (trace_id_high t) ++ be_bytes 8 (trace_id_low t)
            ++ be_bytes 8 s)%list, rest.
    split; [rewrite !length_app, !be_bytes_length; reflexivity |].
    rewrite Hin, <- !app_assoc. reflexivity. }
  split.
  { intros data ctx' H.
    destruct (binary_extract_constructs data ctx' H) as (t & s & f & b & ->).
    split; [exists t, s, f, b; reflexivity |].
    split; [| apply constructed_parent_not_zero].
    intros E. rewrite constructed_parent_id, E. reflexivity. }
  split.
  { intros ctx d. eexists. split; [reflexivity |].
    rewrite !dict_get_set. reflexivity. }
  split.
  { intros d ctx'. unfold ZipkinCodec.extract. cbn [bind].
    destruct (negb (truthy (ZipkinCodec.get d "trace_id"))); [discriminate |].
    intros H; inversion H as [H']. split; [reflexivity |].
    intros E. rewrite constructed_parent_id, E. reflexivity. }
  intros c ctx'. unfold ZipkinCodec.extract.
  match goal with
  | |- bind ?fields _ = _ -> _ => destruct fields as [[[[t s] p] f] |]
  end; cbn [bind]; [| discriminate].
  destruct (negb (truthy t)); [discriminate |].
  intros H; inversion H. apply constructed_parent_not_zero.
Qed.

(** C3, as stated, fails: [ZipkinCodec.inject] writes the [parent_id] of a
    root context as [None], not as 0. *)
Lemma zipkin_inject_absent_parent_not_zero :
  ZipkinCodec.inject
    (mkSpanContext (PInt 256) (PInt 127) PNone (PInt 1) None PNone) (CDict [])
  = Ok (CDict [("trace_id", PInt 256); ("span_id", PInt 127);
               ("parent_id", PNone); ("traceflags", PInt 1)]).
Proof.
  vm_compute; reflexivity.
Qed.

(** * Further properties of the code *)

(** ** Hex digits, read and written *)

(** What a hex digit is not: white space, a sign, an underscore, a colon
    or the [x] of a prefix. *)
Lemma scan_digits_hex (s : string) :
  all_hex s = true ->
  forall acc seen,
    (s <> EmptyString \/ seen = true) ->
    scan_digits s acc false seen = Some (hex_fold s acc, EmptyString).
Proof.
  induction s as [| c r IH]; intros Hs acc seen Hne.
  - destruct Hne as [Hne | ->]; [contradiction | reflexivity].
  - cbn [all_hex] in Hs. cbn [scan_digits hex_fold].
    destruct (hex_value c) as [d |] eqn:Hc; [| discriminate].
    destruct (hex_value_char c d Hc) as (_ & _ & Hu & _). rewrite Hu.
    apply IH; auto.
Qed.

(** [int(s, 16)] on a run of hex digits, and on such a run after a minus
    sign. *)
Lemma int16_digits (s : string) :
  all_hex s = true -> s <> EmptyString -> int16 s = Some (hex_fold s 0).
Proof.
  intros Hs Hne. destruct s as [| c r]; [contradiction |].
  pose proof (scan_digits_hex (String c r) Hs 0 false (or_introl Hne)) as Hscan.
  cbn [all_hex] in Hs.
  destruct (hex_value c) as [d |] eqn:Hc; [| discriminate].
  destruct (hex_value_char c d Hc) as (_ & Hsp & Hu & _ & Hp & Hm & _).
  unfold int16. cbn [skip_c_space]. rewrite Hsp.
  assert (Hsign :
            match String c r with
            | String "+" r0 => (false, r0)
            | String "-" r0 => (true, r0)
            | _ => (false, String c r)
            end = (false, String c r)).
  { clear - Hp Hm.
    destruct c as [[] [] [] [] [] [] [] []]; try reflexivity; discriminate. }
  rewrite Hsign.
  assert (Hprefix :
            match String c r with
            | String "0" (String x r0) =>
                if (Ascii.eqb x "x" || Ascii.eqb x "X")%bool
                then match r0 with
                     | String "_" r' => r'
                     | _ => r0
                     end
                else String c r
            | _ => String c r
            end = String c r).
  { destruct r as [| x r0].
    - clear. destruct c as [[] [] [] [] [] [] [] []]; reflexivity.
    - cbn [all_hex] in Hs.
      destruct (hex_value x) as [dx |] eqn:Hx; [| discriminate].
      destruct (hex_value_char x dx Hx) as (_ & _ & _ & _ & _ & _ & Hx1 & Hx2).
      rewrite Hx1, Hx2. clear.
      destruct c as [[] [] [] [] [] [] [] []]; reflexivity. }
  rewrite Hprefix.
  assert (Hunder :
            forall (A : Type) (a b : A),
              match String c r with
              | String "_" _ => a
              | _ => b
              end = b).
  { intros A a b. clear - Hu.
    destruct c as [[] [] [] [] [] [] [] []]; try reflexivity; discriminate. }
  rewrite Hunder, Hscan. reflexivity.
Qed.

Lemma int16_minus_digits (s : string) :
  all_hex s = true -> s <> EmptyString ->
  int16 (String "-" s) = Some (- hex_fold s 0).
Proof.
  intros Hs Hne. destruct s as [| c r]; [contradiction |].
  pose proof (scan_digits_hex (String c r) Hs 0 false (or_introl Hne)) as Hscan.
  cbn [all_hex] in Hs.
  destruct (hex_value c) as [d |] eqn:Hc; [| discriminate].
  destruct (hex_value_char c d Hc) as (_ & Hsp & Hu & _ & Hp & Hm & _).
  unfold int16.
  change (skip_c_space (String "-" (String c r))) with (String "-" (String c r)).
  cbv beta iota.
  assert (Hprefix :
            match String c r with
            | String "0" (String x r0) =>
                if (Ascii.eqb x "x" || Ascii.eqb x "X")%bool
                then match r0 with
                     | String "_" r' => r'
                     | _ => r0
                     end
                else String c r
            | _ => String c r
            end = String c r).
  { destruct r as [| x r0].
    - clear. destruct c as [[] [] [] [] [] [] [] []]; reflexivity.
    - cbn [all_hex] in Hs.
      destruct (hex_value x) as [dx |] eqn:Hx; [| discriminate].
      destruct (hex_value_char x dx Hx) as (_ & _ & _ & _ & _ & _ & Hx1 & Hx2).
      rewrite Hx1, Hx2. clear.
      destruct c as [[] [] [] [] [] [] [] []]; reflexivity. }
  rewrite Hprefix.
  assert (Hunder :
            forall (A : Type) (a b : A),
              match String c r with
              | String "_" _ => a
              | _ => b
              end = b).
  { intros A a b. clear - Hu.
    destruct c as [[] [] [] [] [] [] [] []]; try reflexivity; discriminate. }
  rewrite Hunder, Hscan. reflexivity.
Qed.

Lemma all_hex_app (a b : string) :
  all_hex (a ++ b) = (all_hex a && all_hex b)%bool.
Proof.
  induction a as [| c a IH]; [reflexivity |]. cbn [append all_hex].
  destruct (hex_value c); [apply IH | reflexivity].
Qed.

Lemma hex_fold_app (a b : string) (acc : Z) :
  all_hex a = true -> hex_fold (a ++ b) acc = hex_fold b (hex_fold a acc).
Proof.
  revert acc; induction a as [| c a IH]; intros acc Ha; [reflexivity |].
  cbn [append all_hex hex_fold] in *.
  destruct (hex_value c); [apply IH, Ha | discriminate].
Qed.

Lemma hex_digit_value (m : N) :
  (m < 16)%N -> hex_value (hex_digit m) = Some (Z.of_N m).
Proof.
  intros H. destruct m as [| p]; [reflexivity |].
  destruct p as [[[[p | p |] | [p | p |] |] | [[p | p |] | [p | p |] |] |]
                | [[[p | p |] | [p | p |] |] | [[p | p |] | [p | p |] |] |] |];
    try reflexivity; exfalso; lia.
Qed.

Lemma hex_digits_succ (k : nat) (n : N) (acc : string) :
  hex_digits (S k) n acc
  = if (n / 16 =? 0)%N then String (hex_digit (n mod 16)) acc
    else hex_digits k (n / 16) (String (hex_digit (n mod 16)) acc).
Proof. reflexivity. Qed.

(** The digits [hex_digits] puts in front of [acc] spell [n]. *)
Lemma hex_digits_spec (k : nat) :
  forall n acc,
    (n < 16 ^ N.of_nat (S k))%N ->
    exists pre,
      hex_digits (S k) n acc = pre ++ acc /\
      all_hex pre = true /\ pre <> EmptyString /\
      forall a, hex_fold pre a
                = a * 16 ^ Z.of_nat (String.length pre) + Z.of_N n.
Proof.
  induction k as [| k IH]; intros n acc Hn.
  - assert (Hn16 : (n < 16)%N) by (change (16 ^ N.of_nat 1)%N with 16%N in Hn; lia).
    cbn [hex_digits].
    rewrite N.div_small, N.mod_small by assumption. cbn [N.eqb].
    exists (String (hex_digit n) EmptyString).
    split; [reflexivity |]. cbn [all_hex hex_fold String.length].
    rewrite (hex_digit_value n Hn16).
    repeat split; [discriminate |]. intros a. lia.
  - rewrite (hex_digits_succ (S k)).
    pose proof (N.mod_lt n 16 ltac:(lia)) as Hm.
    destruct (N.eqb_spec (n / 16) 0) as [E | E].
    + exists (String (hex_digit (n mod 16)) EmptyString).
      split; [reflexivity |]. cbn [all_hex hex_fold String.length].
      rewrite (hex_digit_value _ Hm).
      repeat split; [discriminate |]. intros a.
      pose proof (N.div_mod n 16 ltac:(lia)) as Hd. rewrite E in Hd. lia.
    + assert (Hq : (n / 16 < 16 ^ N.of_nat (S k))%N).
      { apply N.Div0.div_lt_upper_bound.
        rewrite <- N.pow_succ_r'. rewrite <- Nat2N.inj_succ. assumption. }
      destruct (IH (n / 16)%N (String (hex_digit (n mod 16)) acc) Hq)
        as (pre & Hpre & Hall & Hne & Hval).
      exists (pre ++ String (hex_digit (n mod 16)) EmptyString).
      split; [| split; [| split]].
      * rewrite Hpre, append_assoc. reflexivity.
      * rewrite all_hex_app, Hall. cbn [all_hex andb].
        rewrite (hex_digit_value _ Hm). reflexivity.
      * destruct pre; [contradiction | discriminate].
      * intros a. rewrite hex_fold_app by assumption.
        cbn [hex_fold]. rewrite (hex_digit_value _ Hm), Hval.
        rewrite length_append. cbn [String.length].
        rewrite Nat2Z.inj_add, Z.pow_add_r by lia.
        change (16 ^ Z.of_nat 1) with 16.
        pose proof (N.div_mod n 16 ltac:(lia)) as Hd.
        assert (Z.of_N n = 16 * Z.of_N (n / 16) + Z.of_N (n mod 16)) by lia.
        lia.
Qed.

Lemma hex_of_N_spec (n : N) :
  all_hex (hex_of_N n) = true /\ hex_of_N n <> EmptyString
  /\ hex_fold (hex_of_N n) 0 = Z.of_N n.
Proof.
  assert (Hn : (n < 16 ^ N.of_nat (S (N.to_nat (N.log2 n))))%N).
  { rewrite Nat2N.inj_succ, N2Nat.id.
    destruct n as [| p]; [reflexivity |].
    destruct (N.log2_spec (N.pos p) ltac:(lia)) as [_ Hlt].
    eapply N.lt_le_trans; [exact Hlt |].
    apply N.pow_le_mono_l. lia. }
  destruct (hex_digits_spec _ n EmptyString Hn) as (pre & Hpre & Hall & Hne & Hval).
  unfold hex_of_N. rewrite Hpre.
  rewrite append_nil_r. repeat split; try assumption. rewrite Hval. lia.
Qed.

(** Reading back what [format(z, 'x')] wrote gives [z], for every
    integer. *)
Lemma int16_hex_of_Z (z : Z) : int16 (hex_of_Z z) = Some z.
Proof.
  unfold hex_of_Z. destruct (Z.ltb_spec z 0) as [H | H].
  - destruct (hex_of_N_spec (Z.to_N (- z))) as (Hall & Hne & Hval).
    rewrite (int16_minus_digits _ Hall Hne), Hval. f_equal. lia.
  - destruct (hex_of_N_spec (Z.to_N z)) as (Hall & Hne & Hval).
    rewrite (int16_digits _ Hall Hne), Hval. f_equal. lia.
Qed.

(** ** The combined header, written and read back *)

Lemma all_hex_no_colon (s : string) :
  all_hex s = true -> count_char ":" s = O.
Proof.
  induction s as [| c s IH]; [reflexivity |]. cbn [all_hex count_char].
  destruct (hex_value c) as [d |] eqn:Hc; [| discriminate].
  destruct (hex_value_char c d Hc) as (_ & _ & _ & Hcolon & _).
  rewrite Hcolon. exact IH.
Qed.

Lemma hex_of_Z_no_colon (z : Z) : count_char ":" (hex_of_Z z) = O.
Proof.
  unfold hex_of_Z. destruct (z <? 0).
  - destruct (hex_of_N_spec (Z.to_N (- z))) as (Hall & _).
    cbn [count_char]. rewrite (all_hex_no_colon _ Hall). reflexivity.
  - destruct (hex_of_N_spec (Z.to_N z)) as (Hall & _).
    apply all_hex_no_colon, Hall.
Qed.

Lemma combined_header_round_trip_lemma (t s f : Z) (parent : pyval) :
  1 <= t -> 1 <= s -> 0 <= f ->
  (parent = PNone \/ exists p, parent = PInt p /\ 0 <= p) ->
  exists w,
    span_context_to_string (PInt t) (PInt s) parent (PInt f) = Ok w /\
    span_context_from_string (PStr w)
    = Ok (PInt t, PInt s, (if truthy parent then parent else PNone), PInt f) /\
    span_context_from_string (PList [PStr w])
    = span_context_from_string (PStr w).
Proof.
  intros Ht Hs Hf Hp.
  assert (Hpar : exists p, py_or parent (PInt 0) = PInt p /\ 0 <= p
                           /\ (if truthy parent then parent else PNone)
                              = (if p =? 0 then PNone else PInt p)).
  { destruct Hp as [-> | (p & -> & Hp)].
    - exists 0. repeat split; lia.
    - exists p. unfold py_or. cbn [truthy].
      destruct (Z.eqb_spec p 0) as [-> | Hne]; cbn [negb]; repeat split; lia. }
  destruct Hpar as (p & Hor & Hp0 & Hres).
  eexists. split; [| split; [| reflexivity]].
  - unfold span_context_to_string. rewrite Hor. cbn [format_x bind]. reflexivity.
  - rewrite from_string_PStr.
    rewrite split_combined by apply hex_of_Z_no_colon.
    rewrite !int16_hex_of_Z.
    replace ((t <? 1) || (s <? 1) || (p <? 0) || (f <? 0)) with false
      by (symmetry; rewrite !orb_false_iff, !Z.ltb_ge; lia).
    rewrite Hres. reflexivity.
Qed.


(** X1: what [span_context_to_string] writes for a trace id and a span id
    of at least 1, flags that are not negative and a parent that is [None]
    or not negative, [span_context_from_string] reads back: the same ids
    and flags, and the same parent except that a parent of 0 comes back as
    [None]. The same holds when the header arrives as a one-element
    list. *)
Theorem combined_header_round_trip (t s f : Z) (parent : pyval) :
  1 <= t -> 1 <= s -> 0 <= f ->
  (parent = PNone \/ exists p, parent = PInt p /\ 0 <= p) ->
  exists w,
    span_context_to_string (PInt t) (PInt s) parent (PInt f) = Ok w /\
    span_context_from_string (PStr w)
    = Ok (PInt t, PInt s, (if truthy parent then parent else PNone), PInt f) /\
    span_context_from_string (PList [PStr w])
    = span_context_from_string (PStr w).
Proof.
  apply combined_header_round_trip_lemma.
Qed.

Lemma combined_header_round_trip_witness :
  exists w,
    span_context_to_string (PInt 255) (PInt 16) (PInt 0) (PInt 1) = Ok w /\
    span_context_from_string (PStr w)
    = Ok (PInt 255, PInt 16, PNone, PInt 1) /\
    span_context_from_string (PList [PStr w])
    = span_context_from_string (PStr w).
Proof.
  refine (combined_header_round_trip 255 16 1 (PInt 0) _ _ _ _).
  - lia.
  - lia.
  - lia.
  - right. exists 0. split; [reflexivity | lia].
Defined.

(** ** ZipkinCodec, written and read back *)

(** X2: [ZipkinCodec.inject] always succeeds on a [dict], whatever it
    held; it leaves every key other than the four fields as it was, and
    [ZipkinCodec.extract] of the result gives back the context that the
    constructor builds from the four fields of the context, with no
    baggage and no debug id, or [None] when the trace id is falsy. *)
Theorem zipkin_round_trip (ctx : SpanContext) (d : dict pyval) :
  exists d',
    ZipkinCodec.inject ctx (CDict d) = Ok (CDict d') /\
    ZipkinCodec.extract (CDict d')
    = Ok (if truthy (trace_id ctx)
          then Some (mkSpanContext (trace_id ctx) (span_id ctx)
                       (parent_id ctx) (flags ctx) None PNone)
          else None) /\
    (forall k, ~ In k zipkin_fields -> dict_get d' k = dict_get d k).
Proof.
  eexists. split; [reflexivity |]. split.
  - unfold ZipkinCodec.extract, ZipkinCodec.get. cbn [bind].
    rewrite !dict_get_set.
    change (String.eqb "traceflags" "trace_id") with false.
    change (String.eqb "parent_id" "trace_id") with false.
    change (String.eqb "span_id" "trace_id") with false.
    change (String.eqb "traceflags" "span_id") with false.
    change (String.eqb "parent_id" "span_id") with false.
    change (String.eqb "traceflags" "parent_id") with false.
    rewrite !String.eqb_refl. cbv iota.
    destruct (truthy (trace_id ctx)); reflexivity.
  - intros k Hk. rewrite !dict_get_set.
    unfold zipkin_fields in Hk. cbn [In] in Hk.
    destruct (String.eqb_spec "traceflags" k); [tauto |].
    destruct (String.eqb_spec "parent_id" k); [tauto |].
    destruct (String.eqb_spec "span_id" k); [tauto |].
    destruct (String.eqb_spec "trace_id" k); [tauto |].
    reflexivity.
Qed.

(** ** BinaryCodec, written and read back *)

Lemma dict_get_app {V : Type} (a b : dict V) (k : string) :
  dict_get (a ++ b)%list k
  = match dict_get a k with Some v => Some v | None => dict_get b k end.
Proof.
  induction a as [| [k' v'] a IH]; [reflexivity |].
  cbn [app dict_get]. destruct (String.eqb k' k); [reflexivity | apply IH].
Qed.

Lemma dict_set_fresh {V : Type} (d : dict V) (k : string) (v : V) :
  dict_get d k = None -> dict_set d k v = (d ++ [(k, v)])%list.
Proof.
  induction d as [| [k' v'] d IH]; [reflexivity |].
  cbn [dict_get dict_set app]. destruct (String.eqb k' k); [discriminate |].
  intros H. rewrite (IH H). reflexivity.
Qed.

Lemma dict_get_in {V : Type} (d : dict V) (k : string) (v : V) :
  In (k, v) d -> dict_get d k <> None.
Proof.
  induction d as [| [k' v'] d IH]; [intros [] |].
  cbn [In dict_get]. intros [E | H].
  - inversion E; subst. rewrite String.eqb_refl. discriminate.
  - destruct (String.eqb k' k); [discriminate | apply IH, H].
Qed.

(** Setting the items of a [dict] one after the other, onto a [dict] that
    has none of its keys, appends them. *)
Lemma fold_dict_set_unique (b : dict pyval) :
  unique_keys b = true ->
  forall acc,
    (forall k v, In (k, v) b -> dict_get acc k = None) ->
    fold_left (fun d item => dict_set d (fst item) (snd item)) b acc
    = (acc ++ b)%list.
Proof.
  induction b as [| [k v] b IH]; intros Hu acc Hfresh.
  - rewrite app_nil_r. reflexivity.
  - cbn [unique_keys] in Hu.
    destruct (dict_get b k) eqn:Hk; [discriminate |].
    cbn [fold_left fst snd].
    rewrite (dict_set_fresh acc k v) by (apply (Hfresh k v); left; reflexivity).
    rewrite IH; [rewrite <- app_assoc; reflexivity | assumption |].
    intros k' v' Hin. rewrite dict_get_app.
    rewrite (Hfresh k' v') by (right; assumption).
    cbn [dict_get]. destruct (String.eqb_spec k k') as [-> | Hne]; [| reflexivity].
    exfalso. apply (dict_get_in b k' v' Hin). assumption.
Qed.

(** What [BinaryCodec.extract] accepts holds a whole header. *)
Lemma binary_extract_needs_header (data : list byte) (r : option SpanContext) :
  BinaryCodec.extract (CBytearray data) = Ok r -> (37 <= List.length data)%nat.
Proof.
  unfold BinaryCodec.extract, unpack_QQQQBI.
  rewrite slice_prefix by lia. change (Z.to_nat 37) with 37%nat.
  rewrite length_firstn.
  destruct (Nat.eqb_spec (Nat.min 37 (List.length data)) 37) as [E | E];
    [intros _; lia | discriminate].
Qed.

(** The constructor makes no difference between an absent parent and the
    word that stands for it on the wire. *)
Lemma constructed_parent_word (t s p f : pyval) (b : option (dict pyval))
  (d : pyval) :
  none_or_int p ->
  mkSpanContext t s (PInt (parent_word p)) f b d = mkSpanContext t s p f b d.
Proof.
  intros [-> | [z ->]]; reflexivity.
Qed.

(** X3: for a valid context whose baggage holds each key once,
    [BinaryCodec.inject] into an empty bytearray writes at least the 37
    bytes of the header, and [BinaryCodec.extract] of the result returns
    the context that the constructor builds from the same trace id, span
    id, parent id and flags and from the whole baggage, in order. The
    debug id is not carried. *)
Theorem binary_context_round_trip (ctx : SpanContext) (b : dict pyval) :
  valid_context ctx = true ->
  baggage ctx = Some b ->
  unique_keys b = true ->
  exists data,
    BinaryCodec.inject ctx (CBytearray []) = Ok (CBytearray data) /\
    (37 <= List.length data)%nat /\
    BinaryCodec.extract (CBytearray data)
    = Ok (Some (mkSpanContext (trace_id ctx) (span_id ctx)
                  (parent_id ctx) (flags ctx) (Some b) PNone)).
Proof.
  intros Hv Hb Hu.
  assert (Hf : exists t s f, trace_id ctx = PInt t /\ span_id ctx = PInt s
                             /\ flags ctx = PInt f
                             /\ none_or_int (parent_id ctx)).
  { unfold valid_context in Hv.
    destruct (trace_id ctx) as [| t | |]; try discriminate.
    destruct (span_id ctx) as [| s | |]; try discriminate.
    destruct (flags ctx) as [| f | |]; try discriminate.
    exists t, s, f. repeat split.
    rewrite Hb in Hv.
    destruct (parent_id ctx) as [| p | |];
      [left; reflexivity | right; exists p; reflexivity | |];
      rewrite !andb_false_r in Hv; discriminate. }
  destruct Hf as (t & s & f & Ht & Hs & Hf & Hp).
  destruct (binary_round_trip ctx t s f b Hv Ht Hs Hf Hb) as (rest & Hin & Hex).
  eexists. split; [exact Hin |]. split.
  - apply (binary_extract_needs_header _ _ Hex).
  - rewrite Hex, Ht, Hs, Hf. unfold read_back.
    rewrite (fold_dict_set_unique b Hu []) by (intros; reflexivity).
    rewrite (constructed_parent_word _ _ _ _ _ _ Hp). reflexivity.
Qed.

Lemma binary_context_round_trip_witness :
  exists data,
    BinaryCodec.inject
      (mkSpanContext (PInt 256) (PInt 127) PNone (PInt 1)
         (Some [("k", PStr "v"); ("fruit", PStr "apple")]) (PStr "dbg"))
      (CBytearray []) = Ok (CBytearray data) /\
    (37 <= List.length data)%nat /\
    BinaryCodec.extract (CBytearray data)
    = Ok (Some (mkSpanContext (PInt 256) (PInt 127) PNone (PInt 1)
                  (Some [("k", PStr "v"); ("fruit", PStr "apple")]) PNone)).
Proof.
  exact (binary_context_round_trip
           (mkSpanContext (PInt 256) (PInt 127) PNone (PInt 1)
              (Some [("k", PStr "v"); ("fruit", PStr "apple")]) (PStr "dbg"))
           [("k", PStr "v"); ("fruit", PStr "apple")]
           eq_refl eq_refl eq_refl).
Defined.

(** ** BinaryCodec: what is appended and what is read *)

Lemma pack_baggage_prepend (items : dict pyval) :
  forall data,
    BinaryCodec.pack_baggage items data
    = match BinaryCodec.pack_baggage items [] with
      | Ok bytes => Ok (data ++ bytes)%list
      | Raise e => Raise e
      end.
Proof.
  induction items as [| [k v] items IH]; intros data.
  - cbn. rewrite app_nil_r. reflexivity.
  - rewrite !pack_baggage_cons.
    destruct (BinaryCodec._pack_baggage_item k v) as [item |]; cbn [bind];
      [| reflexivity].
    rewrite (IH (data ++ item)%list), (IH ([] ++ item)%list).
    destruct (BinaryCodec.pack_baggage items []) as [bytes |]; [| reflexivity].
    cbn [app]. rewrite app_assoc. reflexivity.
Qed.

Lemma binary_inject_appends_lemma (ctx : SpanContext) (data : list byte) :
  BinaryCodec.inject ctx (CBytearray data)
  = match BinaryCodec.inject ctx (CBytearray []) with
    | Ok (CBytearray bytes) => Ok (CBytearray (data ++ bytes)%list)
    | r => r
    end.
Proof.
  unfold BinaryCodec.inject.
  destruct (match trace_id ctx with
            | PInt t =>
                if t >? 18446744073709551615
                then Ok (PInt (Z.land (Z.shiftr t 64) 18446744073709551615),
                         PInt (Z.land t 18446744073709551615))
                else Ok (PInt 0, PInt t)
            | _ => Raise TypeError
            end) as [[high low] |]; cbn [bind]; [| reflexivity].
  destruct (match baggage ctx with
            | Some b => Ok (PInt (Z.of_nat (List.length b)))
            | None => Raise TypeError
            end) as [count |]; cbn [bind]; [| reflexivity].
  destruct (pack_QQQQBI high low (py_or (span_id ctx) (PInt 0))
              (py_or (parent_id ctx) (PInt 0)) (flags ctx) count)
    as [header |]; cbn [bind]; [| reflexivity].
  rewrite (pack_baggage_prepend _ (data ++ header)%list),
    (pack_baggage_prepend _ ([] ++ header)%list).
  destruct (BinaryCodec.pack_baggage
              match baggage ctx with Some b => b | None => [] end [])
    as [bytes |]; cbn [bind app]; [| reflexivity].
  rewrite app_assoc. reflexivity.
Qed.


(** X4: [BinaryCodec.inject] only appends: on a bytearray that already
    holds [data] it gives [data] followed by exactly what it writes into
    an empty bytearray, and it fails on the one exactly when it fails on
    the other, with the same error. *)
Theorem binary_inject_appends (ctx : SpanContext) (data : list byte) :
  BinaryCodec.inject ctx (CBytearray data)
  = match BinaryCodec.inject ctx (CBytearray []) with
    | Ok (CBytearray bytes) => Ok (CBytearray (data ++ bytes)%list)
    | r => r
    end.
Proof.
  apply binary_inject_appends_lemma.
Qed.

Lemma pack_unpack_baggage_before (b : dict pyval) :
  forallb (fun item =>
             valid_text (fst item)
             && match snd item with PStr v => valid_text v | _ => false end) b
  = true ->
  exists bytes,
    BinaryCodec.pack_baggage b [] = Ok bytes /\
    forall junk acc,
      BinaryCodec.unpack_baggage (List.length b) (bytes ++ junk)%list acc
      = Ok (fold_left (fun d item => dict_set d (fst item) (snd item)) b acc).
Proof.
  induction b as [| [k v] b IH]; intros Hb.
  - exists []. split; reflexivity.
  - cbn [forallb fst snd] in Hb. apply andb_true_iff in Hb as [Hkv Hb].
    apply andb_true_iff in Hkv as [Hk Hv].
    destruct v as [| z | v | l]; try discriminate.
    destruct (IH Hb) as (bytes & Hpack & Hun).
    destruct (unpack_item_packed k v [] Hk Hv) as (item & Hp & _ & _).
    exists (item ++ bytes)%list. split.
    + rewrite pack_baggage_cons, Hp. cbn [bind].
      rewrite pack_baggage_prepend, Hpack. reflexivity.
    + intros junk acc. cbn [List.length]. rewrite unpack_baggage_succ.
      rewrite <- app_assoc.
      destruct (unpack_item_packed k v (bytes ++ junk)%list Hk Hv)
        as (item' & Hp' & Hu' & Hs').
      rewrite Hp in Hp'. inversion Hp'; subst item'.
      rewrite Hu'. cbn [bind]. rewrite Hs'. apply Hun.
Qed.

(** The two words [inject] writes for a trace id that is not negative,
    and what [extract] makes of them: the trace id modulo [2^128]. *)
Lemma trace_id_words_wide (t : Z) :
  0 <= t ->
  exists h l,
    (if t >? 18446744073709551615
     then Ok (PInt (Z.land (Z.shiftr t 64) 18446744073709551615),
              PInt (Z.land t 18446744073709551615))
     else Ok (PInt 0, PInt t))
    = Ok (PInt h, PInt l)
    /\ 0 <= h < 2 ^ 64 /\ 0 <= l < 2 ^ 64
    /\ (if negb (h =? 0) then Z.lor (Z.shiftl h 64) l else l) = t mod 2 ^ 128.
Proof.
  intros Ht.
  destruct (t >? 18446744073709551615) eqn:E.
  - apply Z.gtb_lt in E.
    exists (Z.land (Z.shiftr t 64) 18446744073709551615),
      (Z.land t 18446744073709551615).
    rewrite max_int64_ones.
    split; [reflexivity |].
    split; [rewrite Z.land_ones by lia; apply Z.mod_pos_bound; lia |].
    split; [apply trace_id_low_range |].
    assert (Hrec : Z.lor (Z.shiftl (Z.land (Z.shiftr t 64) (Z.ones 64)) 64)
                     (Z.land t (Z.ones 64)) = t mod 2 ^ 128).
    { apply Z.bits_inj'. intros n Hn.
      rewrite Z.lor_spec, Z.land_spec, Z.testbit_ones by lia.
      destruct (Z.ltb_spec n 64) as [H | H].
      - rewrite Z.shiftl_spec_low by lia.
        rewrite Z.mod_pow2_bits_low by lia.
        replace (0 <=? n) with true by (symmetry; apply Z.leb_le; lia).
        cbn. rewrite andb_true_r. reflexivity.
      - rewrite Z.shiftl_spec, Z.land_spec, Z.shiftr_spec, Z.testbit_ones by lia.
        replace (n - 64 + 64) with n by lia.
        rewrite andb_false_r, andb_false_r, orb_false_r.
        destruct (Z.ltb_spec n 128) as [H' | H'].
        + rewrite Z.mod_pow2_bits_low by lia.
          replace (0 <=? n - 64) with true by (symmetry; apply Z.leb_le; lia).
          replace (n - 64 <? 64) with true by (symmetry; apply Z.ltb_lt; lia).
          cbn. rewrite andb_true_r. reflexivity.
        + rewrite Z.mod_pow2_bits_high by lia.
          replace (n - 64 <? 64) with false by (symmetry; apply Z.ltb_ge; lia).
          rewrite andb_false_r, andb_false_r. reflexivity. }
    destruct (Z.eqb_spec (Z.land (Z.shiftr t 64) (Z.ones 64)) 0) as [Hz | Hz];
      cbn [negb]; [| exact Hrec].
    rewrite Hz in Hrec. rewrite <- Hrec.
    rewrite Z.shiftl_0_l, Z.lor_0_l. reflexivity.
  - assert (t <= 18446744073709551615)
      by (destruct (Z.gtb_spec t 18446744073709551615); [discriminate | lia]).
    exists 0, t. split; [reflexivity |].
    split; [lia |]. split; [lia |].
    cbn. symmetry. apply Z.mod_small. lia.
Qed.

(** What [inject] writes for an encodable context, and what [extract]
    reads from it, whatever bytes follow. *)
Lemma binary_wire (ctx : SpanContext) (t : Z) (b : dict pyval) :
  encodable_context ctx = true ->
  trace_id ctx = PInt t ->
  baggage ctx = Some b ->
  exists bytes,
    BinaryCodec.inject ctx (CBytearray []) = Ok (CBytearray bytes) /\
    forall junk,
      BinaryCodec.extract (CBytearray (bytes ++ junk)%list)
      = Ok (Some (mkSpanContext (PInt (t mod 2 ^ 128)) (span_id ctx)
                    (PInt (parent_word (parent_id ctx))) (flags ctx)
                    (Some (read_back b)) PNone)).
Proof.
  intros Hv Ht Hb. unfold encodable_context in Hv. rewrite Ht in Hv.
  apply andb_true_iff in Hv as [Ht0 Hv]. apply Z.leb_le in Ht0.
  unfold valid_context in Hv. cbn [trace_id span_id flags baggage parent_id] in Hv.
  rewrite Hb in Hv.
  destruct (span_id ctx) as [| s | |] eqn:Hs; try discriminate.
  destruct (flags ctx) as [| f | |] eqn:Hf; try discriminate.
  repeat (apply andb_true_iff in Hv as [Hv ?]).
  repeat match goal with
         | H : (_ <=? _) = true |- _ => apply Z.leb_le in H
         | H : (_ <? _) = true |- _ => apply Z.ltb_lt in H
         end.
  destruct (trace_id_words_wide t Ht0) as (h & l & Hw & Hh & Hl & Hr).
  assert (Hp : py_or (parent_id ctx) (PInt 0) = PInt (parent_word (parent_id ctx))
               /\ 0 <= parent_word (parent_id ctx) < 2 ^ 64).
  { match goal with
    | H : match parent_id ctx with _ => _ end = true |- _ => revert H
    end.
    destruct (parent_id ctx) as [| p | |]; try discriminate; intros Hpar.
    - split; [reflexivity | cbn; lia].
    - apply andb_true_iff in Hpar as [Hp0 Hp1].
      apply Z.leb_le in Hp0. apply Z.ltb_lt in Hp1.
      split; [| cbn; lia].
      unfold py_or; cbn. destruct (p =? 0) eqn:E; cbn; [| reflexivity].
      apply Z.eqb_eq in E; subst p; reflexivity. }
  destruct Hp as [Hp Hpr].
  assert (Hsp : py_or (PInt s) (PInt 0) = PInt s).
  { unfold py_or; cbn. destruct (s =? 0) eqn:E; [| reflexivity].
    apply Z.eqb_eq in E; lia. }
  set (n := Z.of_nat (List.length b)) in *.
  set (header := (be_bytes 8 h ++ be_bytes 8 l ++ be_bytes 8 s
                  ++ be_bytes 8 (parent_word (parent_id ctx))
                  ++ be_bytes 1 f ++ be_bytes 4 n)%list).
  assert (Hpack : pack_QQQQBI (PInt h) (PInt l) (PInt s)
                    (PInt (parent_word (parent_id ctx))) (PInt f) (PInt n)
                  = Ok header).
  { unfold pack_QQQQBI.
    rewrite !pack_unsigned_ok
      by (rewrite ?pow256_8, ?pow256_4, ?pow256_1; unfold n; lia).
    reflexivity. }
  match goal with H : forallb _ b = true |- _ =>
    destruct (pack_unpack_baggage_before b H) as (bytes & Hpb & Hun) end.
  assert (Hlen : List.length header = 37%nat).
  { unfold header. rewrite !length_app, !be_bytes_length. reflexivity. }
  exists (header ++ bytes)%list. split.
  - unfold BinaryCodec.inject. rewrite Ht, Hb, Hw. cbn [bind].
    fold n. rewrite Hs, Hf, Hsp, Hp, Hpack. cbn [bind app].
    rewrite pack_baggage_prepend, Hpb. reflexivity.
  - intros junk. rewrite <- app_assoc. unfold BinaryCodec.extract.
    rewrite slice_prefix by lia. change (Z.to_nat 37) with 37%nat.
    rewrite (firstn_exact header _ 37 Hlen).
    unfold header at 1.
    rewrite unpack_QQQQBI_fields by apply be_bytes_length.
    rewrite !be_int_be_bytes_small
      by (rewrite ?pow256_8, ?pow256_4, ?pow256_1; unfold n; lia).
    cbn [bind]. rewrite Hr.
    rewrite slice_from_nonneg by lia. change (Z.to_nat 37) with 37%nat.
    rewrite (skipn_exact header _ 37 Hlen).
    unfold n at 2. rewrite Nat2Z.id, Hun. fold (read_back b).
    destruct (negb (n =? 0)) eqn:E; cbn [bind]; [reflexivity |].
    apply negb_false_iff, Z.eqb_eq in E.
    destruct b as [| x b]; [reflexivity | unfold n in E; cbn in E; lia].
Qed.

(** X5: [BinaryCodec.inject] does not reject a trace id wider than 128
    bits: it masks the high word, so [inject] succeeds and [extract]
    returns the trace id modulo [2^128], which differs from the trace id
    that went in as soon as that one is [2^128] or more. *)
Theorem binary_wide_trace_id_truncated (ctx : SpanContext) (t : Z) (b : dict pyval) :
  encodable_context ctx = true ->
  trace_id ctx = PInt t ->
  baggage ctx = Some b ->
  exists bytes ctx',
    BinaryCodec.inject ctx (CBytearray []) = Ok (CBytearray bytes) /\
    BinaryCodec.extract (CBytearray bytes) = Ok (Some ctx') /\
    trace_id ctx' = PInt (t mod 2 ^ 128) /\
    (2 ^ 128 <= t -> trace_id ctx' <> trace_id ctx).
Proof.
  intros Hv Ht Hb.
  destruct (binary_wire ctx t b Hv Ht Hb) as (bytes & Hin & Hex).
  specialize (Hex []). rewrite app_nil_r in Hex.
  eexists. eexists. split; [exact Hin |]. split; [exact Hex |].
  split; [reflexivity |].
  intros Hwide. cbn [trace_id]. rewrite Ht. intros E. inversion E as [E'].
  pose proof (Z.mod_pos_bound t (2 ^ 128) ltac:(lia)). lia.
Qed.

Lemma binary_wide_trace_id_truncated_witness :
  exists bytes ctx',
    BinaryCodec.inject
      (mkSpanContext (PInt (2 ^ 128 + 5)) (PInt 7) PNone (PInt 1) (Some []) PNone)
      (CBytearray []) = Ok (CBytearray bytes) /\
    BinaryCodec.extract (CBytearray bytes) = Ok (Some ctx') /\
    trace_id ctx' = PInt ((2 ^ 128 + 5) mod 2 ^ 128) /\
    (2 ^ 128 <= 2 ^ 128 + 5 ->
     trace_id ctx'
     <> trace_id (mkSpanContext (PInt (2 ^ 128 + 5)) (PInt 7) PNone (PInt 1)
                    (Some []) PNone)).
Proof.
  exact (binary_wide_trace_id_truncated
           (mkSpanContext (PInt (2 ^ 128 + 5)) (PInt 7) PNone (PInt 1)
              (Some []) PNone)
           (2 ^ 128 + 5) [] eq_refl eq_refl eq_refl).
Defined.

(** X6: [BinaryCodec.extract] reads the first context of a buffer and
    nothing after it. So after two calls of [inject] on one bytearray,
    first for [first] and then for [second], [extract] returns the fields
    of [first], and nothing of [second]. *)
Theorem binary_extract_reads_first_context
  (first second : SpanContext) (t : Z) (b : dict pyval) :
  encodable_context first = true ->
  trace_id first = PInt t ->
  baggage first = Some b ->
  encodable_context second = true ->
  exists once twice,
    BinaryCodec.inject first (CBytearray []) = Ok (CBytearray once) /\
    BinaryCodec.inject second (CBytearray once) = Ok (CBytearray twice) /\
    BinaryCodec.extract (CBytearray twice)
    = BinaryCodec.extract (CBytearray once) /\
    BinaryCodec.extract (CBytearray twice)
    = Ok (Some (mkSpanContext (PInt (t mod 2 ^ 128)) (span_id first)
                  (PInt (parent_word (parent_id first))) (flags first)
                  (Some (read_back b)) PNone)).
Proof.
  intros Hv Ht Hb Hv2.
  destruct (binary_wire first t b Hv Ht Hb) as (once & Hin & Hex).
  assert (H2 : exists t2 b2, trace_id second = PInt t2 /\ baggage second = Some b2).
  { unfold encodable_context in Hv2.
    destruct (trace_id second) as [| t2 | |]; try discriminate.
    apply andb_true_iff in Hv2 as [_ Hv2].
    unfold valid_context in Hv2. cbn [trace_id span_id flags baggage] in Hv2.
    destruct (span_id second); try discriminate.
    destruct (flags second); try discriminate.
    destruct (baggage second) as [b2 |]; try discriminate.
    eauto. }
  destruct H2 as (t2 & b2 & Ht2 & Hb2).
  destruct (binary_wire second t2 b2 Hv2 Ht2 Hb2) as (more & Hin2 & _).
  exists once, (once ++ more)%list.
  split; [exact Hin |]. split.
  - rewrite binary_inject_appends_lemma, Hin2. reflexivity.
  - rewrite Hex. pose proof (Hex []) as H0. rewrite app_nil_r in H0.
    rewrite H0. split; reflexivity.
Qed.

Lemma binary_extract_reads_first_context_witness :
  exists once twice,
    BinaryCodec.inject
      (mkSpanContext (PInt 256) (PInt 127) PNone (PInt 1)
         (Some [("k", PStr "v")]) PNone) (CBytearray [])
    = Ok (CBytearray once) /\
    BinaryCodec.inject
      (mkSpanContext (PInt 9) (PInt 8) (PInt 7) (PInt 0) (Some []) PNone)
      (CBytearray once)
    = Ok (CBytearray twice) /\
    BinaryCodec.extract (CBytearray twice)
    = BinaryCodec.extract (CBytearray once) /\
    BinaryCodec.extract (CBytearray twice)
    = Ok (Some (mkSpanContext (PInt (256 mod 2 ^ 128)) (PInt 127) (PInt 0)
                  (PInt 1) (Some (read_back [("k", PStr "v")])) PNone)).
Proof.
  exact (binary_extract_reads_first_context
           (mkSpanContext (PInt 256) (PInt 127) PNone (PInt 1)
              (Some [("k", PStr "v")]) PNone)
           (mkSpanContext (PInt 9) (PInt 8) (PInt 7) (PInt 0) (Some []) PNone)
           256 [("k", PStr "v")] eq_refl eq_refl eq_refl eq_refl).
Defined.

(** X7: [_read_kv] reads the length as a signed number and does not
    reject a negative one as such. With a length [n] below 0, the field is
    accepted as the empty string, and counted as [4 + n] bytes, when [n]
    is at least -4 or the buffer holds no more than [-n] bytes; otherwise
    [struct.error] is raised. With [n = -4] the item is counted as 0
    bytes. *)
Theorem read_kv_negative_length (data : list byte) :
  (4 <= List.length data)%nat ->
  2 ^ 31 <= be_int (firstn 4 data) ->
  BinaryCodec._read_kv data
  = if (-4 <=? be_int (firstn 4 data) - 2 ^ 32)
       || (Z.of_nat (List.length data) + (be_int (firstn 4 data) - 2 ^ 32) <=? 0)
    then Ok (EmptyString, 4 + (be_int (firstn 4 data) - 2 ^ 32))
    else Raise struct_error.
Proof.
  intros Hlen Hneg. unfold BinaryCodec._read_kv, unpack_i.
  rewrite slice_prefix by lia. change (Z.to_nat 4) with 4%nat.
  rewrite length_firstn, Nat.min_l by lia. cbn [Nat.eqb].
  pose proof (be_int_range (firstn 4 data)) as Hr.
  rewrite length_firstn, Nat.min_l, pow256_4 in Hr by lia.
  set (u := be_int (firstn 4 data)) in *.
  replace (u <? 2 ^ 31) with false by (symmetry; apply Z.ltb_ge; lia).
  cbn [bind]. set (n := u - 2 ^ 32) in *.
  assert (Hn : n < 0) by (unfold n; lia).
  set (len := Z.of_nat (List.length data)).
  assert (Hl : 4 <= len) by (unfold len; lia).
  unfold slice, slice_bound. fold len.
  replace (4 <? 0) with false by reflexivity.
  rewrite (Z.min_l 4 len) by lia.
  destruct (Z.leb_spec (-4) n) as [H4 | H4]; cbn [orb].
  - replace (4 + n <? 0) with false by (symmetry; apply Z.ltb_ge; lia).
    rewrite (Z.min_l (4 + n) len) by lia.
    replace (Z.to_nat (4 + n - 4)) with 0%nat by lia.
    rewrite firstn_0. unfold unpack_chars. cbn [List.length].
    replace (Z.of_nat 0 =? Z.max n 0) with true
      by (symmetry; apply Z.eqb_eq; lia).
    reflexivity.
  - replace (4 + n <? 0) with true by (symmetry; apply Z.ltb_lt; lia).
    unfold unpack_chars. rewrite length_firstn, length_skipn.
    destruct (Z.leb_spec (len + n) 0) as [H0 | H0].
    + replace (Z.to_nat (Z.max 0 (len + (4 + n)) - 4)) with 0%nat by lia.
      rewrite firstn_0.
      replace (Z.of_nat (Nat.min 0 (List.length data - Z.to_nat 4))
               =? Z.max n 0) with true
        by (symmetry; apply Z.eqb_eq; lia).
      reflexivity.
    + replace (Z.of_nat
                 (Nat.min (Z.to_nat (Z.max 0 (len + (4 + n)) - 4))
                    (List.length data - Z.to_nat 4))
               =? Z.max n 0) with false
        by (symmetry; apply Z.eqb_neq; unfold len in *; lia).
      reflexivity.
Qed.

Lemma read_kv_negative_length_witness :
  BinaryCodec._read_kv [xff; xff; xff; xfc; x61; x62]
  = if (-4 <=? be_int (firstn 4 [xff; xff; xff; xfc; x61; x62]) - 2 ^ 32)
       || (Z.of_nat (List.length [xff; xff; xff; xfc; x61; x62])
           + (be_int (firstn 4 [xff; xff; xff; xfc; x61; x62]) - 2 ^ 32) <=? 0)
    then Ok (EmptyString,
             4 + (be_int (firstn 4 [xff; xff; xff; xfc; x61; x62]) - 2 ^ 32))
    else Raise struct_error.
Proof.
  refine (read_kv_negative_length [xff; xff; xff; xfc; x61; x62] _ _).
  - simpl; lia.
  - vm_compute; discriminate.
Defined.

(** ** Header names *)

Lemma lower_char_idem (c : ascii) : lower_char (lower_char c) = lower_char c.
Proof.
  destruct c as [[] [] [] [] [] [] [] []]; reflexivity.
Qed.

Lemma lower_idem (s : string) : lower (lower s) = lower s.
Proof.
  induction s as [| c s IH]; [reflexivity |]. cbn [lower].
  rewrite lower_char_idem, IH. reflexivity.
Qed.

Lemma lower_str_drop (n : nat) (s : string) :
  lower (str_drop n s) = str_drop n (lower s).
Proof.
  revert s; induction n as [| n IH]; intros s; [reflexivity |].
  destruct s as [| c s]; [reflexivity |]. cbn [str_drop lower]. apply IH.
Qed.

Lemma lower_append (a b : string) : lower (a ++ b) = lower a ++ lower b.
Proof.
  induction a as [| c a IH]; [reflexivity |]. cbn [append lower].
  rewrite IH. reflexivity.
Qed.

(** ** TextCodec.extract: which entries matter *)

Section TextExtractMore.

Variable unquote : pyval -> result pyval.
Variable self : TextCodec.t.

Local Abbreviation step := (TextCodec.extract_step unquote self).
Local Abbreviation loop := (TextCodec.extract_loop unquote self).

Lemma step_unrecognised (st : TextCodec.locals) (key : string) (value : pyval) :
  recognised self key = false -> step st (key, value) = Ok st.
Proof.
  unfold recognised, TextCodec.extract_step. cbv zeta.
  rewrite !orb_false_iff. intros [[[H1 H2] H3] H4].
  rewrite H1, H2, H3, H4. reflexivity.
Qed.

Lemma loop_filter_recognised (items : dict pyval) :
  forall st,
    loop items st
    = loop (filter (fun item => recognised self (fst item)) items) st.
Proof.
  induction items as [| [k v] items IH]; intros st; [reflexivity |].
  rewrite loop_cons. cbn [filter fst].
  destruct (recognised self k) eqn:E.
  - rewrite loop_cons. destruct (step st (k, v)); cbn [bind];
      [apply IH | reflexivity].
  - rewrite (step_unrecognised st k v E). cbn [bind]. apply IH.
Qed.

Lemma step_lower_key (st : TextCodec.locals) (key : string) (value : pyval) :
  step st (lower key, value) = step st (key, value).
Proof.
  unfold TextCodec.extract_step.
  rewrite lower_idem, lower_str_drop, lower_idem, <- lower_str_drop.
  reflexivity.
Qed.

Lemma loop_lowered_items (items : dict pyval) :
  forall st, loop (lowered_items items) st = loop items st.
Proof.
  induction items as [| [k v] items IH]; intros st; [reflexivity |].
  unfold lowered_items. cbn [map fst snd]. fold (lowered_items items).
  rewrite !loop_cons, step_lower_key.
  destruct (step st (k, v)); cbn [bind]; [apply IH | reflexivity].
Qed.

End TextExtractMore.

(** X8: [TextCodec.extract] passes over every entry whose lower-cased name
    is not the trace header, the debug header or the aggregated baggage
    header and does not start with the baggage prefix: whatever such
    entries hold, the result is that of the carrier without them. A
    carrier of such entries only, the empty one included, gives [None]
    and no error. *)
Theorem text_extract_ignores_other_headers
  (unquote : pyval -> result pyval) (self : TextCodec.t) :
  (forall items,
      TextCodec.extract unquote self (CDict items)
      = TextCodec.extract unquote self
          (CDict (filter (fun item => recognised self (fst item)) items)))
  /\ (forall items,
         forallb (fun item => negb (recognised self (fst item))) items = true ->
         TextCodec.extract unquote self (CDict items) = Ok None).
Proof.
  assert (H : forall items,
             TextCodec.extract unquote self (CDict items)
             = TextCodec.extract unquote self
                 (CDict (filter (fun item => recognised self (fst item)) items))).
  { intros items. unfold TextCodec.extract.
    rewrite (loop_filter_recognised unquote self items). reflexivity. }
  split; [exact H |].
  intros items Hall. rewrite H.
  replace (filter (fun item => recognised self (fst item)) items) with (@nil (string * pyval));
    [reflexivity |].
  induction items as [| [k v] items IH]; [reflexivity |].
  cbn [forallb fst] in Hall. apply andb_true_iff in Hall as [Hk Hall].
  cbn [filter fst]. apply negb_true_iff in Hk. rewrite Hk. apply IH, Hall.
Qed.

Lemma b3_step_lower_key (S D : Z) (st : B3Codec.locals) (key : string)
  (value : pyval) :
  B3Codec.extract_step S D st (lower key, value)
  = B3Codec.extract_step S D st (key, value).
Proof.
  unfold B3Codec.extract_step. rewrite lower_idem. reflexivity.
Qed.

Lemma b3_loop_lowered_items (S D : Z) (items : dict pyval) :
  forall st,
    B3Codec.extract_loop S D (lowered_items items) st
    = B3Codec.extract_loop S D items st.
Proof.
  induction items as [| [k v] items IH]; intros st; [reflexivity |].
  unfold lowered_items. cbn [map fst snd]. fold (lowered_items items).
  rewrite !b3_loop_cons, b3_step_lower_key.
  destruct (B3Codec.extract_step S D st (k, v)); cbn [bind];
    [apply IH | reflexivity].
Qed.

(** When no two names differ only in case, the lower-cased carrier holds
    the lower-cased items in their order. *)
Lemma lower_keys_unique (items : dict pyval) :
  unique_keys (lowered_items items) = true ->
  lower_keys items = lowered_items items.
Proof.
  intros Hu. unfold lower_keys.
  rewrite (fold_dict_set_unique _ Hu []) by (intros; reflexivity).
  reflexivity.
Qed.

(** X9: header names are matched without regard to case on extraction.
    For a carrier in which no two names differ only in case,
    [TextCodec.extract] and [B3Codec.extract] give the same result, or the
    same error, on the carrier and on the carrier with every name put in
    lower case. Two names that differ only in case are two entries for the
    code, read one after the other, and one entry once in lower case: there
    the results can differ. *)
Theorem extract_header_names_case_insensitive (items : dict pyval) :
  unique_keys (lowered_items items) = true ->
  (forall unquote self,
      TextCodec.extract unquote self (CDict (lower_keys items))
      = TextCodec.extract unquote self (CDict items))
  /\ (forall S D,
         B3Codec.extract S D (CDict (lower_keys items))
         = B3Codec.extract S D (CDict items)).
Proof.
  intros Hu. rewrite (lower_keys_unique items Hu). split.
  - intros unquote self. unfold TextCodec.extract.
    rewrite loop_lowered_items. reflexivity.
  - intros S D. unfold B3Codec.extract.
    rewrite b3_loop_lowered_items. reflexivity.
Qed.

Lemma extract_header_names_case_insensitive_witness :
  unique_keys
    (lowered_items [("Uber-Trace-ID", PStr "ff:1:0:1"); ("UberCtx-K", PStr "v");
                    ("X-B3-TraceId", PStr "ff"); ("x-b3-spanid", PStr "1")])
  = true
  /\ (forall unquote self,
         TextCodec.extract unquote self
           (CDict (lower_keys
                     [("Uber-Trace-ID", PStr "ff:1:0:1"); ("UberCtx-K", PStr "v");
                      ("X-B3-TraceId", PStr "ff"); ("x-b3-spanid", PStr "1")]))
         = TextCodec.extract unquote self
             (CDict [("Uber-Trace-ID", PStr "ff:1:0:1"); ("UberCtx-K", PStr "v");
                     ("X-B3-TraceId", PStr "ff"); ("x-b3-spanid", PStr "1")]))
  /\ (forall S D,
         B3Codec.extract S D
           (CDict (lower_keys
                     [("Uber-Trace-ID", PStr "ff:1:0:1"); ("UberCtx-K", PStr "v");
                      ("X-B3-TraceId", PStr "ff"); ("x-b3-spanid", PStr "1")]))
         = B3Codec.extract S D
             (CDict [("Uber-Trace-ID", PStr "ff:1:0:1"); ("UberCtx-K", PStr "v");
                     ("X-B3-TraceId", PStr "ff"); ("x-b3-spanid", PStr "1")])).
Proof.
  split; [reflexivity |].
  apply (extract_header_names_case_insensitive
           [("Uber-Trace-ID", PStr "ff:1:0:1"); ("UberCtx-K", PStr "v");
            ("X-B3-TraceId", PStr "ff"); ("x-b3-spanid", PStr "1")]).
  reflexivity.
Defined.

(** Two names that differ only in case: the carrier is read entry by
    entry and fails on the first, its lower-cased [dict] holds the second
    value only. *)
Example lower_keys_merges_names :
  TextCodec.extract (fun v => Ok v) TextCodec.default
    (CDict [("Uber-Trace-Id", PStr "nothex:1:0:1");
            ("uber-trace-id", PStr "1:1:0:1")])
  = Raise SpanContextCorruptedException
  /\ lower_keys [("Uber-Trace-Id", PStr "nothex:1:0:1");
                 ("uber-trace-id", PStr "1:1:0:1")]
     = [("uber-trace-id", PStr "1:1:0:1")]
  /\ TextCodec.extract (fun v => Ok v) TextCodec.default
       (CDict (lower_keys [("Uber-Trace-Id", PStr "nothex:1:0:1");
                           ("uber-trace-id", PStr "1:1:0:1")]))
     = Ok (Some (mkSpanContext (PInt 1) (PInt 1) PNone (PInt 1) None PNone)).
Proof.
  repeat split; vm_compute; reflexivity.
Qed.

(** ** TextCodec.extract: when it raises, and what ids it returns *)

Section TextExtractErrors.

Variable unquote : pyval -> result pyval.
Variable self : TextCodec.t.

Local Abbreviation step := (TextCodec.extract_step unquote self).
Local Abbreviation loop := (TextCodec.extract_loop unquote self).

(** With percent-decoding off, a step on a string value raises only in
    the trace header branch, and what it raises is what the decoder
    raised. *)
Lemma step_on_string_raise_inv (st : TextCodec.locals) (key s : string)
  (e : exn) :
  TextCodec.url_encoding self = false ->
  step st (key, PStr s) = Raise e ->
  lower key = TextCodec.trace_id_header self
  /\ span_context_from_string (PStr s) = Raise e.
Proof.
  intros Hu. unfold TextCodec.extract_step, TextCodec.decoded.
  rewrite Hu. cbn [bind].
  destruct (String.eqb_spec (lower key) (TextCodec.trace_id_header self))
    as [Hk | Hk].
  - destruct (span_context_from_string (PStr s)) as [[[[t sp] pa] f] | e'];
      cbn [bind]; [discriminate |].
    intros H; inversion H; subst e'. split; [assumption | reflexivity].
  - destruct (startswith (lower key) (TextCodec.baggage_prefix self));
      [discriminate |].
    destruct (String.eqb (lower key) (TextCodec.debug_id_header self));
      [discriminate |].
    destruct (String.eqb (lower key) (TextCodec.baggage_header self));
      [| discriminate].
    rewrite parse_baggage_header_fold. discriminate.
Qed.

Lemma loop_on_strings_raise_inv (items : dict pyval) :
  TextCodec.url_encoding self = false ->
  Forall (fun item => exists s, snd item = PStr s) items ->
  forall st e,
    loop items st = Raise e ->
    exists key s,
      In (key, PStr s) items
      /\ lower key = TextCodec.trace_id_header self
      /\ span_context_from_string (PStr s) = Raise e.
Proof.
  intros Hu Hall. induction Hall as [| [k v] items [s Hs] Hall IH];
    intros st e; [rewrite loop_nil; discriminate |].
  rewrite loop_cons. cbn [snd] in Hs; subst v.
  destruct (step st (k, PStr s)) as [st' | e'] eqn:E; cbn [bind].
  - intros H. destruct (IH _ _ H) as (key & s' & Hin & Hk & Hd).
    exists key, s'. split; [right; assumption | auto].
  - intros H; inversion H; subst e'.
    destruct (step_on_string_raise_inv _ _ _ _ Hu E) as [Hk Hd].
    exists k, s. split; [left; reflexivity | auto].
Qed.

(** The ids of the locals are absent or valid, at every turn. *)
Lemma from_string_ok_ids (value t s p f : pyval) :
  span_context_from_string value = Ok (t, s, p, f) ->
  ids_absent_or_valid t s p f.
Proof.
  intros H.
  destruct (header_text value) as [text |] eqn:Ht;
    [| rewrite (from_string_no_text _ Ht) in H; discriminate].
  rewrite (from_string_text _ _ Ht), from_string_PStr in H.
  destruct (split ":" text) as [| p0 [| p1 [| p2 [| p3 [| p4 r]]]]];
    try discriminate.
  destruct (int16 p0) as [zt |], (int16 p1) as [zs |], (int16 p2) as [zp |],
    (int16 p3) as [zf |]; try discriminate.
  destruct ((zt <? 1) || (zs <? 1) || (zp <? 0) || (zf <? 0)) eqn:Hr;
    [discriminate |].
  rewrite !orb_false_iff, !Z.ltb_ge in Hr.
  inversion H; subst. right. exists zt, zs, zf.
  repeat split; try lia.
  destruct (Z.eqb_spec zp 0); [left; reflexivity |].
  right. exists zp. split; [reflexivity | lia].
Qed.

Lemma step_keeps_ids (st st' : TextCodec.locals) (item : string * pyval) :
  ids_absent_or_valid (TextCodec.l_trace_id st) (TextCodec.l_span_id st)
    (TextCodec.l_parent_id st) (TextCodec.l_flags st) ->
  step st item = Ok st' ->
  ids_absent_or_valid (TextCodec.l_trace_id st') (TextCodec.l_span_id st')
    (TextCodec.l_parent_id st') (TextCodec.l_flags st').
Proof.
  intros Hst. destruct item as [key value]. unfold TextCodec.extract_step.
  destruct (String.eqb (lower key) (TextCodec.trace_id_header self)).
  { destruct (TextCodec.decoded unquote self value) as [v |]; cbn [bind];
      [| discriminate].
    destruct (span_context_from_string v) as [[[[t sp] pa] f] |] eqn:E;
      cbn [bind]; [| discriminate].
    intros H; inversion H; subst st'. cbn.
    apply (from_string_ok_ids _ _ _ _ _ E). }
  destruct (startswith (lower key) (TextCodec.baggage_prefix self)).
  { destruct (TextCodec.decoded unquote self value) as [v |]; cbn [bind];
      [| discriminate].
    intros H; inversion H; subst st'. exact Hst. }
  destruct (String.eqb (lower key) (TextCodec.debug_id_header self)).
  { destruct (TextCodec.decoded unquote self value) as [v |]; cbn [bind];
      [| discriminate].
    intros H; inversion H; subst st'. exact Hst. }
  destruct (String.eqb (lower key) (TextCodec.baggage_header self)).
  { destruct (TextCodec.decoded unquote self value) as [v |]; cbn [bind];
      [| discriminate].
    destruct (TextCodec._parse_baggage_header v (TextCodec.l_baggage st));
      cbn [bind]; [| discriminate].
    intros H; inversion H; subst st'. exact Hst. }
  intros H; inversion H; subst st'. exact Hst.
Qed.

Lemma loop_keeps_ids (items : dict pyval) :
  forall st st',
    ids_absent_or_valid (TextCodec.l_trace_id st) (TextCodec.l_span_id st)
      (TextCodec.l_parent_id st) (TextCodec.l_flags st) ->
    loop items st = Ok st' ->
    ids_absent_or_valid (TextCodec.l_trace_id st') (TextCodec.l_span_id st')
      (TextCodec.l_parent_id st') (TextCodec.l_flags st').
Proof.
  induction items as [| item items IH]; intros st st' Hst.
  - rewrite loop_nil. intros H; inversion H; subst st'; assumption.
  - rewrite loop_cons.
    destruct (step st item) as [st1 |] eqn:E; cbn [bind]; [| discriminate].
    apply IH. apply (step_keeps_ids _ _ _ Hst E).
Qed.

End TextExtractErrors.

(** X10: with percent-decoding off and string header values,
    [TextCodec.extract] raises exactly when some entry named as the trace
    header holds a value that [span_context_from_string] rejects, and it
    raises nothing but [SpanContextCorruptedException]; otherwise it
    returns. *)
Theorem text_extract_raises_iff
  (unquote : pyval -> result pyval) (self : TextCodec.t) (items : dict pyval) :
  TextCodec.url_encoding self = false ->
  Forall (fun item => exists s, snd item = PStr s) items ->
  (TextCodec.extract unquote self (CDict items)
   = Raise SpanContextCorruptedException
   <-> exists key s,
         In (key, PStr s) items
         /\ lower key = TextCodec.trace_id_header self
         /\ span_context_from_string (PStr s)
            = Raise SpanContextCorruptedException)
  /\ (forall e, TextCodec.extract unquote self (CDict items) = Raise e ->
                e = SpanContextCorruptedException)
  /\ ((forall key s,
          In (key, PStr s) items ->
          lower key = TextCodec.trace_id_header self ->
          exists r, span_context_from_string (PStr s) = Ok r) ->
      exists r, TextCodec.extract unquote self (CDict items) = Ok r).
Proof.
  intros Hu Hall.
  assert (Honly : forall e, TextCodec.extract unquote self (CDict items) = Raise e ->
                            e = SpanContextCorruptedException).
  { intros e. unfold TextCodec.extract.
    destruct (TextCodec.extract_loop unquote self items TextCodec.initial)
      as [st | e'] eqn:E; cbn [bind]; [discriminate |].
    intros H; inversion H; subst e'.
    apply (loop_on_strings_raises_only unquote self items Hu Hall _ _ E). }
  assert (Hinv : forall e, TextCodec.extract unquote self (CDict items) = Raise e ->
                           exists key s,
                             In (key, PStr s) items
                             /\ lower key = TextCodec.trace_id_header self
                             /\ span_context_from_string (PStr s) = Raise e).
  { intros e. unfold TextCodec.extract.
    destruct (TextCodec.extract_loop unquote self items TextCodec.initial)
      as [st | e'] eqn:E; cbn [bind]; [discriminate |].
    intros H; inversion H; subst e'.
    apply (loop_on_strings_raise_inv unquote self items Hu Hall _ _ E). }
  split; [split |].
  - apply Hinv.
  - intros (key & s & Hin & Hk & Hd).
    assert (Hr : exists e', TextCodec.extract_loop unquote self items
                              TextCodec.initial = Raise e').
    { apply (loop_raises_at unquote self items (key, PStr s) Hin).
      intros st. exists SpanContextCorruptedException.
      apply step_trace_header_raises; [assumption |].
      unfold TextCodec.decoded. rewrite Hu. exact Hd. }
    destruct Hr as [e' He'].
    unfold TextCodec.extract. rewrite He'. cbn [bind]. f_equal.
    apply (loop_on_strings_raises_only unquote self items Hu Hall _ _ He').
  - split; [exact Honly |].
    intros Hgood.
    destruct (TextCodec.extract unquote self (CDict items)) as [r | e] eqn:E;
      [eauto |].
    destruct (Hinv e eq_refl) as (key & s & Hin & Hk & Hd).
    destruct (Hgood key s Hin Hk) as [r Hr]. rewrite Hr in Hd. discriminate.
Qed.

Lemma text_extract_raises_iff_witness :
  (TextCodec.extract (fun v => Ok v) TextCodec.default
     (CDict [("uberctx-a", PStr "1"); ("Uber-Trace-Id", PStr "ff:1:0");
             ("jaeger-debug-id", PStr "x")])
   = Raise SpanContextCorruptedException
   <-> exists key s,
         In (key, PStr s)
           [("uberctx-a", PStr "1"); ("Uber-Trace-Id", PStr "ff:1:0");
            ("jaeger-debug-id", PStr "x")]
         /\ lower key = TextCodec.trace_id_header TextCodec.default
         /\ span_context_from_string (PStr s)
            = Raise SpanContextCorruptedException)
  /\ (forall e,
         TextCodec.extract (fun v => Ok v) TextCodec.default
           (CDict [("uberctx-a", PStr "1"); ("Uber-Trace-Id", PStr "ff:1:0");
                   ("jaeger-debug-id", PStr "x")]) = Raise e ->
         e = SpanContextCorruptedException)
  /\ ((forall key s,
          In (key, PStr s)
            [("uberctx-a", PStr "1"); ("Uber-Trace-Id", PStr "ff:1:0");
             ("jaeger-debug-id", PStr "x")] ->
          lower key = TextCodec.trace_id_header TextCodec.default ->
          exists r, span_context_from_string (PStr s) = Ok r) ->
      exists r,
        TextCodec.extract (fun v => Ok v) TextCodec.default
          (CDict [("uberctx-a", PStr "1"); ("Uber-Trace-Id", PStr "ff:1:0");
                  ("jaeger-debug-id", PStr "x")]) = Ok r).
Proof.
  refine (text_extract_raises_iff (fun v => Ok v) TextCodec.default
            [("uberctx-a", PStr "1"); ("Uber-Trace-Id", PStr "ff:1:0");
             ("jaeger-debug-id", PStr "x")] _ _).
  - reflexivity.
  - repeat constructor; eexists; reflexivity.
Defined.

(** The constructor stores trace fields of that kind as they are. *)
Lemma constructed_valid_ids (t s p f : pyval) (b : option (dict pyval))
  (d : pyval) :
  ids_absent_or_valid t s p f ->
  mkSpanContext t s p f b d = Build_SpanContext t s p f b d.
Proof.
  intros [(_ & _ & -> & _)
         | (zt & zs & zf & _ & _ & _ & _ & _ & _ & [-> | (zp & -> & Hp)])];
    try reflexivity.
  unfold mkSpanContext. destruct zp; try reflexivity; lia.
Qed.

Lemma text_extract_ids_absent_or_valid_lemma
  (unquote : pyval -> result pyval) (self : TextCodec.t)
  (items : dict pyval) (ctx : SpanContext) :
  TextCodec.extract unquote self (CDict items) = Ok (Some ctx) ->
  ids_absent_or_valid (trace_id ctx) (span_id ctx) (parent_id ctx) (flags ctx).
Proof.
  unfold TextCodec.extract.
  destruct (TextCodec.extract_loop unquote self items TextCodec.initial)
    as [st |] eqn:E; cbn [bind]; [| discriminate].
  assert (Hst : ids_absent_or_valid (TextCodec.l_trace_id st)
                  (TextCodec.l_span_id st) (TextCodec.l_parent_id st)
                  (TextCodec.l_flags st)).
  { apply (loop_keeps_ids unquote self items TextCodec.initial st); [| exact E].
    left. repeat split. }
  unfold TextCodec.extract_finish.
  destruct (negb (truthy (TextCodec.l_trace_id st))
            || negb (truthy (TextCodec.l_span_id st)))%bool.
  - destruct (_ && _ && _)%bool; intros H; inversion H; subst ctx.
    left. repeat split.
  - destruct (_ && _ && _)%bool; intros H; inversion H; subst ctx.
    rewrite (constructed_valid_ids _ _ _ _ _ _ Hst). exact Hst.
Qed.


(** X11: the trace fields of a context that [TextCodec.extract] returns
    are all absent, or all those of a well-formed trace header: a trace id
    and a span id of at least 1, flags that are not negative, and a parent
    that is absent or at least 1 (never the integer 0). This holds for
    every carrier, every configuration and every [unquote]. *)
Theorem text_extract_ids_absent_or_valid
  (unquote : pyval -> result pyval) (self : TextCodec.t)
  (items : dict pyval) (ctx : SpanContext) :
  TextCodec.extract unquote self (CDict items) = Ok (Some ctx) ->
  ids_absent_or_valid (trace_id ctx) (span_id ctx) (parent_id ctx) (flags ctx).
Proof.
  apply text_extract_ids_absent_or_valid_lemma.
Qed.

Lemma text_extract_ids_absent_or_valid_witness :
  ids_absent_or_valid (PInt 255) (PInt 1) PNone (PInt 1).
Proof.
  exact (text_extract_ids_absent_or_valid (fun v => Ok v) TextCodec.default
           [("Uber-Trace-Id", PStr "ff:1:0:1"); ("uberctx-k", PStr "v")]
           (mkSpanContext (PInt 255) (PInt 1) PNone (PInt 1)
              (Some [("k", PStr "v")]) PNone)
           eq_refl).
Defined.

(** ** B3Codec, written and read back *)

Lemma all_hex_zeros (n : nat) : all_hex (zeros n) = true.
Proof.
  induction n as [| n IH]; [reflexivity | exact IH].
Qed.

Lemma hex_fold_zeros (n : nat) (s : string) :
  hex_fold (zeros n ++ s) 0 = hex_fold s 0.
Proof.
  induction n as [| n IH]; [reflexivity | exact IH].
Qed.

(** Zero padding does not change the number a hex text spells. *)
Lemma int16_zfill_hex_of_Z (width : nat) (z : Z) :
  int16 (zfill width (hex_of_Z z)) = Some z.
Proof.
  unfold hex_of_Z. destruct (Z.ltb_spec z 0) as [H | H].
  - destruct (hex_of_N_spec (Z.to_N (- z))) as (Hall & Hne & Hval).
    unfold zfill. cbn [Ascii.eqb Bool.eqb orb andb].
    change (Ascii.eqb "-" "+") with false. change (Ascii.eqb "-" "-") with true.
    cbv iota. cbn [orb].
    rewrite int16_minus_digits.
    + rewrite hex_fold_zeros, Hval. f_equal. lia.
    + rewrite all_hex_app, all_hex_zeros, Hall. reflexivity.
    + destruct (zeros _); [cbn [append]; assumption | discriminate].
  - destruct (hex_of_N_spec (Z.to_N z)) as (Hall & Hne & Hval).
    destruct (hex_of_N (Z.to_N z)) as [| c r] eqn:E; [contradiction |].
    pose proof Hall as Hc. cbn [all_hex] in Hc.
    destruct (hex_value c) as [d |] eqn:Hd; [| discriminate].
    destruct (hex_value_char c d Hd) as (_ & _ & _ & _ & Hp & Hm & _).
    unfold zfill. rewrite Hp, Hm. cbn [orb].
    rewrite int16_digits.
    + rewrite hex_fold_zeros, Hval. f_equal. lia.
    + rewrite all_hex_app, all_hex_zeros, Hall. reflexivity.
    + destruct (zeros _); discriminate.
Qed.

Lemma header_to_hex_zfill (width : nat) (z : Z) :
  header_to_hex (PStr (zfill width (hex_of_Z z))) = Ok (PInt z).
Proof.
  unfold header_to_hex, py_int16. rewrite int16_zfill_hex_of_Z. reflexivity.
Qed.

Lemma b3_loop_app (S D : Z) (a b : dict pyval) :
  forall st,
    B3Codec.extract_loop S D (a ++ b)%list st
    = (st' <- B3Codec.extract_loop S D a st ;; B3Codec.extract_loop S D b st').
Proof.
  induction a as [| item a IH]; intros st; [reflexivity |].
  cbn [app]. rewrite !b3_loop_cons.
  destruct (B3Codec.extract_step S D st item); cbn [bind];
    [apply IH | reflexivity].
Qed.

(** What [B3Codec.inject] puts into an empty [dict]. *)
Lemma b3_inject_empty (S D : Z) (self : B3Codec.t) (ctx : SpanContext)
  (t s f : Z) :
  trace_id ctx = PInt t -> span_id ctx = PInt s -> flags ctx = PInt f ->
  (parent_id ctx = PNone \/ exists p, parent_id ctx = PInt p) ->
  B3Codec.inject S D self ctx (CDict [])
  = Ok (CDict
          ([(B3Codec.trace_header,
             PStr (zfill (if B3Codec.generate_128bit_trace_id self then 32 else 16)
                     (hex_of_Z t)));
            (B3Codec.span_header, PStr (zfill 16 (hex_of_Z s)))]
           ++ match parent_id ctx with
              | PInt p => [(B3Codec.parent_span_header, PStr (zfill 16 (hex_of_Z p)))]
              | _ => []
              end
           ++ (if Z.land f D =? D then [(B3Codec.flags_header, PStr "1")]
               else if Z.land f S =? S then [(B3Codec.sampled_header, PStr "1")]
               else []))%list).
Proof.
  intros Ht Hs Hf Hp. unfold B3Codec.inject, B3Codec.has_flag.
  rewrite Ht, Hs, Hf. cbn [format_x bind].
  destruct Hp as [Hp | [p Hp]]; rewrite Hp; cbn [is_none negb format_x bind];
    destruct (B3Codec.generate_128bit_trace_id self);
    destruct (Z.land f D =? D); cbn [bind];
    try reflexivity;
    destruct (Z.land f S =? S); reflexivity.
Qed.

(** X12: [B3Codec.inject] into an empty [dict] followed by
    [B3Codec.extract], for a context whose trace id and span id are
    integers other than 0, returns the context that the constructor builds
    from the same trace id, span id and parent id, in 64-bit and in 128-bit
    mode alike. The flags come back as the DEBUG mask when the DEBUG bits
    were set, else as the SAMPLED mask when those were set, else as 0;
    baggage and debug id are not carried. *)
Theorem b3_round_trip (S D : Z) (self : B3Codec.t) (ctx : SpanContext)
  (t s f : Z) :
  trace_id ctx = PInt t -> t <> 0 ->
  span_id ctx = PInt s -> s <> 0 ->
  flags ctx = PInt f ->
  (parent_id ctx = PNone \/ exists p, parent_id ctx = PInt p) ->
  exists d,
    B3Codec.inject S D self ctx (CDict []) = Ok (CDict d) /\
    B3Codec.extract S D (CDict d)
    = Ok (Some (mkSpanContext (PInt t) (PInt s) (parent_id ctx)
                  (PInt (if Z.land f D =? D then D
                         else if Z.land f S =? S then S else 0))
                  None PNone)).
Proof.
  intros Ht Ht0 Hs Hs0 Hf Hp.
  eexists. split; [apply (b3_inject_empty S D self ctx t s f Ht Hs Hf Hp) |].
  unfold B3Codec.extract.
  rewrite b3_loop_app, b3_loop_cons.
  assert (E1 : forall st v,
             B3Codec.extract_step S D st (B3Codec.trace_header, PStr v)
             = (x <- header_to_hex (PStr v) ;;
                Ok (B3Codec.mkLocals x (B3Codec.l_span_id st)
                      (B3Codec.l_parent_id st) (B3Codec.l_flags st))))
    by reflexivity.
  assert (E2 : forall st v,
             B3Codec.extract_step S D st (B3Codec.span_header, PStr v)
             = (x <- header_to_hex (PStr v) ;;
                Ok (B3Codec.mkLocals (B3Codec.l_trace_id st) x
                      (B3Codec.l_parent_id st) (B3Codec.l_flags st))))
    by reflexivity.
  assert (E3 : forall st v,
             B3Codec.extract_step S D st (B3Codec.parent_span_header, PStr v)
             = (x <- header_to_hex (PStr v) ;;
                Ok (B3Codec.mkLocals (B3Codec.l_trace_id st)
                      (B3Codec.l_span_id st) x (B3Codec.l_flags st))))
    by reflexivity.
  assert (E4 : forall st,
             B3Codec.extract_step S D st (B3Codec.flags_header, PStr "1")
             = Ok (B3Codec.mkLocals (B3Codec.l_trace_id st)
                     (B3Codec.l_span_id st) (B3Codec.l_parent_id st)
                     (Z.lor (B3Codec.l_flags st) D)))
    by reflexivity.
  assert (E5 : forall st,
             B3Codec.extract_step S D st (B3Codec.sampled_header, PStr "1")
             = Ok (B3Codec.mkLocals (B3Codec.l_trace_id st)
                     (B3Codec.l_span_id st) (B3Codec.l_parent_id st)
                     (Z.lor (B3Codec.l_flags st) S)))
    by reflexivity.
  assert (Hnil : forall st, B3Codec.extract_loop S D [] st = Ok st)
    by reflexivity.
  assert (Htt : truthy (PInt t) = true)
    by (cbn; apply negb_true_iff, Z.eqb_neq; assumption).
  assert (Hts : truthy (PInt s) = true)
    by (cbn; apply negb_true_iff, Z.eqb_neq; assumption).
  rewrite E1, header_to_hex_zfill. cbn [bind].
  rewrite b3_loop_cons, E2, header_to_hex_zfill. cbn [bind].
  rewrite Hnil. cbn [bind].
  rewrite b3_loop_app.
  cbn [B3Codec.l_trace_id B3Codec.l_span_id B3Codec.l_parent_id
         B3Codec.l_flags B3Codec.initial].
  destruct Hp as [Hp | [p Hp]]; rewrite Hp.
  - rewrite Hnil. cbn [bind].
    destruct (Z.land f D =? D); [| destruct (Z.land f S =? S)].
    + rewrite b3_loop_cons, E4. cbn [bind]. rewrite Hnil. cbn [bind].
      cbn [B3Codec.l_trace_id B3Codec.l_span_id B3Codec.l_parent_id
             B3Codec.l_flags].
      rewrite Htt, Hts. reflexivity.
    + rewrite b3_loop_cons, E5. cbn [bind]. rewrite Hnil. cbn [bind].
      cbn [B3Codec.l_trace_id B3Codec.l_span_id B3Codec.l_parent_id
             B3Codec.l_flags].
      rewrite Htt, Hts. reflexivity.
    + rewrite Hnil. cbn [bind].
      cbn [B3Codec.l_trace_id B3Codec.l_span_id B3Codec.l_parent_id
             B3Codec.l_flags].
      rewrite Htt, Hts. reflexivity.
  - rewrite b3_loop_cons, E3, header_to_hex_zfill. cbn [bind].
    rewrite Hnil. cbn [bind].
    cbn [B3Codec.l_trace_id B3Codec.l_span_id B3Codec.l_parent_id
           B3Codec.l_flags].
    destruct (Z.land f D =? D); [| destruct (Z.land f S =? S)].
    + rewrite b3_loop_cons, E4. cbn [bind]. rewrite Hnil. cbn [bind].
      cbn [B3Codec.l_trace_id B3Codec.l_span_id B3Codec.l_parent_id
             B3Codec.l_flags].
      rewrite Htt, Hts. reflexivity.
    + rewrite b3_loop_cons, E5. cbn [bind]. rewrite Hnil. cbn [bind].
      cbn [B3Codec.l_trace_id B3Codec.l_span_id B3Codec.l_parent_id
             B3Codec.l_flags].
      rewrite Htt, Hts. reflexivity.
    + rewrite Hnil. cbn [bind].
      cbn [B3Codec.l_trace_id B3Codec.l_span_id B3Codec.l_parent_id
             B3Codec.l_flags].
      rewrite Htt, Hts. reflexivity.
Qed.

Lemma b3_round_trip_witness :
  exists d,
    B3Codec.inject 1 2 (B3Codec.__init__ true)
      (mkSpanContext (PInt 1339673755198158349044581307228491536) (PInt 127)
         (PInt 5) (PInt 3) (Some [("k", PStr "v")]) (PStr "dbg"))
      (CDict []) = Ok (CDict d) /\
    B3Codec.extract 1 2 (CDict d)
    = Ok (Some (mkSpanContext (PInt 1339673755198158349044581307228491536)
                  (PInt 127) (PInt 5)
                  (PInt (if Z.land 3 2 =? 2 then 2
                         else if Z.land 3 1 =? 1 then 1 else 0))
                  None PNone)).
Proof.
  refine (b3_round_trip 1 2 (B3Codec.__init__ true)
            (mkSpanContext (PInt 1339673755198158349044581307228491536)
               (PInt 127) (PInt 5) (PInt 3) (Some [("k", PStr "v")]) (PStr "dbg"))
            1339673755198158349044581307228491536 127 3 _ _ _ _ _ _).
  - reflexivity.
  - discriminate.
  - reflexivity.
  - discriminate.
  - reflexivity.
  - right. exists 5. reflexivity.
Defined.

(** ** B3Codec.extract: what it raises and what it returns *)

Lemma header_to_hex_result (v : pyval) :
  (forall r, header_to_hex v = Ok r -> exists z, r = PInt z)
  /\ (forall e, header_to_hex v = Raise e -> e = SpanContextCorruptedException).
Proof.
  unfold header_to_hex, py_int16.
  destruct v as [| z | s | l]; try (split; intros x H; inversion H; reflexivity).
  destruct (int16 s) as [z |]; cbn [bind except_ValueError];
    split; intros x H; inversion H; eauto.
Qed.

Lemma b3_flags_or (S D x : Z) :
  b3_flags S D x -> b3_flags S D (Z.lor x S) /\ b3_flags S D (Z.lor x D).
Proof.
  assert (E1 : Z.lor D S = Z.lor S D) by apply Z.lor_comm.
  assert (E2 : Z.lor (Z.lor S D) S = Z.lor S D).
  { apply Z.bits_inj'. intros n _. rewrite !Z.lor_spec.
    destruct (Z.testbit S n), (Z.testbit D n); reflexivity. }
  assert (E3 : Z.lor (Z.lor S D) D = Z.lor S D).
  { apply Z.bits_inj'. intros n _. rewrite !Z.lor_spec.
    destruct (Z.testbit S n), (Z.testbit D n); reflexivity. }
  unfold b3_flags. intros [-> | [-> | [-> | ->]]].
  - rewrite !Z.lor_0_l. auto.
  - rewrite Z.lor_diag. auto.
  - rewrite Z.lor_diag, E1. auto.
  - rewrite E2, E3. auto.
Qed.

Lemma b3_step_invariant (S D : Z) (st : B3Codec.locals) (item : string * pyval) :
  none_or_int (B3Codec.l_trace_id st) ->
  none_or_int (B3Codec.l_span_id st) ->
  none_or_int (B3Codec.l_parent_id st) ->
  b3_flags S D (B3Codec.l_flags st) ->
  (forall e, B3Codec.extract_step S D st item = Raise e ->
             e = SpanContextCorruptedException)
  /\ (forall st', B3Codec.extract_step S D st item = Ok st' ->
                  none_or_int (B3Codec.l_trace_id st') /\
                  none_or_int (B3Codec.l_span_id st') /\
                  none_or_int (B3Codec.l_parent_id st') /\
                  b3_flags S D (B3Codec.l_flags st')).
Proof.
  intros Ht Hs Hp Hf. destruct item as [key value].
  destruct (b3_flags_or S D _ Hf) as [HfS HfD].
  destruct (header_to_hex_result value) as [Hok Hraise].
  unfold B3Codec.extract_step.
  destruct (is_none value);
    [split; intros x H; inversion H; subst; auto |].
  destruct (String.eqb (lower key) B3Codec._trace_header_lc).
  { destruct (header_to_hex value) as [r | e0]; cbn [bind].
    - split; intros x H; inversion H; subst. cbn.
      destruct (Hok r eq_refl) as [z ->]. unfold none_or_int; eauto 6.
    - split; intros x H; inversion H; subst. apply Hraise; reflexivity. }
  destruct (String.eqb (lower key) B3Codec._span_header_lc).
  { destruct (header_to_hex value) as [r | e0]; cbn [bind].
    - split; intros x H; inversion H; subst. cbn.
      destruct (Hok r eq_refl) as [z ->]. unfold none_or_int; eauto 6.
    - split; intros x H; inversion H; subst. apply Hraise; reflexivity. }
  destruct (String.eqb (lower key) B3Codec._parent_span_header_lc).
  { destruct (header_to_hex value) as [r | e0]; cbn [bind].
    - split; intros x H; inversion H; subst. cbn.
      destruct (Hok r eq_refl) as [z ->]. unfold none_or_int; eauto 6.
    - split; intros x H; inversion H; subst. apply Hraise; reflexivity. }
  destruct (String.eqb (lower key) B3Codec._sampled_header_lc
            && eq_str value "1")%bool;
    [split; intros x H; inversion H; subst; cbn; auto |].
  destruct (String.eqb (lower key) B3Codec._flags_header_lc
            && eq_str value "1")%bool;
    split; intros x H; inversion H; subst; cbn; auto.
Qed.

Lemma b3_loop_invariant (S D : Z) (items : dict pyval) :
  forall st,
    none_or_int (B3Codec.l_trace_id st) ->
    none_or_int (B3Codec.l_span_id st) ->
    none_or_int (B3Codec.l_parent_id st) ->
    b3_flags S D (B3Codec.l_flags st) ->
    (forall e, B3Codec.extract_loop S D items st = Raise e ->
               e = SpanContextCorruptedException)
    /\ (forall st', B3Codec.extract_loop S D items st = Ok st' ->
                    none_or_int (B3Codec.l_trace_id st') /\
                    none_or_int (B3Codec.l_span_id st') /\
                    none_or_int (B3Codec.l_parent_id st') /\
                    b3_flags S D (B3Codec.l_flags st')).
Proof.
  induction items as [| item items IH]; intros st Ht Hs Hp Hf.
  - split; intros x H; inversion H; subst; auto.
  - rewrite b3_loop_cons.
    destruct (b3_step_invariant S D st item Ht Hs Hp Hf) as [Hr Ho].
    destruct (B3Codec.extract_step S D st item) as [st1 | e1]; cbn [bind].
    + destruct (Ho st1 eq_refl) as (H1 & H2 & H3 & H4).
      apply IH; assumption.
    + split; intros x H; inversion H; subst. apply Hr; reflexivity.
Qed.

(** X13: on a [dict], [B3Codec.extract] raises nothing but
    [SpanContextCorruptedException]; and a context it returns has an
    integer trace id and an integer span id, both other than 0, a parent
    that is [None] or an integer, flags that are 0, the SAMPLED mask, the
    DEBUG mask or both masks together, no baggage and no debug id. *)
Theorem b3_extract_result (S D : Z) (items : dict pyval) :
  (forall e, B3Codec.extract S D (CDict items) = Raise e ->
             e = SpanContextCorruptedException)
  /\ (forall ctx,
         B3Codec.extract S D (CDict items) = Ok (Some ctx) ->
         exists t s fl,
           trace_id ctx = PInt t /\ t <> 0 /\
           span_id ctx = PInt s /\ s <> 0 /\
           none_or_int (parent_id ctx) /\
           flags ctx = PInt fl /\ b3_flags S D fl /\
           baggage ctx = None /\ debug_id ctx = PNone).
Proof.
  assert (Hinit : none_or_int PNone) by (left; reflexivity).
  destruct (b3_loop_invariant S D items B3Codec.initial Hinit Hinit Hinit
              (or_introl eq_refl)) as [Hr Ho].
  unfold B3Codec.extract.
  destruct (B3Codec.extract_loop S D items B3Codec.initial) as [st | e0];
    cbn [bind].
  - split.
    + intros e. destruct (_ || _)%bool; discriminate.
    + intros ctx.
      destruct (Ho st eq_refl) as (Ht & Hs & Hp & Hf).
      destruct (truthy (B3Codec.l_trace_id st)) eqn:Et; cbn [negb orb];
        [| discriminate].
      destruct (truthy (B3Codec.l_span_id st)) eqn:Es; cbn [negb];
        [| discriminate].
      intros H; inversion H; subst ctx.
      rewrite constructed_parent_id.
      cbn [mkSpanContext trace_id span_id flags baggage debug_id].
      destruct Ht as [Ht | [t Ht]]; rewrite Ht in Et; [discriminate |].
      destruct Hs as [Hs | [s Hs]]; rewrite Hs in Es; [discriminate |].
      cbn in Et, Es. apply negb_true_iff, Z.eqb_neq in Et.
      apply negb_true_iff, Z.eqb_neq in Es.
      exists t, s, (B3Codec.l_flags st). rewrite Ht, Hs.
      repeat split; auto.
      destruct Hp as [-> | [p ->]]; [left; reflexivity |].
      destruct p; [left | right; eexists | right; eexists]; reflexivity.
  - split; [| discriminate].
    intros e H; inversion H; subst. apply Hr; reflexivity.
Qed.

(** ** A context without a trace id *)

(** X15: a context that [TextCodec.extract] returns without a trace id,
    as it does for a carrier that holds only baggage or a debug id, cannot
    be written by [TextCodec.inject], [BinaryCodec.inject] or
    [B3Codec.inject]: on a carrier of the right kind each of them raises
    [TypeError]. [ZipkinCodec.inject] writes it, with [None] in the four
    fields. *)
Theorem extracted_context_without_trace_id
  (unquote quote : pyval -> result pyval) (self : TextCodec.t)
  (items : dict pyval) (ctx : SpanContext) :
  TextCodec.extract unquote self (CDict items) = Ok (Some ctx) ->
  truthy (trace_id ctx) = false ->
  (forall other d, TextCodec.inject quote other ctx (CDict d) = Raise TypeError)
  /\ (forall data, BinaryCodec.inject ctx (CBytearray data) = Raise TypeError)
  /\ (forall S D b3 d, B3Codec.inject S D b3 ctx (CDict d) = Raise TypeError)
  /\ (forall d, exists d',
         ZipkinCodec.inject ctx (CDict d) = Ok (CDict d') /\
         dict_get d' "trace_id" = Some PNone /\
         dict_get d' "span_id" = Some PNone /\
         dict_get d' "parent_id" = Some PNone /\
         dict_get d' "traceflags" = Some PNone).
Proof.
  intros Hex Hfalsy.
  pose proof (text_extract_ids_absent_or_valid_lemma unquote self items ctx Hex)
    as Hids.
  destruct Hids as [(Ht & Hs & Hp & Hf) | (zt & zs & zf & Ht & Hzt & _)].
  2: { rewrite Ht in Hfalsy. cbn in Hfalsy.
       apply negb_false_iff, Z.eqb_eq in Hfalsy. lia. }
  split; [| split; [| split]].
  - intros other d. unfold TextCodec.inject, span_context_to_string.
    rewrite Ht. reflexivity.
  - intros data. unfold BinaryCodec.inject. rewrite Ht. reflexivity.
  - intros S D b3 d. unfold B3Codec.inject. rewrite Ht. reflexivity.
  - intros d. eexists. split; [reflexivity |].
    rewrite Ht, Hs, Hp, Hf. rewrite !dict_get_set. repeat split.
Qed.

Lemma extracted_context_without_trace_id_witness :
  (forall other d,
      TextCodec.inject (fun v => Ok v) other
        (mkSpanContext PNone PNone PNone PNone (Some [("k", PStr "v")])
           (PStr "debug-me")) (CDict d) = Raise TypeError)
  /\ (forall data,
         BinaryCodec.inject
           (mkSpanContext PNone PNone PNone PNone (Some [("k", PStr "v")])
              (PStr "debug-me")) (CBytearray data) = Raise TypeError)
  /\ (forall S D b3 d,
         B3Codec.inject S D b3
           (mkSpanContext PNone PNone PNone PNone (Some [("k", PStr "v")])
              (PStr "debug-me")) (CDict d) = Raise TypeError)
  /\ (forall d, exists d',
         ZipkinCodec.inject
           (mkSpanContext PNone PNone PNone PNone (Some [("k", PStr "v")])
              (PStr "debug-me")) (CDict d) = Ok (CDict d') /\
         dict_get d' "trace_id" = Some PNone /\
         dict_get d' "span_id" = Some PNone /\
         dict_get d' "parent_id" = Some PNone /\
         dict_get d' "traceflags" = Some PNone).
Proof.
  exact (extracted_context_without_trace_id (fun v => Ok v) (fun v => Ok v)
           TextCodec.default
           [("jaeger-debug-id", PStr "debug-me"); ("uberctx-k", PStr "v")]
           (mkSpanContext PNone PNone PNone PNone (Some [("k", PStr "v")])
              (PStr "debug-me"))
           eq_refl eq_refl).
Defined.

(** ** TextCodec.__init__: the configured names *)

Lemma normalize_char_lower (c : ascii) :
  lower_char (if Ascii.eqb (lower_char c) "_" then "-"%char else lower_char c)
  = (if Ascii.eqb (lower_char c) "_" then "-"%char else lower_char c).
Proof.
  destruct c as [[] [] [] [] [] [] [] []]; reflexivity.
Qed.

Lemma normalize_char_no_underscore (c : ascii) :
  Ascii.eqb (if Ascii.eqb c "_" then "-"%char else c) "_" = false.
Proof.
  destruct c as [[] [] [] [] [] [] [] []]; reflexivity.
Qed.

Lemma lower_char_underscore (c : ascii) :
  Ascii.eqb (lower_char c) "_" = Ascii.eqb c "_".
Proof.
  destruct c as [[] [] [] [] [] [] [] []]; reflexivity.
Qed.

Lemma lower_normalize (name : string) :
  lower (TextCodec.normalize name) = TextCodec.normalize name.
Proof.
  unfold TextCodec.normalize.
  induction name as [| c name IH]; [reflexivity |].
  cbn [lower replace_char]. rewrite normalize_char_lower, IH. reflexivity.
Qed.

Lemma normalize_no_underscore (name : string) :
  count_char "_" (TextCodec.normalize name) = O.
Proof.
  unfold TextCodec.normalize.
  induction name as [| c name IH]; [reflexivity |].
  cbn [lower replace_char count_char].
  rewrite normalize_char_no_underscore, IH. reflexivity.
Qed.

Lemma count_underscore_lower (s : string) :
  count_char "_" (lower s) = count_char "_" s.
Proof.
  induction s as [| c s IH]; [reflexivity |].
  cbn [lower count_char]. rewrite lower_char_underscore, IH. reflexivity.
Qed.

Lemma normalize_length (name : string) :
  String.length (TextCodec.normalize name) = String.length name.
Proof.
  unfold TextCodec.normalize.
  induction name as [| c name IH]; [reflexivity |].
  cbn [lower replace_char String.length]. rewrite IH. reflexivity.
Qed.

Lemma text_codec_init_names_lemma
  (url_encoding : bool) (th bp dh bh : string) :
  lower (TextCodec.trace_id_header (TextCodec.__init__ url_encoding th bp dh bh))
  = TextCodec.trace_id_header (TextCodec.__init__ url_encoding th bp dh bh)
  /\ lower (TextCodec.debug_id_header (TextCodec.__init__ url_encoding th bp dh bh))
     = TextCodec.debug_id_header (TextCodec.__init__ url_encoding th bp dh bh)
  /\ lower (TextCodec.baggage_prefix (TextCodec.__init__ url_encoding th bp dh bh))
     = TextCodec.baggage_prefix (TextCodec.__init__ url_encoding th bp dh bh)
  /\ TextCodec.prefix_length (TextCodec.__init__ url_encoding th bp dh bh)
     = String.length
         (TextCodec.baggage_prefix (TextCodec.__init__ url_encoding th bp dh bh))
  /\ (forall key,
         count_char "_" key <> O ->
         String.eqb (lower key)
           (TextCodec.trace_id_header (TextCodec.__init__ url_encoding th bp dh bh))
         = false
         /\ String.eqb (lower key)
              (TextCodec.debug_id_header
                 (TextCodec.__init__ url_encoding th bp dh bh))
            = false)
  /\ (lower bh <> bh ->
      forall key,
        String.eqb (lower key)
          (TextCodec.baggage_header (TextCodec.__init__ url_encoding th bp dh bh))
        = false).
Proof.
  cbn [TextCodec.__init__ TextCodec.trace_id_header TextCodec.debug_id_header
         TextCodec.baggage_prefix TextCodec.prefix_length
         TextCodec.baggage_header].
  split; [apply lower_normalize |].
  split; [apply lower_normalize |].
  split; [apply lower_normalize |].
  split; [symmetry; apply normalize_length |].
  split.
  - intros key Hu.
    split; apply String.eqb_neq; intros E; apply Hu;
      rewrite <- count_underscore_lower, E; apply normalize_no_underscore.
  - intros Hbh key. apply String.eqb_neq. intros E. apply Hbh.
    rewrite <- E. apply lower_idem.
Qed.


(** X16: what [TextCodec.__init__] makes of the configured names, and what
    follows for [extract], which compares the lower-cased name of an entry
    with them. The trace header, the debug header and the baggage prefix
    are kept in lower case with hyphens for underscores, so they are
    their own lower case, and [prefix_length] is the length of the stored
    prefix. The names of a carrier are not normalised that way: a name
    that holds an underscore is never the trace header nor the debug
    header, even when it is the very name the codec was configured with.
    The aggregated baggage header is stored as given: configured with an
    upper-case letter, it is matched by no name at all. *)
Theorem text_codec_init_names
  (url_encoding : bool) (th bp dh bh : string) :
  lower (TextCodec.trace_id_header (TextCodec.__init__ url_encoding th bp dh bh))
  = TextCodec.trace_id_header (TextCodec.__init__ url_encoding th bp dh bh)
  /\ lower (TextCodec.debug_id_header (TextCodec.__init__ url_encoding th bp dh bh))
     = TextCodec.debug_id_header (TextCodec.__init__ url_encoding th bp dh bh)
  /\ lower (TextCodec.baggage_prefix (TextCodec.__init__ url_encoding th bp dh bh))
     = TextCodec.baggage_prefix (TextCodec.__init__ url_encoding th bp dh bh)
  /\ TextCodec.prefix_length (TextCodec.__init__ url_encoding th bp dh bh)
     = String.length
         (TextCodec.baggage_prefix (TextCodec.__init__ url_encoding th bp dh bh))
  /\ (forall key,
         count_char "_" key <> O ->
         String.eqb (lower key)
           (TextCodec.trace_id_header (TextCodec.__init__ url_encoding th bp dh bh))
         = false
         /\ String.eqb (lower key)
              (TextCodec.debug_id_header
                 (TextCodec.__init__ url_encoding th bp dh bh))
            = false)
  /\ (lower bh <> bh ->
      forall key,
        String.eqb (lower key)
          (TextCodec.baggage_header (TextCodec.__init__ url_encoding th bp dh bh))
        = false).
Proof.
  apply text_codec_init_names_lemma.
Qed.

(** ** TextCodec._parse_baggage_header: what stays and what wins *)

Lemma split_nonempty (sep : ascii) (s : string) :
  exists h t, split sep s = h :: t.
Proof.
  pose proof (split_length sep s) as H.
  destruct (split sep s) as [| h t]; [discriminate | eauto].
Qed.

Lemma split_app_both (sep : ascii) (a b : string) :
  split sep (a ++ String sep b) = (split sep a ++ split sep b)%list.
Proof.
  induction a as [| c a IH]; cbn [append split].
  - rewrite Ascii.eqb_refl. reflexivity.
  - rewrite IH. destruct (Ascii.eqb c sep); [reflexivity |].
    destruct (split_nonempty sep a) as (h & t & E). rewrite E. reflexivity.
Qed.

(** X17: [_parse_baggage_header] on a string never raises and never drops
    an entry the baggage already had; when the header ends in a pair with
    exactly one [=], that pair is in the result, whatever came before it
    under the same key: the last pair wins. On a value that is not a
    string it raises [AttributeError]. *)
Theorem parse_baggage_header_last_wins :
  (forall header b, exists r,
      TextCodec._parse_baggage_header (PStr header) b = Ok r)
  /\ (forall header d k v,
         dict_get d k = Some v ->
         exists d' v',
           TextCodec._parse_baggage_header (PStr header) (Some d) = Ok (Some d')
           /\ dict_get d' k = Some v')
  /\ (forall header part b,
         count_char "," part = O ->
         count_char "=" (strip part) = 1%nat ->
         exists d',
           TextCodec._parse_baggage_header (PStr (header ++ String "," part)) b
           = Ok (Some d')
           /\ dict_get d' (before "=" (strip part))
              = Some (PStr (after "=" (strip part))))
  /\ (forall v b,
         (forall s, v <> PStr s) ->
         TextCodec._parse_baggage_header v b = Raise AttributeError).
Proof.
  split; [intros header b; rewrite parse_baggage_header_fold; eauto |].
  split.
  { intros header d k v Hd. rewrite parse_baggage_header_fold.
    destruct (fold_keep_pair_keeps (split "," header) (Some d) k)
      as (d' & v' & E & Hd'); [eauto |].
    exists d', v'. rewrite E. auto. }
  split.
  { intros header part b Hc He. rewrite parse_baggage_header_fold.
    rewrite split_app_both, (split_no_sep _ _ Hc), fold_left_app.
    cbn [fold_left]. unfold keep_pair at 1. rewrite He. cbn [Nat.eqb].
    eexists. split; [reflexivity |].
    rewrite dict_get_set, String.eqb_refl. reflexivity. }
  intros v b H. destruct v as [| z | s | l]; try reflexivity.
  exfalso. apply (H s). reflexivity.
Qed.

(** ** TextCodec, written and read back *)

Lemma prefix_append (p k : string) : String.prefix p (p ++ k) = true.
Proof.
  induction p as [| c p IH]; [destruct k; reflexivity |].
  cbn [append String.prefix]. destruct (ascii_dec c c); [exact IH | contradiction].
Qed.

Lemma str_drop_append (p k : string) : str_drop (String.length p) (p ++ k) = k.
Proof.
  induction p as [| c p IH]; [reflexivity | exact IH].
Qed.

Lemma eqb_append_prefix (p a b : string) :
  String.eqb (p ++ a) (p ++ b) = String.eqb a b.
Proof.
  induction p as [| c p IH]; [reflexivity |].
  cbn [append String.eqb]. rewrite Ascii.eqb_refl. exact IH.
Qed.

Section TextRoundTrip.

Variable quote : pyval -> result pyval.
Variable unquote : pyval -> result pyval.
Variable self : TextCodec.t.

Hypothesis plain : TextCodec.url_encoding self = false.
Hypothesis trace_lower :
  lower (TextCodec.trace_id_header self) = TextCodec.trace_id_header self.
Hypothesis prefix_lower :
  lower (TextCodec.baggage_prefix self) = TextCodec.baggage_prefix self.
Hypothesis prefix_length_ok :
  TextCodec.prefix_length self = String.length (TextCodec.baggage_prefix self).

Local Abbreviation step := (TextCodec.extract_step unquote self).
Local Abbreviation loop := (TextCodec.extract_loop unquote self).
Local Abbreviation item_header := (baggage_header_item self).

Lemma inject_baggage_fold (items c : dict pyval) :
  TextCodec.inject_baggage quote self items c
  = Ok (fold_left (fun d item => dict_set d (fst (item_header item))
                                   (snd (item_header item))) items c).
Proof.
  revert c; induction items as [| [k v] items IH]; intros c; [reflexivity |].
  cbn [TextCodec.inject_baggage fold_left]. rewrite plain. cbn [bind].
  apply IH.
Qed.

Lemma dict_get_item_headers (items : dict pyval) (k : string) :
  dict_get (map item_header items) (TextCodec.baggage_prefix self ++ k)
  = dict_get items k.
Proof.
  induction items as [| [k' v'] items IH]; [reflexivity |].
  cbn [map dict_get baggage_header_item fst snd].
  rewrite eqb_append_prefix, IH. reflexivity.
Qed.

Lemma unique_item_headers (items : dict pyval) :
  unique_keys items = true -> unique_keys (map item_header items) = true.
Proof.
  induction items as [| [k v] items IH]; [reflexivity |].
  cbn [unique_keys map baggage_header_item fst snd].
  rewrite dict_get_item_headers.
  destruct (dict_get items k); [discriminate | exact IH].
Qed.

Lemma fold_left_map_items {A : Type} (f : A -> string * pyval -> A)
  (items : dict pyval) (a : A) :
  fold_left f (map item_header items) a
  = fold_left (fun x item => f x (item_header item)) items a.
Proof.
  revert a; induction items as [| item items IH]; intros a; [reflexivity |].
  cbn [map fold_left]. apply IH.
Qed.

(** What [inject] leaves in an empty [dict]: the trace header, then one
    header for each baggage item, in order. *)
Lemma inject_baggage_headers (items : dict pyval) (header : string) :
  unique_keys items = true ->
  Forall (plain_key self) items ->
  TextCodec.inject_baggage quote self items
    [(TextCodec.trace_id_header self, PStr header)]
  = Ok ((TextCodec.trace_id_header self, PStr header) :: map item_header items).
Proof.
  intros Hu Hk. rewrite inject_baggage_fold. f_equal.
  rewrite <- (fold_left_map_items
                (fun d item => dict_set d (fst item) (snd item))).
  rewrite fold_dict_set_unique; [reflexivity | apply unique_item_headers, Hu |].
  intros k v Hin. apply in_map_iff in Hin as ([k0 v0] & E & Hin).
  unfold baggage_header_item in E. cbn [fst snd] in E. inversion E; subst.
  cbn [dict_get].
  rewrite Forall_forall in Hk. destruct (Hk _ Hin) as [_ Hne]. cbn [fst] in Hne.
  destruct (String.eqb_spec (TextCodec.trace_id_header self)
              (TextCodec.baggage_prefix self ++ k0)) as [E' | _];
    [exfalso; apply Hne; symmetry; exact E' | reflexivity].
Qed.

Lemma step_item_header (st : TextCodec.locals) (item : string * pyval) :
  plain_key self item ->
  step st (item_header item)
  = Ok (TextCodec.mkLocals (TextCodec.l_trace_id st) (TextCodec.l_span_id st)
          (TextCodec.l_parent_id st) (TextCodec.l_flags st)
          (add_baggage (TextCodec.l_baggage st) item)
          (TextCodec.l_debug_id st)).
Proof.
  intros [Hl Hne]. destruct item as [k v]. cbn [fst snd] in *.
  unfold TextCodec.extract_step, baggage_header_item, TextCodec.decoded.
  cbn [fst snd].
  rewrite lower_append, prefix_lower, Hl.
  apply String.eqb_neq in Hne. rewrite Hne.
  unfold startswith. rewrite prefix_append, plain. cbn [bind].
  rewrite prefix_length_ok, str_drop_append, Hl.
  unfold add_baggage. cbn [fst snd].
  destruct (TextCodec.l_baggage st); reflexivity.
Qed.

Lemma loop_item_headers (items : dict pyval) :
  Forall (plain_key self) items ->
  forall st,
    loop (map item_header items) st
    = Ok (TextCodec.mkLocals (TextCodec.l_trace_id st) (TextCodec.l_span_id st)
            (TextCodec.l_parent_id st) (TextCodec.l_flags st)
            (fold_left add_baggage items (TextCodec.l_baggage st))
            (TextCodec.l_debug_id st)).
Proof.
  intros Hk. induction Hk as [| item items Hi Hk IH]; intros st.
  - destruct st; reflexivity.
  - cbn [map]. rewrite loop_cons, (step_item_header st item Hi). cbn [bind].
    rewrite IH. reflexivity.
Qed.

Lemma fold_add_baggage_some (items d : dict pyval) :
  fold_left add_baggage items (Some d)
  = Some (fold_left (fun x item => dict_set x (fst item) (snd item)) items d).
Proof.
  revert d; induction items as [| item items IH]; intros d; [reflexivity |].
  cbn [fold_left]. unfold add_baggage at 2. apply IH.
Qed.

(** Read back, a baggage with each key once is the baggage that was
    written; an empty one is read as none at all. *)
Lemma fold_add_baggage_unique (items : dict pyval) :
  unique_keys items = true ->
  fold_left add_baggage items None
  = match items with [] => None | _ :: _ => Some items end.
Proof.
  destruct items as [| [k v] items]; [reflexivity |].
  cbn [unique_keys]. destruct (dict_get items k) eqn:Hk; [discriminate |].
  intros Hu. cbn [fold_left]. unfold add_baggage at 2. cbn [fst snd].
  rewrite fold_add_baggage_some.
  rewrite (fold_dict_set_unique items Hu); [reflexivity |].
  intros k' v' Hin. cbn [dict_get].
  destruct (String.eqb_spec k k') as [-> | _]; [| reflexivity].
  exfalso. apply (dict_get_in items k' v' Hin). exact Hk.
Qed.

End TextRoundTrip.

(** X18: [TextCodec.inject] into an empty [dict] followed by
    [TextCodec.extract], for a codec built by [TextCodec.__init__] with
    percent-encoding off, and a context with a trace id and a span id of
    at least 1, flags and parent not negative, and a baggage whose keys
    are in lower case, occur once, and do not make the name of the trace
    header when the prefix is put in front. [inject] writes the trace
    header and one header for each baggage item; [extract] returns the
    same ids and flags, the parent with 0 turned into [None], and the same
    baggage in the same order, an empty baggage being read as none. The
    debug id is not carried. *)
Theorem text_codec_round_trip
  (quote unquote : pyval -> result pyval) (self : TextCodec.t)
  (th bp dh bh : string) (ctx : SpanContext) (t s f : Z) (b : dict pyval) :
  self = TextCodec.__init__ false th bp dh bh ->
  trace_id ctx = PInt t -> 1 <= t ->
  span_id ctx = PInt s -> 1 <= s ->
  flags ctx = PInt f -> 0 <= f ->
  (parent_id ctx = PNone \/ exists p, parent_id ctx = PInt p /\ 0 <= p) ->
  match baggage ctx with Some x => x | None => [] end = b ->
  unique_keys b = true ->
  Forall (plain_key self) b ->
  exists d,
    TextCodec.inject quote self ctx (CDict []) = Ok (CDict d) /\
    List.length d = S (List.length b) /\
    TextCodec.extract unquote self (CDict d)
    = Ok (Some (mkSpanContext (PInt t) (PInt s)
                  (if truthy (parent_id ctx) then parent_id ctx else PNone)
                  (PInt f)
                  match b with [] => None | _ :: _ => Some b end
                  PNone)).
Proof.
  intros Hself Ht Ht1 Hs Hs1 Hf Hf0 Hp Hb Hu Hk.
  destruct (text_codec_init_names_lemma false th bp dh bh)
    as (Htl & _ & Hpl & Hlen & _).
  rewrite <- Hself in Htl, Hpl, Hlen.
  assert (Hplain : TextCodec.url_encoding self = false)
    by (rewrite Hself; reflexivity).
  destruct (combined_header_round_trip_lemma t s f (parent_id ctx) Ht1 Hs1 Hf0 Hp)
    as (w & Hw & Hr & _).
  exists ((TextCodec.trace_id_header self, PStr w)
          :: map (baggage_header_item self) b).
  split; [| split].
  - unfold TextCodec.inject. rewrite Ht, Hs, Hf, Hw. cbn [bind dict_set].
    destruct (baggage ctx) as [[| x r] |]; cbn [baggage_falsy] in *; subst b;
      try reflexivity.
    rewrite (inject_baggage_headers quote self Hplain (x :: r) w Hu Hk).
    reflexivity.
  - cbn [List.length]. rewrite length_map. reflexivity.
  - unfold TextCodec.extract. rewrite loop_cons.
    assert (Hstep : forall st,
               TextCodec.extract_step unquote self st
                 (TextCodec.trace_id_header self, PStr w)
               = Ok (TextCodec.mkLocals (PInt t) (PInt s)
                       (if truthy (parent_id ctx) then parent_id ctx else PNone)
                       (PInt f) (TextCodec.l_baggage st)
                       (TextCodec.l_debug_id st))).
    { intros st. unfold TextCodec.extract_step, TextCodec.decoded.
      rewrite Htl, String.eqb_refl, Hplain. cbn [bind]. rewrite Hr.
      reflexivity. }
    rewrite Hstep. cbn [bind].
    rewrite (loop_item_headers unquote self Hplain Hpl Hlen b Hk). cbn [bind].
    cbn [TextCodec.l_trace_id TextCodec.l_span_id TextCodec.l_parent_id
           TextCodec.l_flags TextCodec.l_baggage TextCodec.l_debug_id
           TextCodec.initial].
    rewrite (fold_add_baggage_unique b Hu).
    unfold TextCodec.extract_finish.
    cbn [TextCodec.l_trace_id TextCodec.l_span_id TextCodec.l_parent_id
           TextCodec.l_flags TextCodec.l_baggage TextCodec.l_debug_id].
    assert (Htt : truthy (PInt t) = true)
      by (cbn; apply negb_true_iff, Z.eqb_neq; lia).
    assert (Hts : truthy (PInt s) = true)
      by (cbn; apply negb_true_iff, Z.eqb_neq; lia).
    rewrite Htt, Hts. cbn [negb orb]. cbv beta iota zeta.
    rewrite Htt. reflexivity.
Qed.

Lemma text_codec_round_trip_witness :
  exists d,
    TextCodec.inject (fun v => Ok v)
      (TextCodec.__init__ false "Trace_ID" "Trace-Attr-" "jaeger-debug-id"
         "jaeger-baggage")
      (Build_SpanContext (PInt 256) (PInt 127) (PInt 0) (PInt 1)
         (Some [("fruit", PStr "apple"); ("k", PStr "v")]) (PStr "dbg"))
      (CDict []) = Ok (CDict d) /\
    List.length d = 3%nat /\
    TextCodec.extract (fun v => Ok v)
      (TextCodec.__init__ false "Trace_ID" "Trace-Attr-" "jaeger-debug-id"
         "jaeger-baggage") (CDict d)
    = Ok (Some (mkSpanContext (PInt 256) (PInt 127) PNone (PInt 1)
                  (Some [("fruit", PStr "apple"); ("k", PStr "v")]) PNone)).
Proof.
  refine (text_codec_round_trip (fun v => Ok v) (fun v => Ok v)
            (TextCodec.__init__ false "Trace_ID" "Trace-Attr-" "jaeger-debug-id"
               "jaeger-baggage")
            "Trace_ID" "Trace-Attr-" "jaeger-debug-id" "jaeger-baggage"
            (Build_SpanContext (PInt 256) (PInt 127) (PInt 0) (PInt 1)
               (Some [("fruit", PStr "apple"); ("k", PStr "v")]) (PStr "dbg"))
            256 127 1 [("fruit", PStr "apple"); ("k", PStr "v")]
            _ _ _ _ _ _ _ _ _ _ _).
  - reflexivity.
  - reflexivity.
  - lia.
  - reflexivity.
  - lia.
  - reflexivity.
  - lia.
  - right. exists 0. split; [reflexivity | lia].
  - reflexivity.
  - reflexivity.
  - repeat constructor; discriminate.
Defined.

(** ** inject: what is left alone *)

Lemma inject_baggage_other_keys (quote : pyval -> result pyval)
  (self : TextCodec.t) (items : dict pyval) :
  forall c c',
    TextCodec.inject_baggage quote self items c = Ok c' ->
    forall k,
      startswith k (TextCodec.baggage_prefix self) = false ->
      dict_get c' k = dict_get c k.
Proof.
  induction items as [| [key value] items IH]; intros c c'.
  - intros H; inversion H; reflexivity.
  - cbn [TextCodec.inject_baggage].
    destruct (if TextCodec.url_encoding self then quote value else Ok value)
      as [encoded |]; cbn [bind]; [| discriminate].
    intros H k Hk. rewrite (IH _ _ H k Hk), dict_get_set.
    destruct (String.eqb_spec (TextCodec.baggage_prefix self ++ key) k)
      as [E | _]; [| reflexivity].
    subst k. unfold startswith in Hk. rewrite prefix_append in Hk. discriminate.
Qed.

(** X19: [inject] touches only its own headers. After
    [TextCodec.inject] on a [dict], every key that is not the trace header
    and does not start with the baggage prefix holds what it held before;
    after [B3Codec.inject], every key other than the five B3 header names
    does. This holds whenever [inject] returns, with or without
    percent-encoding. *)
Theorem inject_leaves_other_keys :
  (forall quote self ctx d d' k,
      TextCodec.inject quote self ctx (CDict d) = Ok (CDict d') ->
      k <> TextCodec.trace_id_header self ->
      startswith k (TextCodec.baggage_prefix self) = false ->
      dict_get d' k = dict_get d k)
  /\ (forall S D self ctx d d' k,
         B3Codec.inject S D self ctx (CDict d) = Ok (CDict d') ->
         ~ In k [B3Codec.trace_header; B3Codec.span_header;
                 B3Codec.parent_span_header; B3Codec.sampled_header;
                 B3Codec.flags_header] ->
         dict_get d' k = dict_get d k).
Proof.
  split.
  - intros quote self ctx d d' k. unfold TextCodec.inject.
    destruct (span_context_to_string (trace_id ctx) (span_id ctx)
                (parent_id ctx) (flags ctx)) as [header |]; cbn [bind];
      [| discriminate].
    intros H Hk Hp.
    assert (Hset : dict_get (dict_set d (TextCodec.trace_id_header self)
                               (PStr header)) k = dict_get d k).
    { rewrite dict_get_set.
      destruct (String.eqb_spec (TextCodec.trace_id_header self) k);
        [exfalso; apply Hk; symmetry; assumption | reflexivity]. }
    destruct (baggage_falsy (baggage ctx)).
    + inversion H; subst d'. exact Hset.
    + destruct (TextCodec.inject_baggage quote self
                  match baggage ctx with Some b => b | None => [] end
                  (dict_set d (TextCodec.trace_id_header self) (PStr header)))
        as [c' |] eqn:E; cbn [bind] in H; [| discriminate].
      inversion H; subst d'.
      rewrite (inject_baggage_other_keys quote self _ _ _ E k Hp). exact Hset.
  - intros S D self ctx d d' k. unfold B3Codec.inject, B3Codec.has_flag.
    intros H Hk. cbn [In] in Hk.
    assert (K1 : String.eqb B3Codec.trace_header k = false)
      by (apply String.eqb_neq; tauto).
    assert (K2 : String.eqb B3Codec.span_header k = false)
      by (apply String.eqb_neq; tauto).
    assert (K3 : String.eqb B3Codec.parent_span_header k = false)
      by (apply String.eqb_neq; tauto).
    assert (K4 : String.eqb B3Codec.sampled_header k = false)
      by (apply String.eqb_neq; tauto).
    assert (K5 : String.eqb B3Codec.flags_header k = false)
      by (apply String.eqb_neq; tauto).
    destruct (format_x (trace_id ctx)) as [t |]; cbn [bind] in H;
      [| discriminate].
    destruct (format_x (span_id ctx)) as [s |]; cbn [bind] in H;
      [| discriminate].
    set (d1 := if B3Codec.generate_128bit_trace_id self
               then dict_set d B3Codec.trace_header (PStr (zfill 32 t))
               else dict_set d B3Codec.trace_header (PStr (zfill 16 t))) in H.
    assert (H1 : dict_get d1 k = dict_get d k).
    { unfold d1. destruct (B3Codec.generate_128bit_trace_id self);
        rewrite dict_get_set, K1; reflexivity. }
    set (d2 := dict_set d1 B3Codec.span_header (PStr (zfill 16 s))) in H.
    assert (H2 : dict_get d2 k = dict_get d k)
      by (unfold d2; rewrite dict_get_set, K2; exact H1).
    destruct (negb (is_none (parent_id ctx))).
    + destruct (format_x (parent_id ctx)) as [p |]; cbn [bind] in H;
        [| discriminate].
      destruct (flags ctx) as [| f | |]; cbn [bind] in H; try discriminate.
      destruct (Z.land f D =? D); [| cbn [bind] in H;
                                     destruct (Z.land f S =? S)];
        inversion H; subst d'; rewrite ?dict_get_set, ?K3, ?K4, ?K5; exact H2.
    + cbn [bind] in H.
      destruct (flags ctx) as [| f | |]; cbn [bind] in H; try discriminate.
      destruct (Z.land f D =? D); [| cbn [bind] in H;
                                     destruct (Z.land f S =? S)];
        inversion H; subst d'; rewrite ?dict_get_set, ?K4, ?K5; exact H2.
Qed.
